(** * ExpenseAI backend: category management and payment verification

    A shallow embedding of the request handlers of the backend
    (category-type routes, income-category routes, the expense-category
    service, the payment verification and webhook handlers) over an
    explicit model of the Postgres tables they talk to through the
    Supabase client. *)

From Stdlib Require Import String Ascii List Bool NArith ZArith Arith Lia.
From Stdlib Require Import Sorted Permutation.
From Stdlib Require DecimalString.
Import ListNotations.

Local Open Scope string_scope.
Local Open Scope list_scope.
Local Open Scope nat_scope.

(** ** JavaScript strings

    A JavaScript string is a sequence of UTF-16 code units; [length]
    counts code units, as [String.prototype.length] does. *)

Definition jsstring := list N.

(** Literals of the source, given as Rocq strings. *)
Definition u (s : string) : jsstring :=
  map N_of_ascii (list_ascii_of_string s).

Fixpoint jsstring_eqb (a b : jsstring) : bool :=
  match a, b with
  | [], [] => true
  | x :: a', y :: b' => N.eqb x y && jsstring_eqb a' b'
  | _, _ => false
  end.

(** Code-unit-wise ordering, used for [ORDER BY] on text columns. *)
Fixpoint jsstring_leb (a b : jsstring) : bool :=
  match a, b with
  | [], _ => true
  | _ :: _, [] => false
  | x :: a', y :: b' =>
      if N.ltb x y then true
      else if N.eqb x y then jsstring_leb a' b' else false
  end.

(** ECMAScript WhiteSpace and LineTerminator code points: the set that
    [String.prototype.trim] strips and that [\s] matches. *)
Definition isWhiteSpace (c : N) : bool :=
  ((9 <=? c) && (c <=? 13) || (c =? 32) || (c =? 160) || (c =? 5760)
   || ((8192 <=? c) && (c <=? 8202)) || (c =? 8232) || (c =? 8233)
   || (c =? 8239) || (c =? 8287) || (c =? 12288) || (c =? 65279))%N.

Fixpoint trimStart (s : jsstring) : jsstring :=
  match s with
  | [] => []
  | c :: s' => if isWhiteSpace c then trimStart s' else s
  end.

Definition trimEnd (s : jsstring) : jsstring := rev (trimStart (rev s)).

Definition trim (s : jsstring) : jsstring := trimEnd (trimStart s).

(** ** JavaScript values of a parsed JSON body

    [JObject] stands for any array or object; it carries the string
    that [String(v)] yields for it and its JSON text,
    [JSON.stringify(v)].  Numbers are the integer-valued ones. *)

Inductive jsval : Type :=
| JUndefined
| JNull
| JBool (b : bool)
| JNum (z : Z)
| JStr (s : jsstring)
| JObject (repr json : jsstring).

Definition is_string (v : jsval) : bool :=
  match v with JStr _ => true | _ => false end.

(** ToBoolean. *)
Definition truthy (v : jsval) : bool :=
  match v with
  | JUndefined | JNull => false
  | JBool b => b
  | JNum z => negb (Z.eqb z 0)
  | JStr s => match s with [] => false | _ => true end
  | JObject _ _ => true
  end.

(** Strict equality [v === s] against a string. *)
Definition strict_eq_string (v : jsval) (s : jsstring) : bool :=
  match v with
  | JStr t => jsstring_eqb t s
  | _ => false
  end.

(** The [.length] of a value that is known to be a string. *)
Definition js_length (v : jsval) : nat :=
  match v with JStr s => length s | _ => 0 end.

(** ** Responses

    Every JSON response follows the envelope
    [{success, data?, message?}] and carries an HTTP status. *)

Record response (D : Type) : Type := mkResponse {
  status : nat;
  success : bool;
  message : option string;
  data : option D
}.

Arguments mkResponse {D} _ _ _ _.
Arguments status {D} _.
Arguments success {D} _.
Arguments message {D} _.
Arguments data {D} _.

Definition fail_with {D : Type} (code : nat) (msg : string) : response D :=
  mkResponse code false (Some msg) None.

(** ** Category-type validation middleware (routes/categoryTypes.js) *)

Record category_type_body : Type := mkCategoryTypeBody {
  ctb_type_name : jsval;
  ctb_description : jsval
}.

(** The body as the middleware leaves it for the handler:
    [type_name] trimmed, [description] trimmed or [null]. *)
Record category_type_input : Type := mkCategoryTypeInput {
  cti_type_name : jsstring;
  cti_description : option jsstring
}.

Inductive middleware (D In : Type) : Type :=
| Respond (r : response D)
| Next (b : In).

Arguments Respond {D In} _.
Arguments Next {D In} _.

(** [/^[a-zA-Z\s\-']+$/] *)
Definition characterOnlyClass (c : N) : bool :=
  ((97 <=? c) && (c <=? 122) || (65 <=? c) && (c <=? 90)
   || isWhiteSpace c || (c =? 45) || (c =? 39))%N.

Definition characterOnlyRegex_test (s : jsstring) : bool :=
  match s with
  | [] => false
  | _ :: _ => forallb characterOnlyClass s
  end.

Definition msg_type_name_required : string :=
  "Type name is required and must be a non-empty string".
Definition msg_type_name_too_long : string :=
  "Type name must be 50 characters or less".
Definition msg_type_name_characters : string :=
  "Type name must contain only letters, spaces, hyphens, and apostrophes".
Definition msg_description_string : string :=
  "Description must be a string".
Definition msg_description_too_long : string :=
  "Description must be 200 characters or less".

Definition validateCategoryType {D : Type} (body : category_type_body)
  : middleware D category_type_input :=
  let type_name := ctb_type_name body in
  let description := ctb_description body in
  match type_name with
  | JStr name =>
      if negb (truthy type_name) || (length (trim name) =? 0) then
        Respond (fail_with 400 msg_type_name_required)
      else if 50 <? length (trim name) then
        Respond (fail_with 400 msg_type_name_too_long)
      else
        let trimmedName := trim name in
        if negb (characterOnlyRegex_test trimmedName) then
          Respond (fail_with 400 msg_type_name_characters)
        else if truthy description && negb (is_string description) then
          Respond (fail_with 400 msg_description_string)
        else if truthy description && (200 <? js_length description) then
          Respond (fail_with 400 msg_description_too_long)
        else
          Next {| cti_type_name := trimmedName;
                  cti_description :=
                    match description with
                    | JStr d => if truthy description then Some (trim d) else None
                    | _ => None
                    end |}
  | _ => Respond (fail_with 400 msg_type_name_required)
  end.

(** ** Tables (the SQL scripts of the repository) *)

Definition uuid := jsstring.
Definition timestamp := jsstring.

Record category_type : Type := mkCategoryType {
  ct_id : uuid;
  ct_type_name : jsstring;
  ct_description : option jsstring;
  ct_created_at : timestamp;
  ct_updated_at : timestamp
}.

(** An element of the JSONB [subcategories] list of an expense category. *)
Record subcategory : Type := mkSubcategory {
  sub_name : jsstring;
  sub_icon : option jsstring;
  sub_isRecurring : bool;
  sub_frequency : option jsstring
}.

Record expense_category : Type := mkExpenseCategory {
  ec_id : uuid;
  ec_category : jsstring;
  ec_icon : option jsstring;
  ec_subcategories : list subcategory;
  ec_category_type_id : option uuid;
  ec_is_active : bool;
  ec_created_at : timestamp;
  ec_updated_at : timestamp
}.

Record income_category : Type := mkIncomeCategory {
  ic_id : uuid;
  ic_name : jsstring;
  ic_category_type_id : option uuid;
  ic_created_at : timestamp;
  ic_updated_at : timestamp
}.

Record income_subcategory : Type := mkIncomeSubcategory {
  isc_id : uuid;
  isc_category_id : uuid;
  isc_name : jsstring;
  isc_is_recurring : bool;
  isc_created_at : timestamp;
  isc_updated_at : timestamp
}.

Inductive payment_status : Type :=
| created | authorized | captured | failed | refunded.

Record payment : Type := mkPayment {
  pay_id : uuid;
  pay_user_id : uuid;
  pay_expense_id : option uuid;
  pay_amount : Z;
  pay_currency : jsstring;
  pay_status : payment_status;
  pay_razorpay_order_id : option jsstring;
  pay_razorpay_payment_id : option jsstring;
  pay_razorpay_signature : option jsstring;
  pay_method : option jsstring;
  pay_email : option jsstring;
  pay_contact : option jsstring;
  pay_created_at : timestamp;
  pay_verified_at : option timestamp;
  pay_updated_at : timestamp
}.

(** Expense records name their category by value. *)
Record expense : Type := mkExpense {
  exp_id : uuid;
  exp_user_id : uuid;
  exp_amount : Z;
  exp_category : jsstring;
  exp_subcategory : option jsstring;
  exp_description : option jsstring
}.

(** Income records name their category by value and, by
    [category_id] and [subcategory_id], by reference
    ([ON DELETE SET NULL] on both). *)
Record income : Type := mkIncome {
  inc_id : uuid;
  inc_user_id : uuid;
  inc_amount : Z;
  inc_category : jsstring;
  inc_subcategory : option jsstring;
  inc_category_id : option uuid;
  inc_subcategory_id : option uuid;
  inc_updated_at : timestamp
}.

Record database : Type := mkDatabase {
  category_types : list category_type;
  expense_categories : list expense_category;
  income_categories : list income_category;
  income_subcategories : list income_subcategory;
  payments : list payment;
  expenses : list expense;
  incomes : list income
}.

Definition set_category_types (db : database) (t : list category_type) : database :=
  mkDatabase t (expense_categories db) (income_categories db)
             (income_subcategories db) (payments db) (expenses db) (incomes db).

Definition set_expense_categories (db : database) (t : list expense_category) : database :=
  mkDatabase (category_types db) t (income_categories db)
             (income_subcategories db) (payments db) (expenses db) (incomes db).

Definition set_income_categories (db : database) (t : list income_category) : database :=
  mkDatabase (category_types db) (expense_categories db) t
             (income_subcategories db) (payments db) (expenses db) (incomes db).

Definition set_income_subcategories (db : database) (t : list income_subcategory) : database :=
  mkDatabase (category_types db) (expense_categories db) (income_categories db)
             t (payments db) (expenses db) (incomes db).

Definition set_payments (db : database) (t : list payment) : database :=
  mkDatabase (category_types db) (expense_categories db) (income_categories db)
             (income_subcategories db) t (expenses db) (incomes db).

Definition set_incomes (db : database) (t : list income) : database :=
  mkDatabase (category_types db) (expense_categories db) (income_categories db)
             (income_subcategories db) (payments db) (expenses db) t.

(** ** Results of a Supabase query: [{ data, error }] *)

Inductive pg_error : Type :=
| PGRST116              (* .single(): not exactly one row *)
| unique_violation
| foreign_key_violation
| not_null_violation
| value_too_long
| storage_failure.      (* the store or the network failed *)

Record result (A : Type) : Type := mkResult {
  res_data : option A;
  res_error : option pg_error
}.

Arguments mkResult {A} _ _.
Arguments res_data {A} _.
Arguments res_error {A} _.

Definition ok {A : Type} (a : A) : result A := mkResult (Some a) None.
Definition done {A : Type} : result A := mkResult None None.
Definition err {A : Type} (e : pg_error) : result A := mkResult None (Some e).

(** [.single()] *)
Definition single {A : Type} (rows : list A) : result A :=
  match rows with
  | [r] => ok r
  | _ => err PGRST116
  end.

Definition option_eqb (a : option jsstring) (b : jsstring) : bool :=
  match a with
  | Some x => jsstring_eqb x b
  | None => false
  end.

(** ** The world a handler runs in

    The store, the clock reading of the request, the console, the
    number of store calls made, the messages handed to a mailer (none
    of the handlers below hands one over), and an oracle that says for
    each successive store call whether the store answers, answers with
    an error, or the call throws. *)

Inductive outcome : Type :=
| Answers
| ReturnsError
| Throws.

Record world : Type := mkWorld {
  w_db : database;
  w_now : timestamp;
  w_oracle : list outcome;
  w_console : list string;
  w_calls : nat;
  w_outbox : list uuid
}.

Inductive exn : Type :=
| StoreException
| TypeError
| ReferenceError
| Rejected (e : pg_error).

Inductive completion (A : Type) : Type :=
| Returned (a : A)
| Thrown (e : exn).

Arguments Returned {A} _.
Arguments Thrown {A} _.

Definition M (A : Type) : Type := world -> completion A * world.

Definition ret {A : Type} (a : A) : M A := fun w => (Returned a, w).

Definition bind {A B : Type} (m : M A) (k : A -> M B) : M B :=
  fun w =>
    match m w with
    | (Returned a, w') => k a w'
    | (Thrown e, w') => (Thrown e, w')
    end.

Definition throw {A : Type} (e : exn) : M A := fun w => (Thrown e, w).

Definition try_catch {A : Type} (m : M A) (handler : exn -> M A) : M A :=
  fun w =>
    match m w with
    | (Returned a, w') => (Returned a, w')
    | (Thrown e, w') => handler e w'
    end.

Definition console (line : string) : M unit :=
  fun w => (Returned tt,
            mkWorld (w_db w) (w_now w) (w_oracle w) (w_console w ++ [line])
                    (w_calls w) (w_outbox w)).

Definition now : M timestamp := fun w => (Returned (w_now w), w).

(** One awaited store call. *)
Definition await {A : Type} (q : timestamp -> database -> result A * database)
  : M (result A) :=
  fun w =>
    let rest := tl (w_oracle w) in
    let n := S (w_calls w) in
    match hd Answers (w_oracle w) with
    | Answers =>
        let (r, db') := q (w_now w) (w_db w) in
        (Returned r, mkWorld db' (w_now w) rest (w_console w) n (w_outbox w))
    | ReturnsError =>
        (Returned (err storage_failure),
         mkWorld (w_db w) (w_now w) rest (w_console w) n (w_outbox w))
    | Throws =>
        (Thrown StoreException,
         mkWorld (w_db w) (w_now w) rest (w_console w) n (w_outbox w))
    end.

Declare Scope handler_scope.
Delimit Scope handler_scope with handler.
Notation "x <- m ;; k" := (bind m (fun x => k))
  (at level 61, m at next level, right associativity) : handler_scope.
Notation "m ;;; k" := (bind m (fun _ => k))
  (at level 61, right associativity) : handler_scope.
Local Open Scope handler_scope.

Definition run {A : Type} (m : M A) (w : world) : completion A * world := m w.

(** A world in which the store answers every call. *)
Definition calm (db : database) (t : timestamp) : world :=
  mkWorld db t [] [] 0 [].

Section Backend.

(** [gen_random_uuid()], the column default of every [id]: given the
    identifiers already in the table, the identifier of the new row. *)
Variable gen_random_uuid : list uuid -> uuid.

(** [Number::toString] on an integer-valued number (ECMA-262
    6.1.6.1.20): decimal digits below 10^21, exponent notation from
    there on.  [JSON.stringify] prints a finite number the same way. *)
Variable Number_toString : Z -> jsstring.

(** ToString, as applied by template literals and by the query
    builder's filters. *)
Definition toString (v : jsval) : jsstring :=
  match v with
  | JUndefined => u "undefined"
  | JNull => u "null"
  | JBool true => u "true"
  | JBool false => u "false"
  | JNum z => Number_toString z
  | JStr s => s
  | JObject repr _ => repr
  end.

(** The text a JSON value leaves in a [text] column: a string as it
    is, a number or a boolean as its literal, an array or an object as
    its JSON text. *)
Definition json_text (v : jsval) : jsstring :=
  match v with
  | JObject _ json => json
  | _ => toString v
  end.

(** *** Queries on [category_types] and its referencing tables *)

Definition name_is (type_name : jsstring) (r : category_type) : bool :=
  jsstring_eqb (ct_type_name r) type_name.

Definition id_is (id : uuid) (r : category_type) : bool :=
  jsstring_eqb (ct_id r) id.

(** [.from('category_types').select('id').eq('type_name', n).single()] *)
Definition select_type_by_name (type_name : jsstring)
  (_ : timestamp) (db : database) : result uuid * database :=
  (single (map ct_id (filter (name_is type_name) (category_types db))), db).

(** [.from('category_types').select('id').eq('id', id).single()] *)
Definition select_type_by_id (id : uuid)
  (_ : timestamp) (db : database) : result uuid * database :=
  (single (map ct_id (filter (id_is id) (category_types db))), db).

(** [.from('category_types').insert({...}).select().single()];
    [type_name] is [VARCHAR(50) NOT NULL UNIQUE]. *)
Definition insert_category_type (type_name : jsstring) (description : option jsstring)
  (created_at updated_at : timestamp)
  (_ : timestamp) (db : database) : result category_type * database :=
  if existsb (name_is type_name) (category_types db) then (err unique_violation, db)
  else if 50 <? length type_name then (err value_too_long, db)
  else
    let row := mkCategoryType (gen_random_uuid (map ct_id (category_types db)))
                              type_name description created_at updated_at in
    (ok row, set_category_types db (category_types db ++ [row])).

(** The columns an insert into [expense_categories] may supply; an
    omitted column takes its default. *)
Record expense_category_insert : Type := mkExpenseCategoryInsert {
  eci_category : option jsstring;
  eci_icon : option jsstring;
  eci_subcategories : option (list subcategory);
  eci_category_type_id : option uuid;
  eci_is_active : option bool;
  eci_created_at : option timestamp;
  eci_updated_at : option timestamp
}.

(** [category_type_id UUID REFERENCES category_types(id)], which the
    script that adds the column sets [NOT NULL] on both category
    tables: only the id of an existing type will do. *)
Definition type_exists (db : database) (type_id : option uuid) : bool :=
  match type_id with
  | None => false
  | Some id => existsb (id_is id) (category_types db)
  end.

Definition or_default {A : Type} (o : option A) (d : A) : A :=
  match o with Some a => a | None => d end.

(** [category TEXT NOT NULL], [UNIQUE(category)], [icon DEFAULT NULL],
    [subcategories DEFAULT '[]'], [is_active DEFAULT TRUE],
    [category_type_id NOT NULL REFERENCES category_types(id)]. *)
Definition expense_category_row (ins : expense_category_insert)
  (t : timestamp) (db : database) : pg_error + expense_category :=
  match eci_category ins, eci_category_type_id ins with
  | None, _ | _, None => inl not_null_violation
  | Some c, Some _ =>
      if existsb (fun r => jsstring_eqb (ec_category r) c) (expense_categories db)
      then inl unique_violation
      else if negb (type_exists db (eci_category_type_id ins))
      then inl foreign_key_violation
      else inr (mkExpenseCategory
                  (gen_random_uuid (map ec_id (expense_categories db)))
                  c (eci_icon ins)
                  (or_default (eci_subcategories ins) [])
                  (eci_category_type_id ins)
                  (or_default (eci_is_active ins) true)
                  (or_default (eci_created_at ins) t)
                  (or_default (eci_updated_at ins) t))
  end.

(** [.from('expense_categories').insert(row)] *)
Definition insert_expense_category (ins : expense_category_insert)
  (t : timestamp) (db : database) : result unit * database :=
  match expense_category_row ins t db with
  | inl e => (err e, db)
  | inr row => (done, set_expense_categories db (expense_categories db ++ [row]))
  end.

(** [.from('expense_categories').insert([row]).select().single()] *)
Definition insert_expense_category_returning (ins : expense_category_insert)
  (t : timestamp) (db : database) : result expense_category * database :=
  match expense_category_row ins t db with
  | inl e => (err e, db)
  | inr row => (ok row, set_expense_categories db (expense_categories db ++ [row]))
  end.

(** [.from('income_categories').insert({...})];
    [name VARCHAR(100) NOT NULL UNIQUE],
    [category_type_id NOT NULL REFERENCES category_types(id)]. *)
Definition income_category_row (name : jsstring) (category_type_id : option uuid)
  (created_at updated_at : option timestamp)
  (t : timestamp) (db : database) : pg_error + income_category :=
  match category_type_id with
  | None => inl not_null_violation
  | Some _ =>
      if existsb (fun r => jsstring_eqb (ic_name r) name) (income_categories db)
      then inl unique_violation
      else if 100 <? length name then inl value_too_long
      else if negb (type_exists db category_type_id) then inl foreign_key_violation
      else inr (mkIncomeCategory
                  (gen_random_uuid (map ic_id (income_categories db)))
                  name category_type_id
                  (or_default created_at t) (or_default updated_at t))
  end.

Definition insert_income_category (name : jsstring) (category_type_id : option uuid)
  (created_at updated_at : option timestamp)
  (t : timestamp) (db : database) : result unit * database :=
  match income_category_row name category_type_id created_at updated_at t db with
  | inl e => (err e, db)
  | inr row => (done, set_income_categories db (income_categories db ++ [row]))
  end.

Definition expense_uses (id : uuid) (r : expense_category) : bool :=
  option_eqb (ec_category_type_id r) id.

Definition income_uses (id : uuid) (r : income_category) : bool :=
  option_eqb (ic_category_type_id r) id.

(** [.from('expense_categories').select('id').eq('category_type_id', id).limit(1)] *)
Definition select_expense_categories_using (id : uuid)
  (_ : timestamp) (db : database) : result (list uuid) * database :=
  (ok (firstn 1 (map ec_id (filter (expense_uses id) (expense_categories db)))), db).

(** [.from('income_categories').select('id').eq('category_type_id', id).limit(1)] *)
Definition select_income_categories_using (id : uuid)
  (_ : timestamp) (db : database) : result (list uuid) * database :=
  (ok (firstn 1 (map ic_id (filter (income_uses id) (income_categories db)))), db).

(** [.from('category_types').delete().eq('id', id)]; both category
    tables reference [category_types(id)] without a cascade. *)
Definition delete_type_row (id : uuid)
  (_ : timestamp) (db : database) : result unit * database :=
  if existsb (id_is id) (category_types db)
     && (existsb (expense_uses id) (expense_categories db)
         || existsb (income_uses id) (income_categories db))
  then (err foreign_key_violation, db)
  else (done, set_category_types db
                (filter (fun r => negb (id_is id r)) (category_types db))).

(** *** POST /api/category-types *)

Definition default_icon : jsstring := [55356; 57335; 65039]%N.

Definition seed_expense_category (type_name : jsstring) (id : uuid) (t : timestamp)
  : expense_category_insert :=
  mkExpenseCategoryInsert (Some type_name) (Some default_icon) (Some [])
                          (Some id) None (Some t) (Some t).

Definition nonempty (s : jsstring) : bool := truthy (JStr s).

Definition create_category_type (body : category_type_input)
  : M (response category_type) :=
  try_catch
    (let type_name := cti_type_name body in
     let description := cti_description body in
     existingType <- await (select_type_by_name type_name) ;;
     match res_data existingType with
     | Some _ =>
         ret (fail_with 409 "Category type with this name already exists")
     | None =>
         t <- now ;;
         inserted <- await (insert_category_type type_name description t t) ;;
         match res_error inserted with
         | Some _ =>
             console "Error creating category type:" ;;;
             ret (fail_with 500 "Failed to create category type")
         | None =>
             try_catch
               (match res_data inserted with
                | Some row =>
                    if nonempty (ct_id row) then
                      await (insert_expense_category
                               (seed_expense_category type_name (ct_id row) t)) ;;;
                      await (insert_income_category type_name (Some (ct_id row))
                               (Some t) (Some t)) ;;;
                      ret tt
                    else ret tt
                | None => ret tt
                end)
               (fun seedErr =>
                  console "Warning: failed to seed default categories for type:") ;;;
             ret (mkResponse 201 true (Some "Category type created successfully")
                             (res_data inserted))
         end
     end)
    (fun caught =>
       console "Error in create category type route:" ;;;
       ret (fail_with 500 "Internal server error")).

Definition post_category_types (body : category_type_body)
  : M (response category_type) :=
  match validateCategoryType body with
  | Respond r => ret r
  | Next input => create_category_type input
  end.

(** *** DELETE /api/category-types/:id *)

Definition in_use (usage : result (list uuid)) : bool :=
  match res_data usage with
  | Some rows => 0 <? length rows
  | None => false
  end.

Definition delete_category_type (id : uuid) : M (response unit) :=
  try_catch
    (if negb (nonempty id) then
       ret (fail_with 400 "Category type ID is required")
     else
       existingType <- await (select_type_by_id id) ;;
       match res_data existingType with
       | None => ret (fail_with 404 "Category type not found")
       | Some _ =>
           categoriesUsingType <- await (select_expense_categories_using id) ;;
           if in_use categoriesUsingType then
             ret (fail_with 409
               "Cannot delete category type that is being used by expense categories")
           else
             incomeCategoriesUsingType <- await (select_income_categories_using id) ;;
             if in_use incomeCategoriesUsingType then
               ret (fail_with 409
                 "Cannot delete category type that is being used by income categories")
             else
               deleted <- await (delete_type_row id) ;;
               match res_error deleted with
               | Some _ =>
                   console "Error deleting category type:" ;;;
                   ret (fail_with 500 "Failed to delete category type")
               | None =>
                   ret (mkResponse 200 true
                          (Some "Category type deleted successfully") None)
               end
       end)
    (fun caught =>
       console "Error in delete category type route:" ;;;
       ret (fail_with 500 "Internal server error")).

(** ** Income subcategories (routes/incomeCategories.js) *)

Record income_subcategory_body : Type := mkIncomeSubcategoryBody {
  isb_category_id : jsval;
  isb_name : jsval;
  isb_is_recurring : jsval
}.

Record income_subcategory_input : Type := mkIncomeSubcategoryInput {
  isi_category_id : uuid;
  isi_name : jsstring;
  isi_is_recurring : bool
}.

Definition validateIncomeSubcategory {D : Type} (body : income_subcategory_body)
  : middleware D income_subcategory_input :=
  let category_id := isb_category_id body in
  let name := isb_name body in
  let is_recurring := isb_is_recurring body in
  match category_id with
  | JStr cid =>
      if negb (truthy category_id) then
        Respond (fail_with 400 "Category ID is required and must be a valid UUID")
      else
        match name with
        | JStr n =>
            if negb (truthy name) || (length (trim n) =? 0) then
              Respond (fail_with 400
                "Subcategory name is required and must be a non-empty string")
            else if 100 <? length (trim n) then
              Respond (fail_with 400 "Subcategory name must be 100 characters or less")
            else
              match is_recurring with
              | JBool b => Next (mkIncomeSubcategoryInput cid (trim n) b)
              | _ => Respond (fail_with 400 "is_recurring must be a boolean value")
              end
        | _ =>
            Respond (fail_with 400
              "Subcategory name is required and must be a non-empty string")
        end
  | _ => Respond (fail_with 400 "Category ID is required and must be a valid UUID")
  end.

(** A subcategory row with its embedded parent,
    [select('*, income_categories (id, name)')]. *)
Record income_subcategory_view : Type := mkIncomeSubcategoryView {
  isv_row : income_subcategory;
  isv_income_categories : option (uuid * jsstring)
}.

Definition category_id_is (id : uuid) (r : income_category) : bool :=
  jsstring_eqb (ic_id r) id.

Definition subcategory_is (category_id : uuid) (name : jsstring)
  (r : income_subcategory) : bool :=
  jsstring_eqb (isc_category_id r) category_id && jsstring_eqb (isc_name r) name.

(** [.from('income_categories').select('id').eq('id', id).single()] *)
Definition select_income_category (id : uuid)
  (_ : timestamp) (db : database) : result uuid * database :=
  (single (map ic_id (filter (category_id_is id) (income_categories db))), db).

(** [.from('income_subcategories').select('id')
      .eq('category_id', c).eq('name', n).single()] *)
Definition select_income_subcategory (category_id : uuid) (name : jsstring)
  (_ : timestamp) (db : database) : result uuid * database :=
  (single (map isc_id (filter (subcategory_is category_id name)
                              (income_subcategories db))), db).

Definition embed_parent (db : database) (row : income_subcategory)
  : income_subcategory_view :=
  mkIncomeSubcategoryView row
    (match filter (category_id_is (isc_category_id row)) (income_categories db) with
     | c :: _ => Some (ic_id c, ic_name c)
     | [] => None
     end).

(** [.from('income_subcategories').insert({category_id, name, is_recurring})
      .select(...).single()]; [category_id] references
    [income_categories(id)], [UNIQUE(category_id, name)],
    [name VARCHAR(100)]. *)
Definition insert_income_subcategory (category_id : uuid) (name : jsstring)
  (is_recurring : bool)
  (t : timestamp) (db : database) : result income_subcategory_view * database :=
  if negb (existsb (category_id_is category_id) (income_categories db))
  then (err foreign_key_violation, db)
  else if existsb (subcategory_is category_id name) (income_subcategories db)
  then (err unique_violation, db)
  else if 100 <? length name then (err value_too_long, db)
  else
    let row := mkIncomeSubcategory
                 (gen_random_uuid (map isc_id (income_subcategories db)))
                 category_id name is_recurring t t in
    (ok (embed_parent db row),
     set_income_subcategories db (income_subcategories db ++ [row])).

(** *** POST /api/income-subcategories *)

Definition create_income_subcategory (body : income_subcategory_input)
  : M (response income_subcategory_view) :=
  try_catch
    (let category_id := isi_category_id body in
     let name := isi_name body in
     let is_recurring := isi_is_recurring body in
     category <- await (select_income_category category_id) ;;
     match res_data category with
     | None => ret (fail_with 404 "Income category not found")
     | Some _ =>
         existingSubcategory <- await (select_income_subcategory category_id name) ;;
         match res_data existingSubcategory with
         | Some _ =>
             ret (fail_with 409
               "Income subcategory with this name already exists for this category")
         | None =>
             inserted <- await (insert_income_subcategory category_id name is_recurring) ;;
             match res_error inserted with
             | Some _ =>
                 console "Error creating income subcategory:" ;;;
                 ret (fail_with 500 "Failed to create income subcategory")
             | None =>
                 ret (mkResponse 201 true
                        (Some "Income subcategory created successfully")
                        (res_data inserted))
             end
         end
     end)
    (fun caught =>
       console "Error in create income subcategory route:" ;;;
       ret (fail_with 500 "Internal server error")).

Definition post_income_subcategories (body : income_subcategory_body)
  : M (response income_subcategory_view) :=
  match validateIncomeSubcategory body with
  | Respond r => ret r
  | Next input => create_income_subcategory input
  end.

(** ** Expense categories service (ExpenseCategoriesService) *)

Fixpoint insert_by_category (r : expense_category) (l : list expense_category)
  : list expense_category :=
  match l with
  | [] => [r]
  | x :: l' =>
      if jsstring_leb (ec_category r) (ec_category x) then r :: x :: l'
      else x :: insert_by_category r l'
  end.

(** [.order('category')] *)
Definition order_by_category (l : list expense_category) : list expense_category :=
  fold_right insert_by_category [] l.

Definition category_row_is (id : uuid) (r : expense_category) : bool :=
  jsstring_eqb (ec_id r) id.

(** [.from('expense_categories').select('*').eq('is_active', true).order('category')] *)
Definition select_active_categories
  (_ : timestamp) (db : database) : result (list expense_category) * database :=
  (ok (order_by_category (filter ec_is_active (expense_categories db))), db).

(** [.select('subcategories').eq('category', name).eq('is_active', true).single()] *)
Definition select_subcategories_by_name (categoryName : jsstring)
  (_ : timestamp) (db : database) : result (list subcategory) * database :=
  (single (map ec_subcategories
             (filter (fun r => jsstring_eqb (ec_category r) categoryName
                               && ec_is_active r)
                     (expense_categories db))), db).

(** [.select('subcategories').eq('id', categoryId).single()] *)
Definition select_subcategories_by_id (categoryId : uuid)
  (_ : timestamp) (db : database) : result (list subcategory) * database :=
  (single (map ec_subcategories
             (filter (category_row_is categoryId) (expense_categories db))), db).

(** The [BEFORE UPDATE] trigger [trg_expense_categories_updated_at]. *)
Definition touch_expense_category (t : timestamp) (r : expense_category)
  : expense_category :=
  mkExpenseCategory (ec_id r) (ec_category r) (ec_icon r) (ec_subcategories r)
                    (ec_category_type_id r) (ec_is_active r) (ec_created_at r) t.

Definition set_is_active (b : bool) (r : expense_category) : expense_category :=
  mkExpenseCategory (ec_id r) (ec_category r) (ec_icon r) (ec_subcategories r)
                    (ec_category_type_id r) b (ec_created_at r) (ec_updated_at r).

Definition set_subcategories (subs : list subcategory) (r : expense_category)
  : expense_category :=
  mkExpenseCategory (ec_id r) (ec_category r) (ec_icon r) subs
                    (ec_category_type_id r) (ec_is_active r) (ec_created_at r)
                    (ec_updated_at r).

Definition update_row (id : uuid) (patch : expense_category -> expense_category)
  (t : timestamp) (r : expense_category) : expense_category :=
  if category_row_is id r then touch_expense_category t (patch r) else r.

(** [.from('expense_categories').update(patch).eq('id', id)] *)
Definition update_expense_category (id : uuid)
  (patch : expense_category -> expense_category)
  (t : timestamp) (db : database) : result unit * database :=
  (done, set_expense_categories db (map (update_row id patch t) (expense_categories db))).

(** [.from('expense_categories').update(patch).eq('id', id).select().single()] *)
Definition update_expense_category_returning (id : uuid)
  (patch : expense_category -> expense_category)
  (t : timestamp) (db : database) : result expense_category * database :=
  match filter (category_row_is id) (expense_categories db) with
  | [r] =>
      (ok (touch_expense_category t (patch r)),
       set_expense_categories db (map (update_row id patch t) (expense_categories db)))
  | _ => (err PGRST116, db)
  end.

(** [if (error) { console.error(msg, error); throw error; }] *)
Definition throw_on_error {A : Type} (msg : string) (r : result A) : M unit :=
  match res_error r with
  | Some e => console msg ;;; throw (Rejected e)
  | None => ret tt
  end.

(** [catch (error) { console.error(msg, error); throw error; }] *)
Definition rethrow {A : Type} (msg : string) (m : M A) : M A :=
  try_catch m (fun e => console msg ;;; throw e).

Definition getAllCategories : M (list expense_category) :=
  rethrow "Exception in getAllCategories:"
    (r <- await select_active_categories ;;
     throw_on_error "Error fetching expense categories:" r ;;;
     ret (or_default (res_data r) [])).

Definition getSubcategories (categoryName : jsstring) : M (list subcategory) :=
  try_catch
    (r <- await (select_subcategories_by_name categoryName) ;;
     match res_error r with
     | Some _ => console "Error fetching subcategories:" ;;; ret []
     | None => ret (or_default (res_data r) [])
     end)
    (fun caught => console "Exception in getSubcategories:" ;;; ret []).

Definition addCategory (categoryData : expense_category_insert)
  : M (option expense_category) :=
  rethrow "Exception in addCategory:"
    (r <- await (insert_expense_category_returning categoryData) ;;
     throw_on_error "Error adding category:" r ;;;
     ret (res_data r)).

Definition deleteCategory (categoryId : uuid) : M bool :=
  rethrow "Exception in deleteCategory:"
    (r <- await (update_expense_category categoryId (set_is_active false)) ;;
     throw_on_error "Error deleting category:" r ;;;
     ret true).

(** Read-modify-write of the embedded list, shared by the three
    subcategory operations: fetch the list of the category, transform
    it, write it back. *)
Definition rewrite_subcategories (categoryId : uuid)
  (transform : list subcategory -> list subcategory)
  (exception_msg fetch_msg update_msg : string) : M (option expense_category) :=
  rethrow exception_msg
    (fetched <- await (select_subcategories_by_id categoryId) ;;
     throw_on_error fetch_msg fetched ;;;
     match res_data fetched with
     | None => throw TypeError
     | Some subcategories =>
         let updatedSubcategories := transform subcategories in
         r <- await (update_expense_category_returning categoryId
                       (set_subcategories updatedSubcategories)) ;;
         throw_on_error update_msg r ;;;
         ret (res_data r)
     end).

Definition addSubcategory (categoryId : uuid) (subcategoryData : subcategory)
  : M (option expense_category) :=
  rewrite_subcategories categoryId
    (fun subcategories => subcategories ++ [subcategoryData])
    "Exception in addSubcategory:"
    "Error fetching category for subcategory addition:"
    "Error adding subcategory:".

(** The fields an [updateData] object may carry. *)
Record subcategory_update : Type := mkSubcategoryUpdate {
  upd_name : option jsstring;
  upd_icon : option (option jsstring);
  upd_isRecurring : option bool;
  upd_frequency : option (option jsstring)
}.

(** [{ ...sub, ...updateData }] *)
Definition spread (sub : subcategory) (updateData : subcategory_update) : subcategory :=
  mkSubcategory (or_default (upd_name updateData) (sub_name sub))
                (or_default (upd_icon updateData) (sub_icon sub))
                (or_default (upd_isRecurring updateData) (sub_isRecurring sub))
                (or_default (upd_frequency updateData) (sub_frequency sub)).

Definition updateSubcategory (categoryId : uuid) (subcategoryName : jsstring)
  (updateData : subcategory_update) : M (option expense_category) :=
  rewrite_subcategories categoryId
    (map (fun sub => if jsstring_eqb (sub_name sub) subcategoryName
                     then spread sub updateData else sub))
    "Exception in updateSubcategory:"
    "Error fetching category for subcategory update:"
    "Error updating subcategory:".

Definition deleteSubcategory (categoryId : uuid) (subcategoryName : jsstring)
  : M (option expense_category) :=
  rewrite_subcategories categoryId
    (filter (fun sub => negb (jsstring_eqb (sub_name sub) subcategoryName)))
    "Exception in deleteSubcategory:"
    "Error fetching category for subcategory deletion:"
    "Error deleting subcategory:".

(** ** Payments (index.js and the payments edge function) *)

(** [crypto.createHmac('sha256', key).update(message).digest('hex')] *)
Variable hmac_sha256_hex : jsstring -> jsstring -> jsstring.

(** [jwt.verify(token, secret)] succeeds. *)
Variable jwt_verify : jsstring -> option jsstring -> bool.

(** [s.split(sep)] for a one-character separator. *)
Fixpoint split_on (sep : N) (s : jsstring) : list jsstring :=
  match s with
  | [] => [[]]
  | c :: s' =>
      if N.eqb c sep then [] :: split_on sep s'
      else match split_on sep s' with
           | h :: rest => (c :: h) :: rest
           | [] => [[c]]
           end
  end.

Definition jwtAuthMiddleware {D : Type} (jwt_secret : option jsstring)
  (authorization : option jsstring) : M (middleware D unit) :=
  match authorization with
  | None => ret (Respond (fail_with 401 "Authorization header missing"))
  | Some authHeader =>
      if negb (nonempty authHeader) then
        ret (Respond (fail_with 401 "Authorization header missing"))
      else
        match nth_error (split_on 32 authHeader) 1 with
        | None => ret (Respond (fail_with 401 "Token missing"))
        | Some token =>
            if negb (nonempty token) then
              ret (Respond (fail_with 401 "Token missing"))
            else if jwt_verify token jwt_secret then ret (Next tt)
            else
              console "JWT verification error:" ;;;
              ret (Respond (fail_with 401 "Invalid or expired token"))
        end
  end.

Record verify_body : Type := mkVerifyBody {
  razorpay_order_id : jsval;
  razorpay_payment_id : jsval;
  razorpay_signature : jsval
}.

(** [.eq('razorpay_order_id', v)] *)
Definition order_is (order_id : jsval) (p : payment) : bool :=
  option_eqb (pay_razorpay_order_id p) (toString order_id).

(** What a JSON value of an update leaves in a text column:
    an absent key leaves the column alone, [null] clears it. *)
Definition write_text (v : jsval) (old : option jsstring) : option jsstring :=
  match v with
  | JUndefined => old
  | JNull => None
  | _ => Some (json_text v)
  end.

(** [{ status: 'failed', razorpay_payment_id, razorpay_signature }] *)
Definition mark_failed (payment_id signature : jsval) (p : payment) : payment :=
  mkPayment (pay_id p) (pay_user_id p) (pay_expense_id p) (pay_amount p)
            (pay_currency p) failed (pay_razorpay_order_id p)
            (write_text payment_id (pay_razorpay_payment_id p))
            (write_text signature (pay_razorpay_signature p))
            (pay_method p) (pay_email p) (pay_contact p)
            (pay_created_at p) (pay_verified_at p) (pay_updated_at p).

(** [{ status: 'captured', razorpay_payment_id, razorpay_signature, verified_at }] *)
Definition mark_captured (payment_id signature : jsval) (verified_at : timestamp)
  (p : payment) : payment :=
  mkPayment (pay_id p) (pay_user_id p) (pay_expense_id p) (pay_amount p)
            (pay_currency p) captured (pay_razorpay_order_id p)
            (write_text payment_id (pay_razorpay_payment_id p))
            (write_text signature (pay_razorpay_signature p))
            (pay_method p) (pay_email p) (pay_contact p)
            (pay_created_at p) (Some verified_at) (pay_updated_at p).

(** The [BEFORE UPDATE] trigger [update_payments_updated_at]. *)
Definition touch_payment (t : timestamp) (p : payment) : payment :=
  mkPayment (pay_id p) (pay_user_id p) (pay_expense_id p) (pay_amount p)
            (pay_currency p) (pay_status p) (pay_razorpay_order_id p)
            (pay_razorpay_payment_id p) (pay_razorpay_signature p)
            (pay_method p) (pay_email p) (pay_contact p)
            (pay_created_at p) (pay_verified_at p) t.

Definition update_payment_row (order_id : jsval) (patch : payment -> payment)
  (t : timestamp) (p : payment) : payment :=
  if order_is order_id p then touch_payment t (patch p) else p.

(** [.from('payments').update(patch).eq('razorpay_order_id', id)] *)
Definition update_payments (order_id : jsval) (patch : payment -> payment)
  (t : timestamp) (db : database) : result unit * database :=
  (done, set_payments db (map (update_payment_row order_id patch t) (payments db))).

(** [.from('payments').update(patch).eq('razorpay_order_id', id).select().single()] *)
Definition update_payments_returning (order_id : jsval) (patch : payment -> payment)
  (t : timestamp) (db : database) : result payment * database :=
  match filter (order_is order_id) (payments db) with
  | [p] =>
      (ok (touch_payment t (patch p)),
       set_payments db (map (update_payment_row order_id patch t) (payments db)))
  | _ => (err PGRST116, db)
  end.

Definition missing_fields (body : verify_body) : bool :=
  negb (truthy (razorpay_order_id body))
  || negb (truthy (razorpay_payment_id body))
  || negb (truthy (razorpay_signature body)).

(** [`${razorpay_order_id}|${razorpay_payment_id}`] *)
Definition signed_message (body : verify_body) : jsstring :=
  toString (razorpay_order_id body) ++ u "|" ++ toString (razorpay_payment_id body).

(** *** POST /api/payments/verify (index.js)

    [key_secret] is [process.env.RAZORPAY_KEY_SECRET];
    [crypto.createHmac] throws when it is undefined. *)
Definition verify_payment (key_secret : option jsstring) (body : verify_body)
  : M (response payment) :=
  try_catch
    (if missing_fields body then
       ret (fail_with 400 "Missing required fields")
     else
       match key_secret with
       | None => throw TypeError
       | Some key =>
           let expected := hmac_sha256_hex key (signed_message body) in
           let valid := strict_eq_string (razorpay_signature body) expected in
           if negb valid then
             await (update_payments (razorpay_order_id body)
                      (mark_failed (razorpay_payment_id body)
                                   (razorpay_signature body))) ;;;
             ret (fail_with 400 "Invalid signature")
           else
             t <- now ;;
             updated <- await (update_payments_returning (razorpay_order_id body)
                                 (mark_captured (razorpay_payment_id body)
                                                (razorpay_signature body) t)) ;;
             match res_error updated with
             | Some _ => console "payments update error:"
             | None => ret tt
             end ;;;
             ret (mkResponse 200 true None (res_data updated))
       end)
    (fun caught =>
       console "verify error:" ;;;
       ret (fail_with 500 "Verification failed")).

Definition post_payments_verify (jwt_secret key_secret : option jsstring)
  (authorization : option jsstring) (body : verify_body) : M (response payment) :=
  checked <- jwtAuthMiddleware jwt_secret authorization ;;
  match checked with
  | Respond r => ret r
  | Next _ => verify_payment key_secret body
  end.

(** *** The verify branch of the payments edge function
        (supabase/functions/payments/index.ts), reached by a POST on a
        path ending in [/verify].

    [supabaseAdmin] tells whether the admin client could be built from
    the environment (it is [null] otherwise); the key defaults to the
    empty string.

    The file binds no [sendPaymentConfirmationEmail]: it imports
    [serve] and [createClient] and declares [razorpayRequest] and
    [makeCorsHeaders].  Evaluating the call therefore throws a
    ReferenceError inside the handler's [try]. *)

Definition exn_message (e : exn) : string :=
  match e with
  | TypeError => "Cannot read properties of null (reading 'from')"
  | ReferenceError => "sendPaymentConfirmationEmail is not defined"
  | _ => "Internal error"
  end.

Definition edge_verify (supabaseAdmin : bool) (key_secret : option jsstring)
  (body : verify_body) : M (response payment) :=
  try_catch
    (if missing_fields body then
       ret (fail_with 400 "Missing required fields")
     else
       let expected := hmac_sha256_hex (or_default key_secret [])
                                       (signed_message body) in
       if negb (strict_eq_string (razorpay_signature body) expected) then
         (if supabaseAdmin then
            await (update_payments (razorpay_order_id body)
                     (mark_failed (razorpay_payment_id body)
                                  (razorpay_signature body)))
          else throw TypeError) ;;;
         ret (fail_with 400 "Invalid signature")
       else if supabaseAdmin then
         t <- now ;;
         updated <- await (update_payments_returning (razorpay_order_id body)
                             (mark_captured (razorpay_payment_id body)
                                            (razorpay_signature body) t)) ;;
         match res_error updated with
         | Some _ => console "payments update error:"
         | None => ret tt
         end ;;;
         match res_data updated with
         | Some p =>
             if nonempty (pay_user_id p) then throw ReferenceError
             else ret tt
         | None => ret tt
         end ;;;
         ret (mkResponse 200 true None (res_data updated))
       else
         ret (mkResponse 200 true None None))
    (fun caught =>
       console "payments function error:" ;;;
       ret (fail_with 500 (exn_message caught))).

(** *** POST /api/payments/webhook *)

Record payment_entity : Type := mkPaymentEntity {
  pe_order_id : jsval;
  pe_id : jsval;
  pe_method : jsval;
  pe_email : jsval;
  pe_contact : jsval
}.

(** [payload.payment] and [payload.order]: absent, or an object whose
    [entity] is absent or an object. *)
Record webhook_payload : Type := mkWebhookPayload {
  pl_payment : option (option payment_entity);
  pl_order : option (option jsval)
}.

Record webhook_body : Type := mkWebhookBody {
  wb_event : jsval;
  wb_payload : option webhook_payload
}.

(** [JSON.stringify(req.body)] *)
Variable JSON_stringify : webhook_body -> jsstring.

(** [payload?.payment?.entity] *)
Definition payment_entity_of (payload : option webhook_payload) : option payment_entity :=
  match payload with
  | Some pl => match pl_payment pl with Some (Some e) => Some e | _ => None end
  | None => None
  end.

(** [payload?.payment?.entity?.order_id || payload?.order?.entity?.id] *)
Definition webhook_order_id (payload : option webhook_payload) : jsval :=
  let first := match payment_entity_of payload with
               | Some e => pe_order_id e
               | None => JUndefined
               end in
  if truthy first then first
  else match payload with
       | Some pl => match pl_order pl with Some (Some id) => id | _ => JUndefined end
       | None => JUndefined
       end.

(** [{ status: 'captured', razorpay_payment_id, method, email, contact, verified_at }] *)
Definition mark_captured_by_webhook (e : payment_entity) (verified_at : timestamp)
  (p : payment) : payment :=
  mkPayment (pay_id p) (pay_user_id p) (pay_expense_id p) (pay_amount p)
            (pay_currency p) captured (pay_razorpay_order_id p)
            (write_text (pe_id e) (pay_razorpay_payment_id p))
            (pay_razorpay_signature p)
            (write_text (pe_method e) (pay_method p))
            (write_text (pe_email e) (pay_email p))
            (write_text (pe_contact e) (pay_contact p))
            (pay_created_at p) (Some verified_at) (pay_updated_at p).

(** [signature !== expected] for the header value. *)
Definition header_matches (signature : option jsstring) (expected : jsstring) : bool :=
  option_eqb signature expected.

Definition payments_webhook (webhookSecret : option jsstring)
  (signature : option jsstring) (body : webhook_body) : M nat :=
  try_catch
    (match webhookSecret with
     | None => ret 200
     | Some secret =>
         if negb (nonempty secret) then ret 200
         else
           let expected := hmac_sha256_hex secret (JSON_stringify body) in
           if negb (header_matches signature expected) then ret 400
           else
             let event := wb_event body in
             let payload := wb_payload body in
             let orderId := webhook_order_id payload in
             if strict_eq_string event (u "payment.captured") && truthy orderId then
               match payment_entity_of payload with
               | None => throw TypeError
               | Some entity =>
                   t <- now ;;
                   await (update_payments orderId (mark_captured_by_webhook entity t)) ;;;
                   ret 200
               end
             else ret 200
     end)
    (fun caught => console "webhook error" ;;; ret 500).

(** The request as the route receives it.  [express.json({ type: '*/*' })]
    has parsed the text of the body into [req.body] before the handler
    runs; the handler reads the header and [req.body] and never the
    text that was sent. *)
Record webhook_request : Type := mkWebhookRequest {
  wr_text : jsstring;
  wr_signature : option jsstring;
  wr_body : webhook_body
}.

Definition post_payments_webhook (webhookSecret : option jsstring)
  (req : webhook_request) : M nat :=
  payments_webhook webhookSecret (wr_signature req) (wr_body req).

(** ** What the store is expected to satisfy, and calm worlds *)

(** The store answers every remaining call of the request. *)
Definition answering (w : world) : Prop :=
  Forall (fun o => o = Answers) (w_oracle w).

(** ** The category-type validation contract, in words

    Trimmed name non-empty, at most 50 characters, made of letters,
    white space, hyphens and apostrophes. *)
Definition is_letter (c : N) : Prop :=
  (97 <= c <= 122)%N \/ (65 <= c <= 90)%N.

Definition allowed_character (c : N) : Prop :=
  is_letter c \/ isWhiteSpace c = true \/ c = 45%N \/ c = 39%N.

Definition type_name_acceptable (body : category_type_body) : Prop :=
  exists s, ctb_type_name body = JStr s
            /\ trim s <> []
            /\ length (trim s) <= 50
            /\ Forall allowed_character (trim s).

(** Description as the contract words it: absent, or a string of at
    most 200 characters. *)
Definition description_absent (body : category_type_body) : Prop :=
  ctb_description body = JUndefined \/ ctb_description body = JNull.

Definition description_short_string (body : category_type_body) : Prop :=
  exists d, ctb_description body = JStr d /\ length d <= 200.

Definition description_acceptable_as_worded (body : category_type_body) : Prop :=
  description_absent body \/ description_short_string body.

(** Description as the middleware tests it: falsy, or a string of at
    most 200 characters. *)
Definition description_acceptable (body : category_type_body) : Prop :=
  truthy (ctb_description body) = false \/ description_short_string body.

Definition accepted (body : category_type_body) : Prop :=
  exists input, @validateCategoryType category_type body = Next input.

Definition names_field (field : string) (r : response category_type) : Prop :=
  exists m, message r = Some m /\ String.prefix field m = true.

Definition body_food_false : category_type_body :=
  mkCategoryTypeBody (JStr (u "Food")) (JBool false).

(** A category type is referenced when some expense category or some
    income category carries its id in [category_type_id]. *)
Definition referenced (db : database) (id : uuid) : Prop :=
  (exists c, In c (expense_categories db) /\ ec_category_type_id c = Some id)
  \/ (exists c, In c (income_categories db) /\ ic_category_type_id c = Some id).

Definition without_type (db : database) (id : uuid) : database :=
  set_category_types db (filter (fun r => negb (id_is id r)) (category_types db)).

(** ** Income subcategories: the request of the claim and the
       constraints of the two tables *)

Definition subcategory_request (category_id name : jsstring) (is_recurring : bool)
  : income_subcategory_body :=
  mkIncomeSubcategoryBody (JStr category_id) (JStr name) (JBool is_recurring).

Definition subcategory_key (r : income_subcategory) : uuid * jsstring :=
  (isc_category_id r, isc_name r).

(** [UNIQUE(category_id, name)] *)
Definition unique_subcategories (db : database) : Prop :=
  NoDup (map subcategory_key (income_subcategories db)).

Definition has_subcategory (db : database) (category_id name : jsstring) : Prop :=
  In (category_id, name) (map subcategory_key (income_subcategories db)).

Definition income_category_exists (db : database) (category_id : uuid) : Prop :=
  In category_id (map ic_id (income_categories db)).

Definition msg_subcategory_exists : string :=
  "Income subcategory with this name already exists for this category".

(** ** Expense categories: the embedded-list invariant and the effect
       of a soft delete *)

(** Each subcategory name occurs at most once in its parent's list. *)
Definition subcategory_names_unique (db : database) : Prop :=
  forall r, In r (expense_categories db) ->
            NoDup (map sub_name (ec_subcategories r)).

(** The subcategory names held by the category rows with a given id. *)
Definition names_under (db : database) (categoryId : uuid) (name : jsstring) : Prop :=
  exists r, In r (expense_categories db) /\ ec_id r = categoryId
            /\ In name (map sub_name (ec_subcategories r)).

(** How a soft delete relates a row before to the row after: all
    columns but [is_active] and the trigger-maintained [updated_at]
    are kept, other rows are untouched. *)
Definition soft_delete_of (categoryId : uuid) (t : timestamp)
  (before after : expense_category) : Prop :=
  ec_id after = ec_id before
  /\ ec_category after = ec_category before
  /\ ec_icon after = ec_icon before
  /\ ec_subcategories after = ec_subcategories before
  /\ ec_category_type_id after = ec_category_type_id before
  /\ ec_created_at after = ec_created_at before
  /\ (ec_id before <> categoryId -> after = before)
  /\ (ec_id before = categoryId ->
      ec_is_active after = false /\ ec_updated_at after = t).

(** The soft delete as C6 words it: only the flag changes. *)
Definition only_flag_cleared (categoryId : uuid) (before after : expense_category)
  : Prop :=
  after = (if category_row_is categoryId before
           then set_is_active false before else before).

Definition same_other_tables (db db' : database) : Prop :=
  category_types db' = category_types db
  /\ income_categories db' = income_categories db
  /\ income_subcategories db' = income_subcategories db
  /\ payments db' = payments db
  /\ expenses db' = expenses db
  /\ incomes db' = incomes db.

Definition category_name_taken (db : database) (name : jsstring) : Prop :=
  exists r, In r (expense_categories db) /\ ec_category r = name.

(** ** Payments: the unique constraint on [razorpay_order_id] and the
       effect of the two transitions *)

Definition unique_order_ids (db : database) : Prop :=
  forall order_id, length (filter (order_is order_id) (payments db)) <= 1.

(** The constraint [razorpay_order_id TEXT UNIQUE]: two rows that carry
    the same order id are the same row. *)
Definition one_row_per_order (db : database) : Prop :=
  forall i j a b o,
    nth_error (payments db) i = Some a -> nth_error (payments db) j = Some b ->
    pay_razorpay_order_id a = Some o -> pay_razorpay_order_id b = Some o ->
    i = j.

(** The order has a payment row. *)
Definition order_recorded (db : database) (o : jsstring) : Prop :=
  exists r, In r (payments db) /\ pay_razorpay_order_id r = Some o.

(** [user_id UUID NOT NULL]: a uuid is never the empty string. *)
Definition payers_known (db : database) : Prop :=
  forall r, In r (payments db) -> pay_user_id r <> [].

Definition same_tables_but_payments (db db' : database) : Prop :=
  category_types db' = category_types db
  /\ expense_categories db' = expense_categories db
  /\ income_categories db' = income_categories db
  /\ income_subcategories db' = income_subcategories db
  /\ expenses db' = expenses db
  /\ incomes db' = incomes db.

(** The columns no payment update writes. *)
Definition same_order (before after : payment) : Prop :=
  pay_id after = pay_id before
  /\ pay_user_id after = pay_user_id before
  /\ pay_expense_id after = pay_expense_id before
  /\ pay_amount after = pay_amount before
  /\ pay_currency after = pay_currency before
  /\ pay_razorpay_order_id after = pay_razorpay_order_id before
  /\ pay_created_at after = pay_created_at before.

(** The columns the verify handlers leave alone. *)
Definition same_payer_details (before after : payment) : Prop :=
  pay_method after = pay_method before
  /\ pay_email after = pay_email before
  /\ pay_contact after = pay_contact before.

(** A row after a verification with the right signature, at time [t]. *)
Definition now_captured (payment_id signature : jsstring) (t : timestamp)
  (before after : payment) : Prop :=
  pay_status after = captured
  /\ pay_verified_at after = Some t
  /\ pay_razorpay_payment_id after = Some payment_id
  /\ pay_razorpay_signature after = Some signature
  /\ pay_updated_at after = t
  /\ same_order before after /\ same_payer_details before after.

(** A row after a verification with a wrong signature, at time [t]. *)
Definition now_failed (payment_id signature : jsstring) (t : timestamp)
  (before after : payment) : Prop :=
  pay_status after = failed
  /\ pay_verified_at after = pay_verified_at before
  /\ pay_razorpay_payment_id after = Some payment_id
  /\ pay_razorpay_signature after = Some signature
  /\ pay_updated_at after = t
  /\ same_order before after /\ same_payer_details before after.

(** A row after a ['payment.captured'] event, at time [t]. *)
Definition captured_by_event (t : timestamp) (before after : payment) : Prop :=
  pay_status after = captured
  /\ pay_verified_at after = Some t
  /\ pay_razorpay_signature after = pay_razorpay_signature before
  /\ pay_updated_at after = t
  /\ same_order before after.

(** From [db] to [db']: the payment rows of order [o] change as
    [change] says, row by row and in place; every other payment row and
    every other table is as it was. *)
Definition order_rows_become (o : jsstring) (change : payment -> payment -> Prop)
  (db db' : database) : Prop :=
  Forall2 (fun before after =>
             (pay_razorpay_order_id before = Some o -> change before after)
             /\ (pay_razorpay_order_id before <> Some o -> after = before))
          (payments db) (payments db')
  /\ same_tables_but_payments db db'.

(** [Authorization: Bearer <token>] with a token that verifies. *)
Definition bearer (jwt_secret : option jsstring) (authorization : option jsstring)
  : Prop :=
  exists token,
    authorization = Some (u "Bearer " ++ token)
    /\ token <> [] /\ ~ In 32%N token /\ jwt_verify token jwt_secret = true.

(** ** Category types: names in use *)

Definition type_name_taken (db : database) (type_name : jsstring) : Prop :=
  exists r, In r (category_types db) /\ ct_type_name r = type_name.

(** ** Storage errors: how a run can end *)

(** The world [w] with the store behaving as [o] says, call by call. *)
Definition with_oracle (w : world) (o : list outcome) : world :=
  mkWorld (w_db w) (w_now w) o (w_console w) (w_calls w) (w_outbox w).

(** The handler answers, and the answer is not a success. *)
Definition refused {D : Type} (handler : M (response D)) (w : world) : Prop :=
  exists r w', run handler w = (Returned r, w') /\ success r = false.

(** The handler answers success although the store reported an error,
    leaving the store as it was. *)
Definition swallowed {D : Type} (handler : M (response D)) (w : world) : Prop :=
  exists r w', run handler w = (Returned r, w')
               /\ success r = true /\ w_db w' = w_db w.

(** The handler is run with the store behaving as [before] says at its
    first calls and failing as [bad] says at the next one.  The handler
    answers; and if the run got as far as the failing call, the answer
    is the 500 of that failure, the failure is the last line on the
    console and the store is as it was. *)
Definition surfaces {D : Type} (handler : M (response D)) (w : world)
  (before : list outcome) (bad : outcome) (rest : list outcome)
  (failed_message failed_log crashed_log : string) : Prop :=
  exists r w',
    run handler (with_oracle w (before ++ bad :: rest)) = (Returned r, w')
    /\ (length before < w_calls w' - w_calls w ->
        w_db w' = w_db w
        /\ r = fail_with 500 (match bad with
                              | Throws => "Internal server error"
                              | _ => failed_message
                              end)
        /\ exists earlier,
             w_console w'
             = w_console w ++ earlier
               ++ [match bad with Throws => crashed_log | _ => failed_log end]).

(** The same for an operation of the service: it throws and the store
    is as it was; and if the run got as far as the failing call, what
    is thrown is the store's error or exception, logged on the way. *)
Definition rethrows {A : Type} (operation : M A) (w : world)
  (before : list outcome) (bad : outcome) (rest : list outcome)
  (failed_log crashed_log : string) : Prop :=
  exists e w',
    run operation (with_oracle w (before ++ bad :: rest)) = (Thrown e, w')
    /\ w_db w' = w_db w
    /\ (length before < w_calls w' - w_calls w ->
        e = match bad with
            | Throws => StoreException
            | _ => Rejected storage_failure
            end
        /\ exists earlier,
             w_console w'
             = w_console w ++ earlier
               ++ match bad with
                  | Throws => [crashed_log]
                  | _ => [failed_log; crashed_log]
                  end).

(** The handler answers [r] although the store call failed with an
    error result; the store is as it was and the console has gained
    the lines [logged]. *)
Definition unsurfaced {A : Type} (handler : M A) (w : world)
  (rest : list outcome) (r : A) (logged : list string) : Prop :=
  exists w',
    run handler (with_oracle w (ReturnsError :: rest)) = (Returned r, w')
    /\ w_calls w' = S (w_calls w)
    /\ w_db w' = w_db w
    /\ w_console w' = w_console w ++ logged.

(** ** Sample data for the worked instances *)

(** A stand-in for [gen_random_uuid()]: row ids [row0], [row1], ... *)
Definition counter_uuid (used : list uuid) : uuid :=
  u "row" ++ u (DecimalString.NilZero.string_of_uint (Nat.to_uint (length used))).

(** A stand-in for the keyed digest. *)
Definition toy_hmac (key message : jsstring) : jsstring :=
  u "mac(" ++ key ++ u "," ++ message ++ u ")".

(** A stand-in for token verification: the token is the secret. *)
Definition toy_jwt_verify (token : jsstring) (secret : option jsstring) : bool :=
  option_eqb secret token.

Definition sample_time : timestamp := u "2024-06-01T10:00:00.000Z".
Definition earlier_time : timestamp := u "2024-01-01T00:00:00.000Z".

Definition rent : subcategory :=
  mkSubcategory (u "Rent") None true (Some (u "monthly")).

Definition food_category : expense_category :=
  mkExpenseCategory (u "c1") (u "Food") None [rent] (Some (u "t1")) true
                    earlier_time earlier_time.

Definition expense_type : category_type :=
  mkCategoryType (u "t1") (u "Expense") None earlier_time earlier_time.

Definition salary_category : income_category :=
  mkIncomeCategory (u "i1") (u "Salary") (Some (u "t1")) earlier_time earlier_time.

Definition business_category : income_category :=
  mkIncomeCategory (u "i2") (u "Business") (Some (u "t1")) earlier_time earlier_time.

Definition lunch : expense :=
  mkExpense (u "e1") (u "user1") 1250 (u "Food") None None.

Definition order_payment : payment :=
  mkPayment (u "p1") (u "user1") (Some (u "e1")) 1250 (u "INR") created
            (Some (u "order_1")) None None None None None
            earlier_time None earlier_time.

Definition sample_db : database :=
  mkDatabase [expense_type] [food_category] [salary_category; business_category]
             [] [order_payment] [lunch] [].

Definition sample_world : world := calm sample_db sample_time.

Definition signed_body : verify_body :=
  mkVerifyBody (JStr (u "order_1")) (JStr (u "pay_1"))
               (JStr (toy_hmac (u "key") (u "order_1|pay_1"))).

Definition tampered_body : verify_body :=
  mkVerifyBody (JStr (u "order_1")) (JStr (u "pay_1")) (JStr (u "forged")).

Definition captured_entity : payment_entity :=
  mkPaymentEntity (JStr (u "order_1")) (JStr (u "pay_1")) (JStr (u "upi"))
                  JUndefined JNull.

Definition captured_event : webhook_body :=
  mkWebhookBody (JStr (u "payment.captured"))
                (Some (mkWebhookPayload (Some (Some captured_entity)) None)).

(** A stand-in for JSON text, good for the events of the samples: a
    string between quotation marks (code unit 34), [null] as it is, an
    undefined member left out, the members of the payment entity in
    the order of the record, and [separator] between a key and its
    value. *)
Definition quoted (s : jsstring) : jsstring := 34%N :: s ++ [34%N].

Definition member (separator : jsstring) (key : string) (v : jsval)
  : list jsstring :=
  match v with
  | JStr s => [quoted (u key) ++ separator ++ quoted s]
  | JNull => [quoted (u key) ++ separator ++ u "null"]
  | _ => []
  end.

Fixpoint joined (parts : list jsstring) : jsstring :=
  match parts with
  | [] => []
  | [part] => part
  | part :: rest => part ++ u "," ++ joined rest
  end.

Definition json_text_of (separator : jsstring) (body : webhook_body) : jsstring :=
  match wb_event body, payment_entity_of (wb_payload body) with
  | JStr event, Some e =>
      u "{" ++ quoted (u "event") ++ separator ++ quoted event ++ u ","
      ++ quoted (u "payload") ++ separator
      ++ u "{" ++ quoted (u "payment") ++ separator
      ++ u "{" ++ quoted (u "entity") ++ separator
      ++ u "{" ++ joined (member separator "order_id" (pe_order_id e)
                          ++ member separator "id" (pe_id e)
                          ++ member separator "method" (pe_method e)
                          ++ member separator "email" (pe_email e)
                          ++ member separator "contact" (pe_contact e))
      ++ u "}}}}"
  | _, _ => u "{}"
  end.

(** A stand-in for [JSON.stringify]: no white space. *)
Definition toy_stringify (body : webhook_body) : jsstring :=
  json_text_of (u ":") body.

(** The event [captured_event] as a sender writes it, with a space
    after every colon, under the header that is the HMAC of that text. *)
Definition captured_request : webhook_request :=
  mkWebhookRequest (json_text_of (u ": ") captured_event)
                   (Some (toy_hmac (u "whsec") (json_text_of (u ": ") captured_event)))
                   captured_event.

(** The same event under the header that is the HMAC of the text the
    handler builds. *)
Definition restated_request : webhook_request :=
  mkWebhookRequest (json_text_of (u ": ") captured_event)
                   (Some (toy_hmac (u "whsec") (toy_stringify captured_event)))
                   captured_event.

Definition food_type_input : category_type_input :=
  mkCategoryTypeInput (u "Food") None.

Definition stocked_category : expense_category_insert :=
  mkExpenseCategoryInsert (Some (u "Travel")) (Some (u "T")) (Some [rent])
                          (Some (u "t1")) None None None.

(** ** The remaining routes of routes/categoryTypes.js *)

(** [.order(column, { ascending: true })]: the rows in the order of
    the database's collation for the column, which is the store's
    business and which no script of the repository fixes.  All that is
    known of it here is that ordering neither drops nor adds a row. *)
Variable order_by : forall Row : Type, (Row -> jsstring) -> list Row -> list Row.

Arguments order_by {Row} _ _.

Hypothesis order_by_rows :
  forall (Row : Type) (column : Row -> jsstring) (rows : list Row),
    Permutation rows (order_by column rows).

(** [.from('category_types').select('*').order('type_name', { ascending: true })] *)
Definition select_category_types
  (_ : timestamp) (db : database) : result (list category_type) * database :=
  (ok (order_by ct_type_name (category_types db)), db).

(** *** GET /api/category-types *)
Definition list_category_types : M (response (list category_type)) :=
  try_catch
    (listed <- await select_category_types ;;
     match res_error listed with
     | Some _ =>
         console "Error fetching category types:" ;;;
         ret (fail_with 500 "Failed to fetch category types")
     | None =>
         ret (mkResponse 200 true None (Some (or_default (res_data listed) [])))
     end)
    (fun caught =>
       console "Error in category types route:" ;;;
       ret (fail_with 500 "Internal server error")).

(** [.select('id').eq('type_name', n).neq('id', id).single()] *)
Definition select_other_type_by_name (type_name : jsstring) (id : uuid)
  (_ : timestamp) (db : database) : result uuid * database :=
  (single (map ct_id
             (filter (fun r => name_is type_name r && negb (id_is id r))
                     (category_types db))), db).

(** The trigger [update_category_types_updated_at] on top of
    [{ type_name, description, updated_at }]. *)
Definition retype (type_name : jsstring) (description : option jsstring)
  (t : timestamp) (r : category_type) : category_type :=
  mkCategoryType (ct_id r) type_name description (ct_created_at r) t.

(** [.from('category_types').update({...}).eq('id', id).select().single()] *)
Definition update_category_type_row (id : uuid) (type_name : jsstring)
  (description : option jsstring) (updated_at : timestamp)
  (t : timestamp) (db : database) : result category_type * database :=
  match filter (id_is id) (category_types db) with
  | [r] =>
      if existsb (fun x => name_is type_name x && negb (id_is id x))
                 (category_types db)
      then (err unique_violation, db)
      else if 50 <? length type_name then (err value_too_long, db)
      else
        (ok (retype type_name description t r),
         set_category_types db
           (map (fun x => if id_is id x then retype type_name description t x else x)
                (category_types db)))
  | _ => (err PGRST116, db)
  end.

(** *** PUT /api/category-types/:id *)
Definition update_category_type (id : uuid) (body : category_type_input)
  : M (response category_type) :=
  try_catch
    (let type_name := cti_type_name body in
     let description := cti_description body in
     if negb (nonempty id) then
       ret (fail_with 400 "Category type ID is required")
     else
       existingType <- await (select_type_by_id id) ;;
       match res_data existingType with
       | None => ret (fail_with 404 "Category type not found")
       | Some _ =>
           duplicateType <- await (select_other_type_by_name type_name id) ;;
           match res_data duplicateType with
           | Some _ =>
               ret (fail_with 409 "Category type with this name already exists")
           | None =>
               t <- now ;;
               updated <- await (update_category_type_row id type_name description t) ;;
               match res_error updated with
               | Some _ =>
                   console "Error updating category type:" ;;;
                   ret (fail_with 500 "Failed to update category type")
               | None =>
                   ret (mkResponse 200 true
                          (Some "Category type updated successfully")
                          (res_data updated))
               end
           end
       end)
    (fun caught =>
       console "Error in update category type route:" ;;;
       ret (fail_with 500 "Internal server error")).

Definition put_category_types (id : uuid) (body : category_type_body)
  : M (response category_type) :=
  match validateCategoryType body with
  | Respond r => ret r
  | Next input => update_category_type id input
  end.

(** ** The remaining routes of routes/incomeCategories.js *)

Definition validateIncomeCategory {D : Type} (name : jsval)
  : middleware D jsstring :=
  match name with
  | JStr n =>
      if negb (truthy name) || (length (trim n) =? 0) then
        Respond (fail_with 400
          "Category name is required and must be a non-empty string")
      else if 100 <? length (trim n) then
        Respond (fail_with 400 "Category name must be 100 characters or less")
      else Next (trim n)
  | _ =>
      Respond (fail_with 400
        "Category name is required and must be a non-empty string")
  end.

(** [.from('income_categories').select('*').order('name', { ascending: true })] *)
Definition select_income_categories
  (_ : timestamp) (db : database) : result (list income_category) * database :=
  (ok (order_by ic_name (income_categories db)), db).

(** *** GET /api/income-categories *)
Definition list_income_categories : M (response (list income_category)) :=
  try_catch
    (listed <- await select_income_categories ;;
     match res_error listed with
     | Some _ =>
         console "Error fetching income categories:" ;;;
         ret (fail_with 500 "Failed to fetch income categories")
     | None =>
         ret (mkResponse 200 true None (Some (or_default (res_data listed) [])))
     end)
    (fun caught =>
       console "Error in income categories route:" ;;;
       ret (fail_with 500 "Internal server error")).

(** [.from('income_subcategories').select('*, income_categories (id, name)')
      .eq('category_id', id).order('name', { ascending: true })] *)
Definition select_subcategories_of (id : uuid)
  (_ : timestamp) (db : database)
  : result (list income_subcategory_view) * database :=
  (ok (map (embed_parent db)
           (order_by isc_name
              (filter (fun r => jsstring_eqb (isc_category_id r) id)
                      (income_subcategories db)))), db).

(** *** GET /api/income-categories/:id/subcategories *)
Definition list_income_subcategories (id : uuid)
  : M (response (list income_subcategory_view)) :=
  try_catch
    (if negb (nonempty id) then
       ret (fail_with 400 "Category ID is required")
     else
       listed <- await (select_subcategories_of id) ;;
       match res_error listed with
       | Some _ =>
           console "Error fetching income subcategories:" ;;;
           ret (fail_with 500 "Failed to fetch income subcategories")
       | None =>
           ret (mkResponse 200 true None (Some (or_default (res_data listed) [])))
       end)
    (fun caught =>
       console "Error in income subcategories route:" ;;;
       ret (fail_with 500 "Internal server error")).

Definition category_name_is (name : jsstring) (r : income_category) : bool :=
  jsstring_eqb (ic_name r) name.

(** [.from('income_categories').select('id').eq('name', name).single()] *)
Definition select_income_category_by_name (name : jsstring)
  (_ : timestamp) (db : database) : result uuid * database :=
  (single (map ic_id (filter (category_name_is name) (income_categories db))), db).

(** [.from('income_categories').insert({ name }).select().single()] *)
Definition insert_income_category_returning (name : jsstring)
  (t : timestamp) (db : database) : result income_category * database :=
  match income_category_row name None None None t db with
  | inl e => (err e, db)
  | inr row => (ok row, set_income_categories db (income_categories db ++ [row]))
  end.

(** *** POST /api/income-categories *)
Definition create_income_category (name : jsstring)
  : M (response income_category) :=
  try_catch
    (existingCategory <- await (select_income_category_by_name name) ;;
     match res_data existingCategory with
     | Some _ =>
         ret (fail_with 409 "Income category with this name already exists")
     | None =>
         inserted <- await (insert_income_category_returning name) ;;
         match res_error inserted with
         | Some _ =>
             console "Error creating income category:" ;;;
             ret (fail_with 500 "Failed to create income category")
         | None =>
             ret (mkResponse 201 true (Some "Income category created successfully")
                             (res_data inserted))
         end
     end)
    (fun caught =>
       console "Error in create income category route:" ;;;
       ret (fail_with 500 "Internal server error")).

Definition post_income_categories (name : jsval) : M (response income_category) :=
  match validateIncomeCategory name with
  | Respond r => ret r
  | Next trimmed => create_income_category trimmed
  end.

(** [.select('id').eq('name', name).neq('id', id).single()] *)
Definition select_other_income_category (name : jsstring) (id : uuid)
  (_ : timestamp) (db : database) : result uuid * database :=
  (single (map ic_id
             (filter (fun r => category_name_is name r && negb (category_id_is id r))
                     (income_categories db))), db).

Definition rename_income_category (name : jsstring) (updated_at : timestamp)
  (r : income_category) : income_category :=
  mkIncomeCategory (ic_id r) name (ic_category_type_id r) (ic_created_at r) updated_at.

(** [.from('income_categories').update({ name, updated_at }).eq('id', id)
      .select().single()] *)
Definition update_income_category_row (id : uuid) (name : jsstring)
  (updated_at : timestamp)
  (_ : timestamp) (db : database) : result income_category * database :=
  match filter (category_id_is id) (income_categories db) with
  | [r] =>
      if existsb (fun x => category_name_is name x && negb (category_id_is id x))
                 (income_categories db)
      then (err unique_violation, db)
      else if 100 <? length name then (err value_too_long, db)
      else
        (ok (rename_income_category name updated_at r),
         set_income_categories db
           (map (fun x => if category_id_is id x
                          then rename_income_category name updated_at x else x)
                (income_categories db)))
  | _ => (err PGRST116, db)
  end.

(** *** PUT /api/income-categories/:id *)
Definition update_income_category (id : uuid) (name : jsstring)
  : M (response income_category) :=
  try_catch
    (if negb (nonempty id) then
       ret (fail_with 400 "Category ID is required")
     else
       existingCategory <- await (select_income_category id) ;;
       match res_data existingCategory with
       | None => ret (fail_with 404 "Income category not found")
       | Some _ =>
           duplicateCategory <- await (select_other_income_category name id) ;;
           match res_data duplicateCategory with
           | Some _ =>
               ret (fail_with 409 "Income category with this name already exists")
           | None =>
               t <- now ;;
               updated <- await (update_income_category_row id name t) ;;
               match res_error updated with
               | Some _ =>
                   console "Error updating income category:" ;;;
                   ret (fail_with 500 "Failed to update income category")
               | None =>
                   ret (mkResponse 200 true
                          (Some "Income category updated successfully")
                          (res_data updated))
               end
           end
       end)
    (fun caught =>
       console "Error in update income category route:" ;;;
       ret (fail_with 500 "Internal server error")).

Definition put_income_categories (id : uuid) (name : jsval)
  : M (response income_category) :=
  match validateIncomeCategory name with
  | Respond r => ret r
  | Next trimmed => update_income_category id trimmed
  end.

Definition subcategory_id_is (id : uuid) (r : income_subcategory) : bool :=
  jsstring_eqb (isc_id r) id.

(** [.from('income_subcategories').select('id, category_id').eq('id', id).single()] *)
Definition select_income_subcategory_by_id (id : uuid)
  (_ : timestamp) (db : database) : result (uuid * uuid) * database :=
  (single (map (fun r => (isc_id r, isc_category_id r))
               (filter (subcategory_id_is id) (income_subcategories db))), db).

(** [.select('id').eq('category_id', c).eq('name', n).neq('id', id).single()] *)
Definition select_other_income_subcategory (category_id : uuid) (name : jsstring)
  (id : uuid)
  (_ : timestamp) (db : database) : result uuid * database :=
  (single (map isc_id
             (filter (fun r => subcategory_is category_id name r
                               && negb (subcategory_id_is id r))
                     (income_subcategories db))), db).

Definition rewrite_income_subcategory (category_id : uuid) (name : jsstring)
  (is_recurring : bool) (updated_at : timestamp) (r : income_subcategory)
  : income_subcategory :=
  mkIncomeSubcategory (isc_id r) category_id name is_recurring
                      (isc_created_at r) updated_at.

(** [.from('income_subcategories')
      .update({ category_id, name, is_recurring, updated_at }).eq('id', id)
      .select(...).single()] *)
Definition update_income_subcategory_row (id category_id : uuid) (name : jsstring)
  (is_recurring : bool) (updated_at : timestamp)
  (_ : timestamp) (db : database) : result income_subcategory_view * database :=
  match filter (subcategory_id_is id) (income_subcategories db) with
  | [r] =>
      if negb (existsb (category_id_is category_id) (income_categories db))
      then (err foreign_key_violation, db)
      else if existsb (fun x => subcategory_is category_id name x
                                && negb (subcategory_id_is id x))
                      (income_subcategories db)
      then (err unique_violation, db)
      else if 100 <? length name then (err value_too_long, db)
      else
        let row := rewrite_income_subcategory category_id name is_recurring
                                              updated_at r in
        (ok (embed_parent db row),
         set_income_subcategories db
           (map (fun x => if subcategory_id_is id x
                          then rewrite_income_subcategory category_id name
                                 is_recurring updated_at x
                          else x)
                (income_subcategories db)))
  | _ => (err PGRST116, db)
  end.

(** *** PUT /api/income-subcategories/:id *)
Definition update_income_subcategory (id : uuid) (body : income_subcategory_input)
  : M (response income_subcategory_view) :=
  try_catch
    (let category_id := isi_category_id body in
     let name := isi_name body in
     let is_recurring := isi_is_recurring body in
     if negb (nonempty id) then
       ret (fail_with 400 "Subcategory ID is required")
     else
       existingSubcategory <- await (select_income_subcategory_by_id id) ;;
       match res_data existingSubcategory with
       | None => ret (fail_with 404 "Income subcategory not found")
       | Some _ =>
           category <- await (select_income_category category_id) ;;
           match res_data category with
           | None => ret (fail_with 404 "Income category not found")
           | Some _ =>
               duplicateSubcategory <-
                 await (select_other_income_subcategory category_id name id) ;;
               match res_data duplicateSubcategory with
               | Some _ =>
                   ret (fail_with 409 msg_subcategory_exists)
               | None =>
                   t <- now ;;
                   updated <- await (update_income_subcategory_row id category_id
                                       name is_recurring t) ;;
                   match res_error updated with
                   | Some _ =>
                       console "Error updating income subcategory:" ;;;
                       ret (fail_with 500 "Failed to update income subcategory")
                   | None =>
                       ret (mkResponse 200 true
                              (Some "Income subcategory updated successfully")
                              (res_data updated))
                   end
               end
           end
       end)
    (fun caught =>
       console "Error in update income subcategory route:" ;;;
       ret (fail_with 500 "Internal server error")).

Definition put_income_subcategories (id : uuid) (body : income_subcategory_body)
  : M (response income_subcategory_view) :=
  match validateIncomeSubcategory body with
  | Respond r => ret r
  | Next input => update_income_subcategory id input
  end.

(** A reference to one of the rows that are being deleted. *)
Definition gone (deleted : list uuid) (reference : option uuid) : bool :=
  match reference with
  | Some id => existsb (jsstring_eqb id) deleted
  | None => false
  end.

(** [ON DELETE SET NULL] on [incomes.category_id] and
    [incomes.subcategory_id]: an income record that refers to a deleted
    category or subcategory loses that reference, and the update that
    does it fires [trg_incomes_updated_at]. *)
Definition release_income (categories subcategories : list uuid) (t : timestamp)
  (i : income) : income :=
  if gone categories (inc_category_id i) || gone subcategories (inc_subcategory_id i)
  then mkIncome (inc_id i) (inc_user_id i) (inc_amount i) (inc_category i)
                (inc_subcategory i)
                (if gone categories (inc_category_id i) then None
                 else inc_category_id i)
                (if gone subcategories (inc_subcategory_id i) then None
                 else inc_subcategory_id i)
                t
  else i.

(** [.from('income_categories').delete().eq('id', id)]; the
    subcategories of the category go with it
    ([REFERENCES income_categories(id) ON DELETE CASCADE]), and the
    income records that referred to any of the deleted rows are
    released. *)
Definition delete_income_category_row (id : uuid)
  (t : timestamp) (db : database) : result unit * database :=
  let categories :=
    map ic_id (filter (category_id_is id) (income_categories db)) in
  let subcategories :=
    map isc_id (filter (fun r => jsstring_eqb (isc_category_id r) id)
                       (income_subcategories db)) in
  (done,
   set_incomes
     (set_income_subcategories
        (set_income_categories db
           (filter (fun r => negb (category_id_is id r)) (income_categories db)))
        (filter (fun r => negb (jsstring_eqb (isc_category_id r) id))
                (income_subcategories db)))
     (map (release_income categories subcategories t) (incomes db))).

(** *** DELETE /api/income-categories/:id *)
Definition delete_income_category (id : uuid) : M (response unit) :=
  try_catch
    (if negb (nonempty id) then
       ret (fail_with 400 "Category ID is required")
     else
       existingCategory <- await (select_income_category id) ;;
       match res_data existingCategory with
       | None => ret (fail_with 404 "Income category not found")
       | Some _ =>
           deleted <- await (delete_income_category_row id) ;;
           match res_error deleted with
           | Some _ =>
               console "Error deleting income category:" ;;;
               ret (fail_with 500 "Failed to delete income category")
           | None =>
               ret (mkResponse 200 true
                      (Some "Income category deleted successfully") None)
           end
       end)
    (fun caught =>
       console "Error in delete income category route:" ;;;
       ret (fail_with 500 "Internal server error")).

(** [.from('income_subcategories').select('id').eq('id', id).single()] *)
Definition select_income_subcategory_id (id : uuid)
  (_ : timestamp) (db : database) : result uuid * database :=
  (single (map isc_id (filter (subcategory_id_is id) (income_subcategories db))), db).

(** [.from('income_subcategories').delete().eq('id', id)]; the income
    records that referred to the deleted row are released. *)
Definition delete_income_subcategory_row (id : uuid)
  (t : timestamp) (db : database) : result unit * database :=
  let subcategories :=
    map isc_id (filter (subcategory_id_is id) (income_subcategories db)) in
  (done,
   set_incomes
     (set_income_subcategories db
        (filter (fun r => negb (subcategory_id_is id r)) (income_subcategories db)))
     (map (release_income [] subcategories t) (incomes db))).

(** *** DELETE /api/income-subcategories/:id *)
Definition delete_income_subcategory (id : uuid) : M (response unit) :=
  try_catch
    (if negb (nonempty id) then
       ret (fail_with 400 "Subcategory ID is required")
     else
       existingSubcategory <- await (select_income_subcategory_id id) ;;
       match res_data existingSubcategory with
       | None => ret (fail_with 404 "Income subcategory not found")
       | Some _ =>
           deleted <- await (delete_income_subcategory_row id) ;;
           match res_error deleted with
           | Some _ =>
               console "Error deleting income subcategory:" ;;;
               ret (fail_with 500 "Failed to delete income subcategory")
           | None =>
               ret (mkResponse 200 true
                      (Some "Income subcategory deleted successfully") None)
           end
       end)
    (fun caught =>
       console "Error in delete income subcategory route:" ;;;
       ret (fail_with 500 "Internal server error")).

(** ** ExpenseCategoriesService.updateCategory *)

(** The columns an [updateData] object may set. *)
Record category_update : Type := mkCategoryUpdate {
  cu_category : option jsstring;
  cu_icon : option (option jsstring);
  cu_subcategories : option (list subcategory);
  cu_category_type_id : option (option uuid);
  cu_is_active : option bool
}.

Definition apply_category_update (updateData : category_update)
  (r : expense_category) : expense_category :=
  mkExpenseCategory (ec_id r)
                    (or_default (cu_category updateData) (ec_category r))
                    (or_default (cu_icon updateData) (ec_icon r))
                    (or_default (cu_subcategories updateData) (ec_subcategories r))
                    (or_default (cu_category_type_id updateData)
                                (ec_category_type_id r))
                    (or_default (cu_is_active updateData) (ec_is_active r))
                    (ec_created_at r) (ec_updated_at r).

(** [.from('expense_categories').update(updateData).eq('id', id).select().single()]
    under [UNIQUE(category)], the [NOT NULL] reference to
    [category_types(id)] and the reference [fk_expenses_category] from
    [expenses(category)]. *)
Definition update_category_checked (id : uuid) (updateData : category_update)
  (t : timestamp) (db : database) : result expense_category * database :=
  match filter (category_row_is id) (expense_categories db) with
  | [r] =>
      let r' := apply_category_update updateData r in
      if match ec_category_type_id r' with None => true | Some _ => false end
      then (err not_null_violation, db)
      else if existsb (fun x => jsstring_eqb (ec_category x) (ec_category r')
                                && negb (category_row_is id x))
                      (expense_categories db)
      then (err unique_violation, db)
      else if negb (type_exists db (ec_category_type_id r'))
      then (err foreign_key_violation, db)
      else if negb (jsstring_eqb (ec_category r') (ec_category r))
              && existsb (fun e => jsstring_eqb (exp_category e) (ec_category r))
                         (expenses db)
      then (err foreign_key_violation, db)
      else
        (ok (touch_expense_category t r'),
         set_expense_categories db
           (map (update_row id (apply_category_update updateData) t)
                (expense_categories db)))
  | _ => (err PGRST116, db)
  end.

Definition updateCategory (categoryId : uuid) (updateData : category_update)
  : M (option expense_category) :=
  rethrow "Exception in updateCategory:"
    (r <- await (update_category_checked categoryId updateData) ;;
     throw_on_error "Error updating category:" r ;;;
     ret (res_data r)).

(** ** Order creation (index.js and the payments edge function) *)

(** [auth.users(id)], which [payments.user_id] references. *)
Variable auth_users : list uuid.

(** The cast of a JSON string to [numeric]. *)
Variable parse_numeric : jsstring -> option Z.

Record order_body : Type := mkOrderBody {
  ob_amount : jsval;
  ob_currency : jsval;
  ob_userId : jsval;
  ob_expenseId : jsval;
  ob_description : jsval
}.

(** The order as Razorpay returns it. *)
Record razorpay_order : Type := mkRazorpayOrder {
  ro_id : jsstring;
  ro_amount : Z;
  ro_currency : jsstring
}.

(** [razorpay.orders.create({...})]: the answer of the payment processor
    to the request built from the body and the clock (amount in paise,
    currency, receipt, notes); the error description when the call
    throws. *)
Variable razorpay_orders_create : order_body -> timestamp -> string + razorpay_order.

(** [currency = 'INR'] in the destructuring of the body. *)
Definition currency_of (body : order_body) : jsval :=
  match ob_currency body with
  | JUndefined => JStr (u "INR")
  | c => c
  end.

(** [x || null] *)
Definition or_null (v : jsval) : jsval := if truthy v then v else JNull.

(** A JSON value arriving in a [numeric(10,2)] column. *)
Definition numeric_of (v : jsval) : option Z :=
  match v with
  | JNum z => Some z
  | JStr s => parse_numeric s
  | _ => None
  end.

Definition text_of (v : jsval) : option jsstring :=
  match v with
  | JUndefined | JNull => None
  | _ => Some (json_text v)
  end.

(** [.from('payments').insert({ user_id, expense_id, amount, currency,
      status: 'created', razorpay_order_id, notes })] under the
    constraints of create_payments_table.sql. *)
Definition insert_payment (user_id expense_id amount currency : jsval)
  (order_id : jsstring)
  (t : timestamp) (db : database) : result unit * database :=
  match text_of user_id, numeric_of amount, text_of currency with
  | Some user, Some value, Some cur =>
      if negb (existsb (jsstring_eqb user) auth_users)
      then (err foreign_key_violation, db)
      else if match text_of expense_id with
              | Some e => negb (existsb (fun x => jsstring_eqb (exp_id x) e)
                                        (expenses db))
              | None => false
              end
      then (err foreign_key_violation, db)
      else if (100000000 <=? Z.abs value)%Z then (err value_too_long, db)
      else if existsb (fun p => option_eqb (pay_razorpay_order_id p) order_id)
                      (payments db)
      then (err unique_violation, db)
      else
        (done,
         set_payments db
           (payments db
            ++ [mkPayment (gen_random_uuid (map pay_id (payments db))) user
                          (text_of expense_id) value cur created (Some order_id)
                          None None None None None t None t]))
  | _, _, _ => (err not_null_violation, db)
  end.

Definition order_fields_missing (body : order_body) : bool :=
  negb (truthy (ob_amount body)) || negb (truthy (ob_userId body)).

(** *** POST /api/payments/create-order (index.js) *)
Definition create_order (body : order_body) : M (response razorpay_order) :=
  try_catch
    (if order_fields_missing body then
       ret (fail_with 400 "amount and userId are required")
     else
       t <- now ;;
       match razorpay_orders_create body t with
       | inl _ => throw StoreException
       | inr order =>
           await (insert_payment (ob_userId body) (or_null (ob_expenseId body))
                    (ob_amount body) (currency_of body) (ro_id order)) ;;;
           ret (mkResponse 200 true None (Some order))
       end)
    (fun caught =>
       console "create-order error:" ;;;
       ret (fail_with 500 "Failed to create order")).

Definition post_payments_create_order (jwt_secret authorization : option jsstring)
  (body : order_body) : M (response razorpay_order) :=
  checked <- jwtAuthMiddleware jwt_secret authorization ;;
  match checked with
  | Respond r => ret r
  | Next _ => create_order body
  end.

(** *** The request handler of the payments edge function *)

Inductive http_method : Type := GET | POST | OPTIONS | PUT | DELETE.

Fixpoint starts_with (prefix s : jsstring) : bool :=
  match prefix, s with
  | [], _ => true
  | _ :: _, [] => false
  | a :: prefix', b :: s' => N.eqb a b && starts_with prefix' s'
  end.

(** [s.endsWith(suffix)] *)
Definition endsWith (s suffix : jsstring) : bool :=
  starts_with (rev suffix) (rev s).

(** The parsed body; a body that is absent or not JSON reads as a body
    none of whose fields is defined. *)
Record edge_body : Type := mkEdgeBody {
  eb_action : jsval;
  eb_order : order_body;
  eb_verify : verify_body
}.

Inductive edge_answer : Type :=
| Preflight                                   (* 204, no body *)
| OrderAnswer (r : response razorpay_order)
| VerifyAnswer (r : response payment)
| Health                                      (* 200 *)
| NotFound.                                   (* 404 *)

Definition edge_status (a : edge_answer) : nat :=
  match a with
  | Preflight => 204
  | OrderAnswer r => status r
  | VerifyAnswer r => status r
  | Health => 200
  | NotFound => 404
  end.

(** [err.message || 'Internal error'] *)
Definition message_or_default (description : string) : string :=
  if String.eqb description "" then "Internal error" else description.

(** The create-order branch: [razorpayRequest] throws the processor's
    error description, which the handler's [catch] turns into the 500
    answer; the insert is skipped without the admin client. *)
Definition edge_create_order (supabaseAdmin : bool) (body : order_body)
  : M (response razorpay_order) :=
  try_catch
    (if order_fields_missing body then
       ret (fail_with 400 "amount and userId are required")
     else
       t <- now ;;
       match razorpay_orders_create body t with
       | inl description =>
           console "payments function error:" ;;;
           ret (fail_with 500 (message_or_default description))
       | inr order =>
           (if supabaseAdmin then
              await (insert_payment (ob_userId body) (or_null (ob_expenseId body))
                       (ob_amount body) (currency_of body) (ro_id order)) ;;;
              ret tt
            else ret tt) ;;;
           ret (mkResponse 200 true None (Some order))
       end)
    (fun caught =>
       console "payments function error:" ;;;
       ret (fail_with 500 (exn_message caught))).

Definition answer_with {A B : Type} (wrap : A -> B) (m : M A) : M B :=
  a <- m ;; ret (wrap a).

(** [serve(async (req) => ...)]; the CORS headers every answer carries
    are left out. *)
Definition serve (supabaseAdmin : bool) (key_secret : option jsstring)
  (method : http_method) (pathname : jsstring) (bodyData : edge_body)
  : M edge_answer :=
  let is_post := match method with POST => true | _ => false end in
  match method with
  | OPTIONS => ret Preflight
  | _ =>
      if (endsWith pathname (u "/payments") || endsWith pathname (u "/create-order"))
         && is_post
      then answer_with OrderAnswer (edge_create_order supabaseAdmin (eb_order bodyData))
      else if (endsWith pathname (u "/payments") || endsWith pathname (u "/verify"))
              && is_post
              && (strict_eq_string (eb_action bodyData) (u "verify")
                  || endsWith pathname (u "/verify"))
      then answer_with VerifyAnswer
             (edge_verify supabaseAdmin key_secret (eb_verify bodyData))
      else if endsWith pathname (u "/health") then ret Health
      else ret NotFound
  end.

(** ** Normal forms of validated names *)

(** No white space at either end. *)
Definition trimmed (s : jsstring) : Prop :=
  (forall c rest, s = c :: rest -> isWhiteSpace c = false)
  /\ (forall c rest, rev s = c :: rest -> isWhiteSpace c = false).

(** What income-category validation lets through. *)
Definition valid_category_name (name : jsval) (n : jsstring) : Prop :=
  exists s, name = JStr s /\ n = trim s /\ n <> [] /\ length n <= 100.

(** What income-subcategory validation lets through. *)
Definition valid_subcategory_body (body : income_subcategory_body)
  (input : income_subcategory_input) : Prop :=
  exists n,
    isb_category_id body = JStr (isi_category_id input)
    /\ isi_category_id input <> []
    /\ isb_name body = JStr n
    /\ isi_name input = trim n
    /\ trim n <> [] /\ length (trim n) <= 100
    /\ isb_is_recurring body = JBool (isi_is_recurring input).





(** ** Relating the store before and after a run *)

(** Whatever the store calls turn out to be, the store after the run is
    related by [R] to the store before. *)
Definition steps (R : database -> database -> Prop) {A : Type} (m : M A) : Prop :=
  forall w, R (w_db w) (w_db (snd (run m w))).

Definition preorder (R : database -> database -> Prop) : Prop :=
  (forall db, R db db) /\ (forall a b c, R a b -> R b c -> R a c).

(** A query that relates the store it leaves to the store it found. *)
Definition query_steps (R : database -> database -> Prop) {A : Type}
  (q : timestamp -> database -> result A * database) : Prop :=
  forall t db, R db (snd (q t db)).

(** ** Integrity of the income tables *)

Definition parents_exist (db : database) : Prop :=
  forall s, In s (income_subcategories db) ->
            income_category_exists db (isc_category_id s).

Definition income_integrity (db : database) : Prop :=
  unique_subcategories db
  /\ NoDup (map ic_name (income_categories db))
  /\ parents_exist db.

Definition keeps_income_integrity (db db' : database) : Prop :=
  income_integrity db -> income_integrity db'.

(** The references [incomes.category_id] and [incomes.subcategory_id]
    hold: an income record refers to rows that exist. *)
Definition income_references_hold (db : database) : Prop :=
  forall i, In i (incomes db) ->
    (forall c, inc_category_id i = Some c -> In c (map ic_id (income_categories db)))
    /\ (forall s, inc_subcategory_id i = Some s ->
                  In s (map isc_id (income_subcategories db))).

(** ** Listings *)

Definition subcategory_of (id : uuid) (r : income_subcategory) : bool :=
  jsstring_eqb (isc_category_id r) id.

(** ** A line on the console *)

(** The world [w] after [console.error(line, ...)]. *)
Definition logged (w : world) (line : string) : world :=
  mkWorld (w_db w) (w_now w) (w_oracle w) (w_console w ++ [line])
          (w_calls w) (w_outbox w).

(** ** The same request at another time *)

Definition at_time (w : world) (t : timestamp) : world :=
  mkWorld (w_db w) t (w_oracle w) (w_console w) (w_calls w) (w_outbox w).

(** ** What the expense categories service leaves alone *)

(** The other tables are as they were and the category rows are the
    same rows, id for id. *)
Definition rows_kept (db db' : database) : Prop :=
  same_other_tables db db'
  /\ map ec_id (expense_categories db') = map ec_id (expense_categories db).

(** The other tables are as they were and the old category rows are
    all still there, id for id, before anything new. *)
Definition rows_extended (db db' : database) : Prop :=
  same_other_tables db db'
  /\ exists added,
       map ec_id (expense_categories db')
       = map ec_id (expense_categories db) ++ added.


(** [{ is_active: true }] *)
Definition reactivate : category_update :=
  mkCategoryUpdate None None None None (Some true).

(** ** Orders that can be recorded *)

(** The constraints of the payments table that an insert for this
    request and order id has to meet. *)
Definition recordable (body : order_body) (order_id : jsstring) (db : database)
  : Prop :=
  (exists user, text_of (ob_userId body) = Some user /\ In user auth_users)
  /\ (exists value, numeric_of (ob_amount body) = Some value
                    /\ (Z.abs value < 100000000)%Z)
  /\ (exists cur, text_of (currency_of body) = Some cur)
  /\ (forall e, text_of (or_null (ob_expenseId body)) = Some e ->
                exists x, In x (expenses db) /\ exp_id x = e)
  /\ ~ In (Some order_id) (map pay_razorpay_order_id (payments db)).

(** The verify request the checkout sends back for an order: the order
    id, the payment id and the hex HMAC of [order_id|payment_id] under
    the key secret, all three as strings. *)
Definition checkout_response (key order_id payment_id : jsstring) : verify_body :=
  mkVerifyBody (JStr order_id) (JStr payment_id)
    (JStr (hmac_sha256_hex key (order_id ++ u "|" ++ payment_id))).

(** ** The shape of an answer *)

(** A success answer is a 200 or a 201; any other answer is a 400, 401,
    404, 409 or 500 that says why and carries no data. *)
Definition well_formed {D : Type} (r : response D) : Prop :=
  (success r = true /\ (status r = 200 \/ status r = 201))
  \/ (success r = false /\ In (status r) [400; 401; 404; 409; 500]
      /\ message r <> None /\ data r = None).

(** Whenever the run returns, what it returns satisfies [P]. *)
Definition ends {A : Type} (P : A -> Prop) (m : M A) : Prop :=
  forall w, match fst (m w) with Returned a => P a | Thrown _ => True end.

(** The run returns, whatever world it starts in, and what it returns
    satisfies [P]. *)
Definition always_answers {A : Type} (P : A -> Prop) (m : M A) : Prop :=
  forall w, exists a w', run m w = (Returned a, w') /\ P a.

(** ** More sample data *)

(** A stand-in for the store's ordering: by code units, ascending. *)
Fixpoint insert_ordered {Row : Type} (column : Row -> jsstring) (r : Row)
  (rows : list Row) : list Row :=
  match rows with
  | [] => [r]
  | x :: rest =>
      if jsstring_leb (column r) (column x) then r :: x :: rest
      else x :: insert_ordered column r rest
  end.

Definition by_code_units (Row : Type) (column : Row -> jsstring) (rows : list Row)
  : list Row :=
  fold_right (insert_ordered column) [] rows.

(** A stand-in for [Number::toString], good for the small numbers of
    the samples. *)
Definition decimal (z : Z) : jsstring :=
  u (DecimalString.NilZero.string_of_int (Z.to_int z)).

Definition bonus_income : income :=
  mkIncome (u "n1") (u "user1") 50000 (u "Salary") (Some (u "Bonus"))
           (Some (u "i1")) (Some (u "s1")) earlier_time.

Definition rent_income : income :=
  mkIncome (u "n2") (u "user2") 9000 (u "Business") None
           (Some (u "i2")) None earlier_time.

Definition bonus : income_subcategory :=
  mkIncomeSubcategory (u "s1") (u "i1") (u "Bonus") false earlier_time earlier_time.

Definition overtime : income_subcategory :=
  mkIncomeSubcategory (u "s2") (u "i1") (u "Overtime") true earlier_time earlier_time.

Definition income_db : database :=
  set_income_subcategories sample_db [bonus; overtime].

Definition income_world : world := calm income_db sample_time.

(** The income tables with two income records: one under Salary and
    its subcategory Bonus, one under Business. *)
Definition ledger_db : database := set_incomes income_db [bonus_income; rent_income].

Definition ledger_world : world := calm ledger_db sample_time.

Definition later_time : timestamp := u "2024-06-02T08:30:00.000Z".

(** A stand-in for the payment processor: it numbers the order after
    the clock and refuses amounts that are not whole numbers. *)
Definition toy_orders_create (currency : jsstring) (amount : jsval) (t : timestamp)
  : string + razorpay_order :=
  match amount with
  | JNum z => inr (mkRazorpayOrder (u "order_" ++ t) (z * 100) currency)
  | _ => inl "The amount must be an integer."
  end.

Definition known_users : list uuid := [u "user1"; u "user2"].

Definition toy_parse_numeric (s : jsstring) : option Z := None.

Definition lunch_order : order_body :=
  mkOrderBody (JNum 1250) JUndefined (JStr (u "user1")) (JStr (u "e1")) JUndefined.

(** * Properties *)

(** ** Strings *)

Lemma jsstring_eqb_eq (a b : jsstring) : jsstring_eqb a b = true <-> a = b.
Proof.
  revert b; induction a as [|x a IH]; intros [|y b]; simpl; split;
    try congruence; try reflexivity.
  - intros H. apply andb_true_iff in H as [Hx Hab].
    apply N.eqb_eq in Hx. apply IH in Hab. congruence.
  - intros H. injection H as -> ->. rewrite N.eqb_refl. simpl. now apply IH.
Qed.

Lemma jsstring_eqb_refl (a : jsstring) : jsstring_eqb a a = true.
Proof. now apply jsstring_eqb_eq. Qed.

Lemma jsstring_eqb_neq (a b : jsstring) : jsstring_eqb a b = false <-> a <> b.
Proof.
  split.
  - intros H E. apply jsstring_eqb_eq in E. congruence.
  - intros H. destruct (jsstring_eqb a b) eqn:E; [|reflexivity].
    apply jsstring_eqb_eq in E. contradiction.
Qed.

Lemma characterOnlyClass_allowed (c : N) :
  characterOnlyClass c = true <-> allowed_character c.
Proof.
  unfold characterOnlyClass, allowed_character, is_letter.
  rewrite !orb_true_iff, !andb_true_iff, !N.leb_le, !N.eqb_eq. tauto.
Qed.

Lemma characterOnlyRegex_test_spec (s : jsstring) :
  characterOnlyRegex_test s = true <-> s <> [] /\ Forall allowed_character s.
Proof.
  unfold characterOnlyRegex_test. destruct s as [|c s].
  - split; [discriminate | intros [H _]; congruence].
  - rewrite forallb_forall, Forall_forall. split.
    + intros H. split; [discriminate|]. intros x Hx.
      apply characterOnlyClass_allowed. now apply H.
    + intros [_ H] x Hx. apply characterOnlyClass_allowed. now apply H.
Qed.

(** ** Category-type validation *)

Lemma truthy_string_trim_nonempty (name : jsstring) :
  negb (truthy (JStr name)) || (length (trim name) =? 0) = false <-> trim name <> [].
Proof.
  rewrite orb_false_iff, negb_false_iff, Nat.eqb_neq. split.
  - intros [_ H] E. rewrite E in H. now apply H.
  - intros H. split.
    + destruct name; [now elim H | reflexivity].
    + intros E. apply length_zero_iff_nil in E. contradiction.
Qed.

Lemma description_test (d : jsval) :
  (truthy d && negb (is_string d) = false
   /\ truthy d && (200 <? js_length d) = false)
  <-> (truthy d = false \/ exists s, d = JStr s /\ length s <= 200).
Proof.
  split.
  - intros [H1 H2]. destruct (truthy d) eqn:T; [|now left]. right.
    simpl in H1, H2. destruct d; simpl in H1; try discriminate.
    exists s. split; [reflexivity|]. simpl in H2. apply Nat.ltb_ge in H2. lia.
  - intros [T | [s [-> L]]].
    + rewrite T. now split.
    + simpl. split; [apply andb_false_r|].
      replace (200 <? length s) with false; [apply andb_false_r|].
      symmetry. apply Nat.ltb_ge. lia.
Qed.

Lemma validateCategoryType_accepts (body : category_type_body) :
  accepted body <-> type_name_acceptable body /\ description_acceptable body.
Proof.
  unfold accepted, type_name_acceptable, description_acceptable,
    description_short_string, validateCategoryType.
  destruct body as [tn d]; simpl.
  destruct tn as [| |b|z|name|o j];
    try (split; [intros [i H]; discriminate
                | intros [[s [E _]] _]; discriminate]).
  destruct (negb (truthy (JStr name)) || (length (trim name) =? 0)) eqn:C1.
  { split; [intros [i H]; discriminate|].
    intros [[s [E [Hne _]]] _]. injection E as <-.
    apply truthy_string_trim_nonempty in Hne. congruence. }
  apply truthy_string_trim_nonempty in C1.
  destruct (50 <? length (trim name)) eqn:C2.
  { split; [intros [i H]; discriminate|].
    intros [[s [E [_ [Hlen _]]]] _]. injection E as <-.
    apply Nat.ltb_lt in C2. lia. }
  apply Nat.ltb_ge in C2.
  destruct (characterOnlyRegex_test (trim name)) eqn:C3; simpl.
  2:{ split; [intros [i H]; discriminate|].
      intros [[s [E [Hne [_ Hall]]]] _]. injection E as <-.
      assert (characterOnlyRegex_test (trim name) = true)
        by (apply characterOnlyRegex_test_spec; now split).
      congruence. }
  apply characterOnlyRegex_test_spec in C3 as [_ Hall].
  destruct (truthy d && negb (is_string d)) eqn:C4.
  { split; [intros [i H]; discriminate|].
    intros [_ Hd]. apply description_test in Hd as [Hd _]. congruence. }
  destruct (truthy d && (200 <? js_length d)) eqn:C5.
  { split; [intros [i H]; discriminate|].
    intros [_ Hd]. apply description_test in Hd as [_ Hd]. congruence. }
  split.
  - intros _. split.
    + exists name. repeat split; assumption.
    + apply description_test. now split.
  - intros _. eexists. reflexivity.
Qed.

Lemma validateCategoryType_rejects (body : category_type_body)
  (r : response category_type) :
  validateCategoryType body = Respond r ->
  status r = 400 /\ success r = false /\ data r = None
  /\ ((~ type_name_acceptable body /\ names_field "Type name" r)
      \/ (type_name_acceptable body /\ ~ description_acceptable body
          /\ names_field "Description" r)).
Proof.
  assert (Hname : forall m, String.prefix "Type name" m = true ->
            ~ type_name_acceptable body ->
            @Respond category_type category_type_input (fail_with 400 m) = Respond r ->
            status r = 400 /\ success r = false /\ data r = None
            /\ ((~ type_name_acceptable body /\ names_field "Type name" r)
                \/ (type_name_acceptable body /\ ~ description_acceptable body
                    /\ names_field "Description" r))).
  { intros m Hm Hn E. injection E as <-. repeat split. left. split; [assumption|].
    exists m. now split. }
  unfold validateCategoryType.
  destruct body as [tn d]; simpl.
  destruct tn as [| |b|z|name|o j];
    try (apply Hname; [reflexivity | intros [s [E _]]; discriminate]).
  destruct (negb (truthy (JStr name)) || (length (trim name) =? 0)) eqn:C1.
  { apply Hname; [reflexivity|]. intros [s [E [Hne _]]]. injection E as <-.
    apply truthy_string_trim_nonempty in Hne. simpl in *. congruence. }
  apply truthy_string_trim_nonempty in C1.
  destruct (50 <? length (trim name)) eqn:C2.
  { apply Hname; [reflexivity|]. intros [s [E [_ [Hlen _]]]]. injection E as <-.
    apply Nat.ltb_lt in C2. simpl in *. lia. }
  apply Nat.ltb_ge in C2.
  destruct (characterOnlyRegex_test (trim name)) eqn:C3; simpl.
  2:{ apply Hname; [reflexivity|]. intros [s [E [Hne [_ Hall]]]]. injection E as <-.
      assert (characterOnlyRegex_test (trim name) = true)
        by (apply characterOnlyRegex_test_spec; now split).
      congruence. }
  apply characterOnlyRegex_test_spec in C3 as [_ Hall].
  assert (Hok : type_name_acceptable (mkCategoryTypeBody (JStr name) d)).
  { exists name. repeat split; assumption. }
  assert (Hdesc : forall m, String.prefix "Description" m = true ->
            ~ description_acceptable (mkCategoryTypeBody (JStr name) d) ->
            @Respond category_type category_type_input (fail_with 400 m) = Respond r ->
            status r = 400 /\ success r = false /\ data r = None
            /\ ((~ type_name_acceptable (mkCategoryTypeBody (JStr name) d)
                 /\ names_field "Type name" r)
                \/ (type_name_acceptable (mkCategoryTypeBody (JStr name) d)
                    /\ ~ description_acceptable (mkCategoryTypeBody (JStr name) d)
                    /\ names_field "Description" r))).
  { intros m Hm Hn E. injection E as <-. repeat split. right.
    split; [assumption|]. split; [assumption|]. exists m. now split. }
  destruct (truthy d && negb (is_string d)) eqn:C4.
  { apply Hdesc; [reflexivity|]. intros Hd.
    apply description_test in Hd as [Hd _]. simpl in *. congruence. }
  destruct (truthy d && (200 <? js_length d)) eqn:C5.
  { apply Hdesc; [reflexivity|]. intros Hd.
    apply description_test in Hd as [_ Hd]. simpl in *. congruence. }
  discriminate.
Qed.

(** C5, as worded, does not hold: a description that is present and is
    not a string is still accepted when it is falsy.  The body
    [{type_name: "Food", description: false}] passes the middleware. *)
Lemma validateCategoryType_accepts_false_description :
  ~ (accepted body_food_false <->
     type_name_acceptable body_food_false
     /\ description_acceptable_as_worded body_food_false).
Proof.
  intros [H _].
  assert (A : accepted body_food_false) by (eexists; reflexivity).
  destruct (H A) as [_ [[E | E] | [d [E _]]]]; discriminate.
Qed.

(** C5 (amended): the middleware accepts a body exactly when the
    trimmed [type_name] is a non-empty string of at most 50 characters
    matching [^[A-Za-z\s\-']+$] and the description is falsy (absent,
    null, false, 0, empty) or a string of at most 200 characters; every
    other body is answered with HTTP 400 and a message that starts with
    the name of the offending field, and the world, store included, is
    left as it was. *)
Theorem category_type_validation_contract (body : category_type_body) (w : world) :
  (accepted body <-> type_name_acceptable body /\ description_acceptable body)
  /\ (accepted body
      \/ exists r,
           run (post_category_types body) w = (Returned r, w)
           /\ status r = 400 /\ success r = false /\ data r = None
           /\ ((~ type_name_acceptable body /\ names_field "Type name" r)
               \/ (type_name_acceptable body /\ ~ description_acceptable body
                   /\ names_field "Description" r))).
Proof.
  split; [apply validateCategoryType_accepts|].
  unfold accepted, run, post_category_types.
  destruct (validateCategoryType body) as [r | input] eqn:E.
  - right. exists r. split; [reflexivity|].
    now apply validateCategoryType_rejects.
  - left. now exists input.
Qed.

(** ** Running handlers against an answering store *)

Lemma Forall_tl {A : Type} (P : A -> Prop) (l : list A) :
  Forall P l -> Forall P (tl l).
Proof. intros H. destruct H; [constructor | assumption]. Qed.

Lemma await_answers {A : Type}
  (q : timestamp -> database -> result A * database)
  (db : database) (t : timestamp) (o : list outcome) (c : list string)
  (n : nat) (m : list uuid) :
  Forall (fun x => x = Answers) o ->
  await q (mkWorld db t o c n m) =
    (Returned (fst (q t db)), mkWorld (snd (q t db)) t (tl o) c (S n) m).
Proof.
  unfold await. intros H. simpl.
  destruct H as [|o1 o' -> _]; simpl; destruct (q t db); reflexivity.
Qed.

Ltac answered :=
  rewrite await_answers by (repeat apply Forall_tl; assumption);
  cbn [fst snd].

Lemma filter_unique {Row Key : Type} (key : Row -> Key) (test : Row -> bool)
  (k : Key) (rows : list Row) :
  (forall r, test r = true <-> key r = k) ->
  NoDup (map key rows) -> In k (map key rows) ->
  exists x, filter test rows = [x] /\ key x = k /\ In x rows.
Proof.
  intros Htest.
  induction rows as [|a rows IH]; simpl; intros ND HIn; [contradiction|].
  inversion ND as [|? ? Hfresh ND']; subst.
  destruct (test a) eqn:E.
  - apply Htest in E. exists a. split; [|split; [assumption | now left]].
    f_equal. clear IH HIn ND ND'. induction rows as [|b rows IHl]; [reflexivity|].
    simpl in *. destruct (test b) eqn:E'.
    + apply Htest in E'. exfalso. apply Hfresh. left. congruence.
    + apply IHl. intros H. apply Hfresh. now right.
  - destruct HIn as [HIn | HIn].
    + apply Htest in HIn. congruence.
    + destruct (IH ND' HIn) as [x [Hf [Hk Hx]]]. exists x.
      split; [assumption | split; [assumption | now right]].
Qed.

Lemma filter_key_singleton {Row : Type} (key : Row -> jsstring) (rows : list Row)
  (k : jsstring) :
  NoDup (map key rows) -> In k (map key rows) ->
  exists x, filter (fun r => jsstring_eqb (key r) k) rows = [x]
            /\ key x = k /\ In x rows.
Proof.
  apply filter_unique. intros r. apply jsstring_eqb_eq.
Qed.

Lemma existsb_filter {Row : Type} (test : Row -> bool) (rows : list Row) :
  existsb test rows = match filter test rows with [] => false | _ :: _ => true end.
Proof.
  induction rows as [|r rows IH]; [reflexivity|]. simpl.
  destruct (test r); simpl; [reflexivity | assumption].
Qed.

Lemma filter_nil_iff {Row : Type} (test : Row -> bool) (rows : list Row) :
  filter test rows = [] <-> forall r, In r rows -> test r = false.
Proof.
  induction rows as [|a rows IH]; simpl.
  - split; [intros _ x [] | reflexivity].
  - destruct (test a) eqn:E.
    + split; [discriminate|]. intros H. specialize (H a (or_introl eq_refl)). congruence.
    + rewrite IH. split.
      * intros H x [<- | Hx]; [assumption | now apply H].
      * intros H x Hx. apply H. now right.
Qed.

Lemma limit_one_nonempty {Row Col : Type} (column : Row -> Col)
  (test : Row -> bool) (rows : list Row) :
  (0 <? length (firstn 1 (map column (filter test rows)))) = existsb test rows.
Proof.
  induction rows as [|r rows IH]; [reflexivity|]. simpl.
  destruct (test r); simpl; [reflexivity | assumption].
Qed.

Lemma option_eqb_eq (a : option jsstring) (b : jsstring) :
  option_eqb a b = true <-> a = Some b.
Proof.
  destruct a as [x|]; simpl; [|split; discriminate].
  rewrite jsstring_eqb_eq. split; congruence.
Qed.

Lemma referenced_dec (db : database) (id : uuid) :
  referenced db id <->
  existsb (expense_uses id) (expense_categories db)
  || existsb (income_uses id) (income_categories db) = true.
Proof.
  unfold referenced. rewrite orb_true_iff, !existsb_exists.
  unfold expense_uses, income_uses.
  split; intros [[c [Hc E]] | [c [Hc E]]];
    [left | right | left | right]; exists c; split; try assumption;
    now apply option_eqb_eq.
Qed.

(** ** Deleting a category type *)

(** C2: deleting a category type that exists (one row under the primary
    key), with the store answering: when an expense category or an
    income category references it, the answer is HTTP 409 and the store
    is unchanged; when none does, the row is removed, nothing else
    changes, and the answer is HTTP 200 success. *)
Theorem delete_category_type_guard (id : uuid) (w : world) :
  nonempty id = true ->
  answering w ->
  NoDup (map ct_id (category_types (w_db w))) ->
  In id (map ct_id (category_types (w_db w))) ->
  exists r w',
    run (delete_category_type id) w = (Returned r, w')
    /\ ((referenced (w_db w) id
         /\ status r = 409 /\ success r = false /\ w_db w' = w_db w)
        \/ (~ referenced (w_db w) id
            /\ status r = 200 /\ success r = true
            /\ w_db w' = without_type (w_db w) id
            /\ ~ In id (map ct_id (category_types (w_db w'))))).
Proof.
  intros Hid Hw ND HIn.
  destruct w as [db t o c n m]. unfold answering in Hw. simpl in *.
  destruct (filter_key_singleton ct_id _ _ ND HIn) as [row [Hrow [Hk _]]].
  unfold run, delete_category_type, try_catch, bind. rewrite Hid. simpl.
  answered. unfold select_type_by_id, id_is at 1. rewrite Hrow.
  cbn [fst snd single map res_data ok].
  answered. unfold select_expense_categories_using.
  cbn [fst snd in_use res_data ok]. rewrite limit_one_nonempty.
  destruct (existsb (expense_uses id) (expense_categories db)) eqn:EU.
  { eexists _, _. split; [reflexivity|]. left.
    split; [apply referenced_dec; simpl; now rewrite EU|]. repeat split. }
  answered. unfold select_income_categories_using.
  cbn [fst snd in_use res_data ok]. rewrite limit_one_nonempty.
  destruct (existsb (income_uses id) (income_categories db)) eqn:IU.
  { eexists _, _. split; [reflexivity|]. left.
    split; [apply referenced_dec; simpl; rewrite IU; apply orb_true_r|].
    repeat split. }
  answered. unfold delete_type_row. rewrite EU, IU, andb_false_r.
  cbn [fst snd res_error done].
  eexists _, _. split; [reflexivity|]. right.
  split; [rewrite referenced_dec; simpl; rewrite EU, IU; discriminate|].
  repeat split. simpl.
  rewrite in_map_iff. intros [x [Hx Hin]]. apply filter_In in Hin as [_ Hneg].
  unfold id_is in Hneg. rewrite <- Hx, jsstring_eqb_refl in Hneg. discriminate.
Qed.

(** ** Creating income subcategories *)

Lemma subcategory_is_key (category_id name : jsstring) (r : income_subcategory) :
  subcategory_is category_id name r = true <-> subcategory_key r = (category_id, name).
Proof.
  unfold subcategory_is, subcategory_key.
  rewrite andb_true_iff, !jsstring_eqb_eq. split.
  - intros [-> ->]. reflexivity.
  - intros E. injection E as -> ->. now split.
Qed.

Lemma no_subcategory_filter (db : database) (category_id name : jsstring) :
  ~ has_subcategory db category_id name ->
  filter (subcategory_is category_id name) (income_subcategories db) = [].
Proof.
  intros H. apply filter_nil_iff. intros x Hx.
  destruct (subcategory_is category_id name x) eqn:E; [|reflexivity].
  apply subcategory_is_key in E. exfalso. apply H.
  unfold has_subcategory. rewrite <- E. now apply in_map.
Qed.

Lemma validateIncomeSubcategory_passes {D : Type} (category_id name : jsstring)
  (is_recurring : bool) :
  category_id <> [] -> trim name <> [] -> length (trim name) <= 100 ->
  @validateIncomeSubcategory D (subcategory_request category_id name is_recurring)
  = Next (mkIncomeSubcategoryInput category_id (trim name) is_recurring).
Proof.
  intros Hc Hn Hl. unfold validateIncomeSubcategory, subcategory_request. simpl.
  destruct category_id as [|c0 cid]; [congruence|]. simpl.
  apply truthy_string_trim_nonempty in Hn. simpl in Hn. rewrite Hn.
  replace (100 <? length (trim name)) with false; [reflexivity|].
  symmetry. apply Nat.ltb_ge. lia.
Qed.

Lemma create_income_subcategory_inserts (db : database) (t : timestamp)
  (o : list outcome) (c : list string) (n : nat) (m : list uuid)
  (category_id name : jsstring) (is_recurring : bool) (cat : income_category) :
  Forall (fun x => x = Answers) o ->
  filter (category_id_is category_id) (income_categories db) = [cat] ->
  filter (subcategory_is category_id name) (income_subcategories db) = [] ->
  length name <= 100 ->
  let row := mkIncomeSubcategory
               (gen_random_uuid (map isc_id (income_subcategories db)))
               category_id name is_recurring t t in
  run (create_income_subcategory
         (mkIncomeSubcategoryInput category_id name is_recurring))
      (mkWorld db t o c n m)
  = (Returned (mkResponse 201 true (Some "Income subcategory created successfully")
                          (Some (embed_parent db row))),
     mkWorld (set_income_subcategories db (income_subcategories db ++ [row]))
             t (tl (tl (tl o))) c (S (S (S n))) m).
Proof.
  intros Ho Hcat Hsub Hlen row.
  unfold run, create_income_subcategory, try_catch, bind. simpl.
  answered. unfold select_income_category. rewrite Hcat.
  cbn [fst snd single map res_data ok].
  answered. unfold select_income_subcategory. rewrite Hsub.
  cbn [fst snd single map res_data err].
  answered. unfold insert_income_subcategory.
  rewrite !existsb_filter, Hcat, Hsub. cbn [negb].
  replace (100 <? length name) with false by (symmetry; apply Nat.ltb_ge; lia).
  reflexivity.
Qed.

Lemma create_income_subcategory_conflict (db : database) (t : timestamp)
  (o : list outcome) (c : list string) (n : nat) (m : list uuid)
  (category_id name : jsstring) (is_recurring : bool)
  (cat : income_category) (existing : income_subcategory) :
  Forall (fun x => x = Answers) o ->
  filter (category_id_is category_id) (income_categories db) = [cat] ->
  filter (subcategory_is category_id name) (income_subcategories db) = [existing] ->
  run (create_income_subcategory
         (mkIncomeSubcategoryInput category_id name is_recurring))
      (mkWorld db t o c n m)
  = (Returned (fail_with 409 msg_subcategory_exists),
     mkWorld db t (tl (tl o)) c (S (S n)) m).
Proof.
  intros Ho Hcat Hsub.
  unfold run, create_income_subcategory, try_catch, bind. simpl.
  answered. unfold select_income_category. rewrite Hcat.
  cbn [fst snd single map res_data ok].
  answered. unfold select_income_subcategory. rewrite Hsub.
  reflexivity.
Qed.

Lemma existing_category_row (db : database) (category_id : uuid) :
  NoDup (map ic_id (income_categories db)) ->
  income_category_exists db category_id ->
  exists cat, filter (category_id_is category_id) (income_categories db) = [cat].
Proof.
  intros ND HIn.
  destruct (filter_key_singleton ic_id _ _ ND HIn) as [cat [H _]].
  now exists cat.
Qed.

Lemma existing_subcategory_row (db : database) (category_id name : jsstring) :
  unique_subcategories db ->
  has_subcategory db category_id name ->
  exists row, filter (subcategory_is category_id name) (income_subcategories db) = [row].
Proof.
  intros ND HIn.
  destruct (filter_unique subcategory_key (subcategory_is category_id name)
              (category_id, name) (income_subcategories db)
              (subcategory_is_key category_id name) ND HIn) as [row [H _]].
  now exists row.
Qed.

(** C3: for an existing income category [C] and a name [n] that passes
    validation, with the store answering: a create under [C] of a name
    that [C] already has is refused with HTTP 409 and the message
    "... already exists ..." and leaves the store as it was; creating
    the name and then creating it again under [C] gives 201 and then
    that 409 without a new row; creating the same name under [C] and
    then under a different existing category [C'] gives 201 both
    times. *)
Theorem income_subcategory_unique_per_category
  (w : world) (C C' n : jsstring) (b b' : bool) :
  answering w ->
  NoDup (map ic_id (income_categories (w_db w))) ->
  unique_subcategories (w_db w) ->
  income_category_exists (w_db w) C ->
  C <> [] -> trim n <> [] -> length (trim n) <= 100 ->
  (has_subcategory (w_db w) C (trim n) ->
   exists w',
     run (post_income_subcategories (subcategory_request C n b)) w
     = (Returned (fail_with 409 msg_subcategory_exists), w')
     /\ w_db w' = w_db w)
  /\ (~ has_subcategory (w_db w) C (trim n) ->
      exists r1 w1 w2,
        run (post_income_subcategories (subcategory_request C n b)) w
        = (Returned r1, w1)
        /\ status r1 = 201 /\ success r1 = true
        /\ has_subcategory (w_db w1) C (trim n)
        /\ length (income_subcategories (w_db w1))
           = S (length (income_subcategories (w_db w)))
        /\ run (post_income_subcategories (subcategory_request C n b')) w1
           = (Returned (fail_with 409 msg_subcategory_exists), w2)
        /\ w_db w2 = w_db w1)
  /\ (income_category_exists (w_db w) C' -> C' <> [] -> C <> C' ->
      ~ has_subcategory (w_db w) C (trim n) ->
      ~ has_subcategory (w_db w) C' (trim n) ->
      exists r1 w1 r2 w2,
        run (post_income_subcategories (subcategory_request C n b)) w
        = (Returned r1, w1)
        /\ status r1 = 201 /\ success r1 = true
        /\ run (post_income_subcategories (subcategory_request C' n b')) w1
           = (Returned r2, w2)
        /\ status r2 = 201 /\ success r2 = true
        /\ has_subcategory (w_db w2) C (trim n)
        /\ has_subcategory (w_db w2) C' (trim n)
        /\ length (income_subcategories (w_db w2))
           = S (S (length (income_subcategories (w_db w))))).
Proof.
  intros Hw ND Huniq HC HCne Hn Hlen.
  destruct w as [db t o c k m]. unfold answering in Hw. simpl in *.
  destruct (existing_category_row db C ND HC) as [cat Hcat].
  unfold post_income_subcategories.
  rewrite !validateIncomeSubcategory_passes by assumption.
  split; [|split].
  - intros Hhas.
    destruct (existing_subcategory_row db C (trim n) Huniq Hhas) as [row Hrow].
    rewrite (create_income_subcategory_conflict db t o c k m C (trim n) b cat row)
      by assumption.
    eexists. split; reflexivity.
  - intros Hnot. pose proof (no_subcategory_filter db C (trim n) Hnot) as Hnone.
    rewrite (create_income_subcategory_inserts db t o c k m C (trim n) b cat)
      by assumption.
    set (row := mkIncomeSubcategory _ C (trim n) b t t).
    set (db1 := set_income_subcategories db (income_subcategories db ++ [row])).
    assert (Hrow1 : filter (subcategory_is C (trim n)) (income_subcategories db1)
                    = [row]).
    { subst db1. simpl. rewrite filter_app, Hnone. simpl.
      unfold subcategory_is. simpl. now rewrite !jsstring_eqb_refl. }
    eexists _, _, _. split; [reflexivity|]. split; [reflexivity|].
    split; [reflexivity|]. split.
    { unfold has_subcategory. subst db1. simpl. rewrite map_app.
      apply in_or_app. right. now left. }
    split.
    { subst db1. simpl. rewrite length_app. simpl. lia. }
    rewrite (create_income_subcategory_conflict db1 t _ c _ m C (trim n) b' cat row);
      [split; reflexivity | repeat apply Forall_tl; assumption | assumption
       | assumption].
  - intros HC' HC'ne Hdiff Hnot Hnot'.
    pose proof (no_subcategory_filter db C (trim n) Hnot) as Hnone.
    pose proof (no_subcategory_filter db C' (trim n) Hnot') as Hnone'.
    destruct (existing_category_row db C' ND HC') as [cat' Hcat'].
    rewrite !validateIncomeSubcategory_passes by assumption.
    rewrite (create_income_subcategory_inserts db t o c k m C (trim n) b cat)
      by assumption.
    set (row := mkIncomeSubcategory _ C (trim n) b t t).
    set (db1 := set_income_subcategories db (income_subcategories db ++ [row])).
    assert (Hnone1 : filter (subcategory_is C' (trim n)) (income_subcategories db1)
                     = []).
    { subst db1. simpl. rewrite filter_app, Hnone'. simpl.
      unfold subcategory_is. simpl.
      replace (jsstring_eqb C C') with false; [reflexivity|].
      symmetry. now apply jsstring_eqb_neq. }
    eexists _, _, _, _. split; [reflexivity|]. split; [reflexivity|].
    split; [reflexivity|].
    rewrite (create_income_subcategory_inserts db1 t _ c _ m C' (trim n) b' cat');
      [| repeat apply Forall_tl; assumption | assumption | assumption | assumption].
    split; [reflexivity|]. split; [reflexivity|]. split; [reflexivity|].
    unfold has_subcategory. subst db1. simpl. rewrite !map_app, !length_app. simpl.
    split; [|split].
    + apply in_or_app. left. apply in_or_app. right. now left.
    + apply in_or_app. right. now left.
    + lia.
Qed.

(** ** The expense categories service *)

Lemma insert_by_category_In (r x : expense_category) (l : list expense_category) :
  In x (insert_by_category r l) <-> x = r \/ In x l.
Proof.
  induction l as [|a l IH]; simpl.
  - split; [intros [<- | []]; now left | intros [-> | []]; now left].
  - destruct (jsstring_leb (ec_category r) (ec_category a)); simpl.
    + split; [intros [<- | H]; [now left | now right]
             | intros [-> | H]; [now left | now right]].
    + rewrite IH. split.
      * intros [<- | [-> | H]]; [right; now left | now left | right; now right].
      * intros [-> | [<- | H]]; [right; now left | now left | right; now right].
Qed.

Lemma order_by_category_In (x : expense_category) (l : list expense_category) :
  In x (order_by_category l) <-> In x l.
Proof.
  induction l as [|a l IH]; simpl; [reflexivity|].
  rewrite insert_by_category_In, IH. split; intros [H | H]; auto.
Qed.

Lemma related_to_image {Row : Type} (rows : list Row) (change : Row -> Row)
  (R : Row -> Row -> Prop) :
  (forall r, R r (change r)) -> Forall2 R rows (map change rows).
Proof.
  intros H. induction rows; simpl; constructor; auto.
Qed.

Lemma update_row_soft_delete (categoryId : uuid) (t : timestamp) (r : expense_category) :
  soft_delete_of categoryId t r (update_row categoryId (set_is_active false) t r).
Proof.
  unfold soft_delete_of, update_row, category_row_is.
  destruct (jsstring_eqb (ec_id r) categoryId) eqn:E; simpl.
  - apply jsstring_eqb_eq in E. repeat split; congruence.
  - apply jsstring_eqb_neq in E. repeat split; congruence.
Qed.

Lemma deleteCategory_answered (categoryId : uuid) (db : database) (t : timestamp)
  (o : list outcome) (c : list string) (n : nat) (m : list uuid) :
  Forall (fun x => x = Answers) o ->
  run (deleteCategory categoryId) (mkWorld db t o c n m)
  = (Returned true,
     mkWorld (set_expense_categories db
                (map (update_row categoryId (set_is_active false) t)
                     (expense_categories db)))
             t (tl o) c (S n) m).
Proof.
  intros Ho. unfold run, deleteCategory, rethrow, try_catch, bind.
  answered. reflexivity.
Qed.

Lemma getAllCategories_answered (db : database) (t : timestamp)
  (o : list outcome) (c : list string) (n : nat) (m : list uuid) :
  Forall (fun x => x = Answers) o ->
  run getAllCategories (mkWorld db t o c n m)
  = (Returned (order_by_category (filter ec_is_active (expense_categories db))),
     mkWorld db t (tl o) c (S n) m).
Proof.
  intros Ho. unfold run, getAllCategories, rethrow, try_catch, bind.
  answered. reflexivity.
Qed.

(** C6 (amended): with the store answering, [deleteCategory] returns
    [true]; no row of [expense_categories] is removed; in the rows with
    that id [is_active] becomes false and the trigger sets [updated_at]
    to the current time, every other column of them (name, icon,
    subcategory list, type, creation time) and every other row is
    unchanged; the expense records and all other tables are unchanged;
    and the next listing of active categories contains no row with
    that id. *)
Theorem deleteCategory_is_soft (categoryId : uuid) (w : world) :
  answering w ->
  exists w',
    run (deleteCategory categoryId) w = (Returned true, w')
    /\ Forall2 (soft_delete_of categoryId (w_now w))
               (expense_categories (w_db w)) (expense_categories (w_db w'))
    /\ same_other_tables (w_db w) (w_db w')
    /\ exists listing w'',
         run getAllCategories w' = (Returned listing, w'')
         /\ forall r, In r listing -> ec_id r <> categoryId.
Proof.
  intros Hw. destruct w as [db t o c n m]. unfold answering in Hw. simpl in *.
  rewrite deleteCategory_answered by assumption.
  eexists. split; [reflexivity|]. simpl. split; [|split].
  - apply related_to_image. apply update_row_soft_delete.
  - repeat split.
  - rewrite getAllCategories_answered by (apply Forall_tl; assumption).
    eexists _, _. split; [reflexivity|].
    intros r Hr E. apply (proj1 (order_by_category_In _ _)) in Hr.
    apply filter_In in Hr as [Hr Hact]. simpl in Hr.
    apply in_map_iff in Hr as [r0 [Hr0 _]]. subst r.
    unfold update_row, category_row_is in *.
    destruct (jsstring_eqb (ec_id r0) categoryId) eqn:E0; simpl in *.
    + discriminate.
    + apply jsstring_eqb_neq in E0. contradiction.
Qed.

Lemma rewrite_subcategories_keeps_names_unique (categoryId : uuid)
  (transform : list subcategory -> list subcategory) (m1 m2 m3 : string) (w : world) :
  subcategory_names_unique (w_db w) ->
  (forall r, In r (expense_categories (w_db w)) -> ec_id r = categoryId ->
             NoDup (map sub_name (transform (ec_subcategories r)))) ->
  subcategory_names_unique
    (w_db (snd (run (rewrite_subcategories categoryId transform m1 m2 m3) w))).
Proof.
  intros Hinv Htr. destruct w as [db t o c n m]. simpl in *.
  unfold run, rewrite_subcategories, rethrow, try_catch, bind, throw_on_error.
  unfold await at 1. cbn [w_oracle w_db w_now w_console w_calls w_outbox].
  destruct (hd Answers o); simpl; try assumption.
  destruct (filter (category_row_is categoryId) (expense_categories db))
    as [|r [|r' l]] eqn:F; simpl; try assumption.
  unfold await. cbn [w_oracle w_db w_now w_console w_calls w_outbox].
  destruct (hd Answers (tl o)); simpl; try assumption.
  unfold update_expense_category_returning. rewrite F. simpl.
  intros x Hx. apply in_map_iff in Hx as [x0 [<- Hx0]].
  unfold update_row. destruct (category_row_is categoryId x0) eqn:E.
  - simpl.
    assert (Hr : In x0 (filter (category_row_is categoryId) (expense_categories db)))
      by (apply filter_In; now split).
    rewrite F in Hr. destruct Hr as [<- | []].
    apply Htr; [assumption|]. now apply jsstring_eqb_eq.
  - now apply Hinv.
Qed.

Lemma filter_keeps_names_distinct (keep : subcategory -> bool)
  (subs : list subcategory) :
  NoDup (map sub_name subs) -> NoDup (map sub_name (filter keep subs)).
Proof.
  induction subs as [|s subs IH]; simpl; intros ND; [constructor|].
  inversion ND as [|? ? Hfresh ND']; subst.
  destruct (keep s); simpl; [|now apply IH].
  constructor; [|now apply IH].
  intros H. apply Hfresh. apply in_map_iff in H as [x [Hx Hin]].
  apply filter_In in Hin as [Hin _]. rewrite <- Hx. now apply in_map.
Qed.

Lemma append_keeps_names_distinct (subs : list subcategory) (added : subcategory) :
  NoDup (map sub_name subs) ->
  ~ In (sub_name added) (map sub_name subs) ->
  NoDup (map sub_name (subs ++ [added])).
Proof.
  intros ND Hfresh. rewrite map_app. simpl.
  induction (map sub_name subs) as [|b bs IH]; simpl.
  - constructor; [intros [] | constructor].
  - inversion ND as [|? ? Hb ND']; subst. constructor.
    + intros H. apply in_app_or in H as [H | [H | []]]; [contradiction|].
      apply Hfresh. now left.
    + apply IH; [assumption|]. intros H. apply Hfresh. now right.
Qed.

Lemma spread_names (subcategoryName : jsstring) (updateData : subcategory_update)
  (l : list subcategory) :
  map sub_name
      (map (fun sub => if jsstring_eqb (sub_name sub) subcategoryName
                       then spread sub updateData else sub) l)
  = map (fun n => if jsstring_eqb n subcategoryName
                  then or_default (upd_name updateData) n else n)
        (map sub_name l).
Proof.
  rewrite !map_map. apply map_ext. intros sub.
  destruct (jsstring_eqb (sub_name sub) subcategoryName); reflexivity.
Qed.

Lemma rename_keeps_NoDup (target : jsstring) (renamed : option jsstring)
  (names : list jsstring) :
  NoDup names ->
  (forall nn, renamed = Some nn -> nn = target \/ ~ In nn names) ->
  NoDup (map (fun n => if jsstring_eqb n target then or_default renamed n else n)
             names).
Proof.
  intros ND Hnew. destruct renamed as [nn|]; simpl.
  2:{ erewrite map_ext; [rewrite map_id; assumption|].
      intros n. now destruct (jsstring_eqb n target). }
  destruct (Hnew nn eq_refl) as [-> | Hfresh].
  { erewrite map_ext; [rewrite map_id; assumption|].
    intros n. destruct (jsstring_eqb n target) eqn:E; [|reflexivity].
    apply jsstring_eqb_eq in E. congruence. }
  clear Hnew. induction names as [|a l IH]; simpl; [constructor|].
  inversion ND as [|? ? Ha ND']; subst.
  assert (Hl : ~ In nn l) by (intros H; apply Hfresh; now right).
  assert (Ha' : nn <> a) by (intros ->; apply Hfresh; now left).
  constructor; [|now apply IH].
  rewrite in_map_iff. intros [x [Hx Hin]].
  destruct (jsstring_eqb x target) eqn:Ex.
  - apply jsstring_eqb_eq in Ex. subst x.
    destruct (jsstring_eqb a target) eqn:Ea.
    + apply jsstring_eqb_eq in Ea. subst a. contradiction.
    + congruence.
  - subst x. destruct (jsstring_eqb a target) eqn:Ea.
    + contradiction.
    + contradiction.
Qed.

(** C7 (amended): from a state in which every category's subcategory
    names are pairwise distinct, and whatever the store answers:
    [deleteSubcategory] keeps them distinct; [addSubcategory] keeps
    them distinct when the new name is not already in the category's
    list; [updateSubcategory] keeps them distinct when [updateData]
    carries no name, the same name, or a name not yet in the list. *)
Theorem subcategory_operations_keep_names_unique (categoryId : uuid) (w : world) :
  subcategory_names_unique (w_db w) ->
  (forall name,
     subcategory_names_unique
       (w_db (snd (run (deleteSubcategory categoryId name) w))))
  /\ (forall subcategoryData,
        ~ names_under (w_db w) categoryId (sub_name subcategoryData) ->
        subcategory_names_unique
          (w_db (snd (run (addSubcategory categoryId subcategoryData) w))))
  /\ (forall name updateData,
        (forall renamed, upd_name updateData = Some renamed ->
                         renamed = name \/ ~ names_under (w_db w) categoryId renamed) ->
        subcategory_names_unique
          (w_db (snd (run (updateSubcategory categoryId name updateData) w)))).
Proof.
  intros Hinv. split; [|split].
  - intros name. apply rewrite_subcategories_keeps_names_unique; [assumption|].
    intros r Hr _. apply filter_keeps_names_distinct. now apply Hinv.
  - intros data Hfresh. apply rewrite_subcategories_keeps_names_unique; [assumption|].
    intros r Hr Hid. apply append_keeps_names_distinct; [now apply Hinv|].
    intros H. apply Hfresh. now exists r.
  - intros name upd Hnew. apply rewrite_subcategories_keeps_names_unique; [assumption|].
    intros r Hr Hid. rewrite spread_names. apply rename_keeps_NoDup; [now apply Hinv|].
    intros nn Enn. destruct (Hnew nn Enn) as [-> | Hfresh]; [now left|].
    right. intros H. apply Hfresh. now exists r.
Qed.

(** The condition on [addSubcategory] cannot be dropped: with the store
    answering and the category present, adding a name that the list
    already holds leaves the list with that name twice. *)
Lemma addSubcategory_repeats_existing_name (categoryId : uuid)
  (subcategoryData : subcategory) (r : expense_category) (w : world) :
  answering w ->
  filter (category_row_is categoryId) (expense_categories (w_db w)) = [r] ->
  In (sub_name subcategoryData) (map sub_name (ec_subcategories r)) ->
  ~ subcategory_names_unique
      (w_db (snd (run (addSubcategory categoryId subcategoryData) w))).
Proof.
  intros Hw Hrow Hdup Hinv.
  destruct w as [db t o c n m]. unfold answering in Hw. simpl in *.
  assert (Hr : In r (expense_categories db) /\ category_row_is categoryId r = true).
  { apply filter_In. rewrite Hrow. now left. }
  destruct Hr as [Hr Hid].
  unfold run, addSubcategory, rewrite_subcategories, rethrow, try_catch, bind,
    throw_on_error in Hinv.
  rewrite await_answers in Hinv by assumption.
  unfold select_subcategories_by_id in Hinv. rewrite Hrow in Hinv.
  cbn [fst snd single map res_data res_error ok ret] in Hinv.
  rewrite await_answers in Hinv by (apply Forall_tl; assumption).
  unfold update_expense_category_returning in Hinv. rewrite Hrow in Hinv.
  cbn [fst snd res_data res_error ok ret w_db] in Hinv.
  specialize (Hinv (update_row categoryId
                      (set_subcategories (ec_subcategories r ++ [subcategoryData]))
                      t r)).
  unfold update_row in Hinv. rewrite Hid in Hinv. simpl in Hinv.
  rewrite map_app in Hinv. simpl in Hinv.
  assert (Hin : In (touch_expense_category t
                      (set_subcategories (ec_subcategories r ++ [subcategoryData]) r))
                   (map (fun r0 =>
                           if category_row_is categoryId r0
                           then touch_expense_category t
                                  (set_subcategories
                                     (ec_subcategories r ++ [subcategoryData]) r0)
                           else r0) (expense_categories db))).
  { apply in_map_iff. exists r. rewrite Hid. now split. }
  specialize (Hinv Hin). apply NoDup_remove_2 in Hinv.
  apply Hinv. rewrite app_nil_r. assumption.
Qed.

Lemma category_name_taken_dec (db : database) (name : jsstring) :
  category_name_taken db name <->
  existsb (fun r => jsstring_eqb (ec_category r) name) (expense_categories db) = true.
Proof.
  unfold category_name_taken. rewrite existsb_exists.
  split; intros [r [Hr E]]; exists r; split; try assumption;
    now apply jsstring_eqb_eq.
Qed.

(** C8 (amended): with the store answering, [addCategory] refuses a
    name that an existing category row already has (the call throws the
    store's error, the unique violation when [categoryData] names a
    category type, and no row is added), and for a new name and the id
    of an existing category type it appends one row that carries the
    name, the icon and the subcategory list of [categoryData]; an
    omitted icon is stored as NULL and an omitted list as the empty
    list. *)
Theorem addCategory_contract (categoryData : expense_category_insert)
  (name : jsstring) (w : world) :
  answering w ->
  eci_category categoryData = Some name ->
  (category_name_taken (w_db w) name ->
   exists e w',
     run (addCategory categoryData) w = (Thrown (Rejected e), w')
     /\ w_db w' = w_db w
     /\ (eci_category_type_id categoryData <> None -> e = unique_violation))
  /\ (~ category_name_taken (w_db w) name ->
      type_exists (w_db w) (eci_category_type_id categoryData) = true ->
      exists row w',
        run (addCategory categoryData) w = (Returned (Some row), w')
        /\ expense_categories (w_db w') = expense_categories (w_db w) ++ [row]
        /\ same_other_tables (w_db w) (w_db w')
        /\ ec_category row = name
        /\ ec_icon row = eci_icon categoryData
        /\ ec_subcategories row = or_default (eci_subcategories categoryData) []).
Proof.
  intros Hw Hname. destruct w as [db t o c n m]. unfold answering in Hw. simpl in *.
  unfold run, addCategory, rethrow, try_catch, bind, throw_on_error.
  answered. unfold insert_expense_category_returning, expense_category_row.
  rewrite Hname. split.
  - intros Htaken. apply category_name_taken_dec in Htaken.
    destruct (eci_category_type_id categoryData) as [type_id|].
    + rewrite Htaken. simpl. eexists _, _. split; [reflexivity|]. now split.
    + simpl. eexists _, _. split; [reflexivity|]. split; [reflexivity|].
      intros H. now elim H.
  - intros Hfree Htype.
    destruct (eci_category_type_id categoryData) as [type_id|] eqn:Et;
      [|discriminate].
    destruct (existsb (fun r => jsstring_eqb (ec_category r) name)
                      (expense_categories db)) eqn:E.
    { exfalso. apply Hfree. now apply category_name_taken_dec. }
    rewrite Htype. simpl.
    eexists _, _. split; [reflexivity|]. simpl. repeat split.
Qed.

(** ** Payment verification *)

Lemma map_unmatched {Row : Type} (test : Row -> bool) (change : Row -> Row)
  (rows : list Row) :
  filter test rows = [] ->
  map (fun r => if test r then change r else r) rows = rows.
Proof.
  induction rows as [|a rows IH]; simpl; [reflexivity|].
  destruct (test a); [discriminate|]. intros H. now rewrite IH.
Qed.

Lemma nonempty_eq (s : jsstring) : nonempty s = true <-> s <> [].
Proof.
  destruct s; simpl; split; try discriminate; try reflexivity.
  intros H. now elim H.
Qed.

Lemma order_is_string (o : jsstring) (r : payment) :
  order_is (JStr o) r = true <-> pay_razorpay_order_id r = Some o.
Proof. unfold order_is. simpl. apply option_eqb_eq. Qed.

Lemma one_order_row_at_most (order_id : jsval) (rows : list payment) :
  (forall i j a b o,
      nth_error rows i = Some a -> nth_error rows j = Some b ->
      pay_razorpay_order_id a = Some o -> pay_razorpay_order_id b = Some o ->
      i = j) ->
  length (filter (order_is order_id) rows) <= 1.
Proof.
  induction rows as [|a rows IH]; intros Hone; simpl; [lia|].
  assert (Hrest : forall i j x y o,
             nth_error rows i = Some x -> nth_error rows j = Some y ->
             pay_razorpay_order_id x = Some o -> pay_razorpay_order_id y = Some o ->
             i = j).
  { intros i j x y o Hi Hj Hx Hy.
    assert (E : S i = S j) by (apply (Hone (S i) (S j) x y o); assumption).
    now injection E. }
  destruct (order_is order_id a) eqn:Ea; [|now apply IH].
  replace (filter (order_is order_id) rows) with (@nil payment); [simpl; lia|].
  symmetry. apply filter_nil_iff. intros r Hr.
  destruct (order_is order_id r) eqn:Er; [|reflexivity]. exfalso.
  apply option_eqb_eq in Ea, Er.
  apply In_nth_error in Hr as [j Hj].
  assert (E : 0 = S j)
    by (apply (Hone 0 (S j) a r (toString order_id)); (reflexivity || assumption)).
  discriminate.
Qed.

Lemma one_row_per_order_unique (db : database) :
  one_row_per_order db -> unique_order_ids db.
Proof. intros H order_id. now apply one_order_row_at_most. Qed.

Lemma order_recorded_dec (db : database) (o : jsstring) :
  existsb (order_is (JStr o)) (payments db) = true <-> order_recorded db o.
Proof.
  unfold order_recorded. rewrite existsb_exists.
  split; intros [r [Hr E]]; exists r; (split; [assumption|]);
    now apply order_is_string.
Qed.

Lemma order_rows_updated (o : jsstring) (patch : payment -> payment) (t : timestamp)
  (change : payment -> payment -> Prop) (db : database) :
  (forall r, pay_razorpay_order_id r = Some o ->
             change r (touch_payment t (patch r))) ->
  order_rows_become o change db
    (set_payments db (map (update_payment_row (JStr o) patch t) (payments db))).
Proof.
  intros Hchange. split; [|now repeat split].
  cbn [set_payments payments].
  induction (payments db) as [|r rows IH]; simpl; constructor; [|exact IH].
  unfold update_payment_row. destruct (order_is (JStr o) r) eqn:E.
  - apply order_is_string in E. split; [intros _; now apply Hchange | congruence].
  - split; [|reflexivity]. intros K. apply order_is_string in K. congruence.
Qed.

Lemma capture_marks (o p s : jsstring) (t : timestamp) (db : database) :
  order_rows_become o (now_captured p s t) db
    (set_payments db
       (map (update_payment_row (JStr o) (mark_captured (JStr p) (JStr s) t) t)
            (payments db))).
Proof. apply order_rows_updated. intros r _. now repeat split. Qed.

Lemma failure_marks (o p s : jsstring) (t : timestamp) (db : database) :
  order_rows_become o (now_failed p s t) db
    (set_payments db
       (map (update_payment_row (JStr o) (mark_failed (JStr p) (JStr s)) t)
            (payments db))).
Proof. apply order_rows_updated. intros r _. now repeat split. Qed.

Lemma update_payments_returning_unique (order_id : jsval) (patch : payment -> payment)
  (t : timestamp) (db : database) :
  unique_order_ids db ->
  snd (update_payments_returning order_id patch t db)
  = set_payments db (map (update_payment_row order_id patch t) (payments db)).
Proof.
  intros Hu. unfold update_payments_returning. specialize (Hu order_id).
  destruct (filter (order_is order_id) (payments db)) as [|p [|p' l]] eqn:F; simpl.
  - unfold update_payment_row. rewrite map_unmatched by assumption.
    now destruct db.
  - reflexivity.
  - simpl in Hu. lia.
Qed.

Lemma verify_payment_captures (key : jsstring) (body : verify_body)
  (db : database) (t : timestamp) (o : list outcome) (c : list string)
  (n : nat) (m : list uuid) :
  Forall (fun x => x = Answers) o ->
  missing_fields body = false ->
  razorpay_signature body = JStr (hmac_sha256_hex key (signed_message body)) ->
  unique_order_ids db ->
  exists r c',
    run (verify_payment (Some key) body) (mkWorld db t o c n m)
    = (Returned r,
       mkWorld (set_payments db
                  (map (update_payment_row (razorpay_order_id body)
                          (mark_captured (razorpay_payment_id body)
                                         (razorpay_signature body) t) t)
                       (payments db)))
               t (tl o) c' (S n) m)
    /\ status r = 200 /\ success r = true.
Proof.
  intros Ho Hfields Hsig Hu.
  assert (Hv : strict_eq_string (razorpay_signature body)
                 (hmac_sha256_hex key (signed_message body)) = true)
    by (rewrite Hsig; simpl; apply jsstring_eqb_refl).
  unfold run, verify_payment, try_catch, bind. rewrite Hfields, Hv.
  cbn [negb now w_now]. answered.
  rewrite (update_payments_returning_unique _ _ _ _ Hu).
  destruct (res_error (fst (update_payments_returning _ _ t db)));
    eexists _, _; (split; [reflexivity|]); repeat split.
Qed.

Lemma verify_payment_fails (key : jsstring) (body : verify_body)
  (db : database) (t : timestamp) (o : list outcome) (c : list string)
  (n : nat) (m : list uuid) :
  Forall (fun x => x = Answers) o ->
  missing_fields body = false ->
  razorpay_signature body <> JStr (hmac_sha256_hex key (signed_message body)) ->
  run (verify_payment (Some key) body) (mkWorld db t o c n m)
  = (Returned (fail_with 400 "Invalid signature"),
     mkWorld (set_payments db
                (map (update_payment_row (razorpay_order_id body)
                        (mark_failed (razorpay_payment_id body)
                                     (razorpay_signature body)) t)
                     (payments db)))
             t (tl o) c (S n) m).
Proof.
  intros Ho Hfields Hsig.
  unfold run, verify_payment, try_catch, bind. rewrite Hfields.
  replace (strict_eq_string (razorpay_signature body)
             (hmac_sha256_hex key (signed_message body))) with false.
  - cbn [negb]. answered. reflexivity.
  - symmetry. unfold strict_eq_string.
    destruct (razorpay_signature body) as [| | | |s|]; try reflexivity.
    apply jsstring_eqb_neq. congruence.
Qed.

(** The edge function captures the row and then calls a function the
    file never binds. *)
Lemma edge_verify_captures (key_secret : option jsstring) (body : verify_body)
  (db : database) (t : timestamp) (o : list outcome) (c : list string)
  (n : nat) (m : list uuid) :
  Forall (fun x => x = Answers) o ->
  missing_fields body = false ->
  razorpay_signature body
  = JStr (hmac_sha256_hex (or_default key_secret []) (signed_message body)) ->
  unique_order_ids db ->
  payers_known db ->
  exists c',
    run (edge_verify true key_secret body) (mkWorld db t o c n m)
    = (Returned (if existsb (order_is (razorpay_order_id body)) (payments db)
                 then fail_with 500 "sendPaymentConfirmationEmail is not defined"
                 else mkResponse 200 true None None),
       mkWorld (set_payments db
                  (map (update_payment_row (razorpay_order_id body)
                          (mark_captured (razorpay_payment_id body)
                                         (razorpay_signature body) t) t)
                       (payments db)))
               t (tl o) c' (S n) m).
Proof.
  intros Ho Hfields Hsig Hu Hpayers.
  assert (Hv : strict_eq_string (razorpay_signature body)
                 (hmac_sha256_hex (or_default key_secret []) (signed_message body))
               = true)
    by (rewrite Hsig; simpl; apply jsstring_eqb_refl).
  unfold run, edge_verify, try_catch, bind. rewrite Hfields, Hv.
  cbn [negb now w_now]. answered.
  rewrite (update_payments_returning_unique _ _ _ _ Hu).
  rewrite existsb_filter. unfold update_payments_returning.
  specialize (Hu (razorpay_order_id body)).
  destruct (filter (order_is (razorpay_order_id body)) (payments db))
    as [|p [|p' l]] eqn:F.
  - eexists. reflexivity.
  - assert (Hp : In p (payments db)).
    { apply (proj1 (filter_In (order_is (razorpay_order_id body)) p (payments db))).
      rewrite F. now left. }
    apply Hpayers, nonempty_eq in Hp.
    cbn [fst ok res_error res_data touch_payment mark_captured pay_user_id].
    rewrite Hp. eexists. reflexivity.
  - simpl in Hu. lia.
Qed.

Lemma edge_verify_fails (key_secret : option jsstring) (body : verify_body)
  (db : database) (t : timestamp) (o : list outcome) (c : list string)
  (n : nat) (m : list uuid) :
  Forall (fun x => x = Answers) o ->
  missing_fields body = false ->
  razorpay_signature body
  <> JStr (hmac_sha256_hex (or_default key_secret []) (signed_message body)) ->
  run (edge_verify true key_secret body) (mkWorld db t o c n m)
  = (Returned (fail_with 400 "Invalid signature"),
     mkWorld (set_payments db
                (map (update_payment_row (razorpay_order_id body)
                        (mark_failed (razorpay_payment_id body)
                                     (razorpay_signature body)) t)
                     (payments db)))
             t (tl o) c (S n) m).
Proof.
  intros Ho Hfields Hsig.
  unfold run, edge_verify, try_catch, bind. rewrite Hfields.
  replace (strict_eq_string (razorpay_signature body)
             (hmac_sha256_hex (or_default key_secret []) (signed_message body)))
    with false.
  - cbn [negb]. answered. reflexivity.
  - symmetry. unfold strict_eq_string.
    destruct (razorpay_signature body) as [| | | |s|]; try reflexivity.
    apply jsstring_eqb_neq. congruence.
Qed.

(** *** The bearer token *)

Lemma split_on_head (sep : N) (piece tail : jsstring) :
  ~ In sep piece -> tail = [] \/ (exists rest, tail = sep :: rest) ->
  hd_error (split_on sep (piece ++ tail)) = Some piece.
Proof.
  intros Hfree Htail. induction piece as [|c piece IH]; simpl.
  - destruct Htail as [-> | [rest ->]]; simpl; [reflexivity|].
    now rewrite N.eqb_refl.
  - destruct (N.eqb_spec c sep) as [-> | Hne]; [elim Hfree; now left|].
    assert (Hrest : ~ In sep piece) by (intros H; apply Hfree; now right).
    specialize (IH Hrest).
    destruct (split_on sep (piece ++ tail)) as [|h l]; [discriminate|].
    simpl in *. congruence.
Qed.

Lemma split_on_second (sep : N) (first piece tail : jsstring) :
  ~ In sep first -> ~ In sep piece ->
  tail = [] \/ (exists rest, tail = sep :: rest) ->
  nth_error (split_on sep (first ++ sep :: piece ++ tail)) 1 = Some piece.
Proof.
  intros Hfirst Hpiece Htail. induction first as [|c first IH]; simpl.
  - rewrite N.eqb_refl. simpl.
    pose proof (split_on_head sep piece tail Hpiece Htail) as H.
    destruct (split_on sep (piece ++ tail)); [discriminate | exact H].
  - destruct (N.eqb_spec c sep) as [-> | Hne]; [elim Hfirst; now left|].
    assert (Hrest : ~ In sep first) by (intros H; apply Hfirst; now right).
    specialize (IH Hrest).
    destruct (split_on sep (first ++ sep :: piece ++ tail)) as [|h l];
      [discriminate | exact IH].
Qed.

(** What the token check comes to for a header of two or more pieces. *)
Lemma jwtAuthMiddleware_pieces (D : Type) (jwt_secret : option jsstring)
  (scheme token tail : jsstring) :
  ~ In 32%N scheme -> ~ In 32%N token -> token <> [] ->
  tail = [] \/ (exists rest, tail = 32%N :: rest) ->
  @jwtAuthMiddleware D jwt_secret (Some (scheme ++ 32%N :: token ++ tail))
  = if jwt_verify token jwt_secret then ret (Next tt)
    else console "JWT verification error:" ;;;
         ret (Respond (fail_with 401 "Invalid or expired token")).
Proof.
  intros Hs Ht Hne Htail. unfold jwtAuthMiddleware.
  rewrite (split_on_second 32 scheme token tail Hs Ht Htail).
  replace (nonempty (scheme ++ 32%N :: token ++ tail)) with true
    by (destruct scheme; reflexivity).
  replace (nonempty token) with true
    by (destruct token; [congruence | reflexivity]).
  reflexivity.
Qed.

Lemma bearer_accepted (D : Type) (jwt_secret authorization : option jsstring) :
  bearer jwt_secret authorization ->
  @jwtAuthMiddleware D jwt_secret authorization = ret (Next tt).
Proof.
  intros [token [-> [Hne [Hfree Hv]]]].
  change (u "Bearer " ++ token) with (u "Bearer" ++ 32%N :: token).
  rewrite <- (app_nil_r token) at 1.
  rewrite jwtAuthMiddleware_pieces; try assumption.
  - now rewrite Hv.
  - cbv. intros H. repeat (destruct H as [H | H]; [discriminate|]). exact H.
  - now left.
Qed.

(** C1: a verification request that carries the three fields as
    non-empty strings [o], [p] and [s], with the store answering, at
    most one payment row per order id and every row's user id set.
    On the Express route (bearer token accepted, key secret [key]):
    when [s] is the hex HMAC-SHA256 of [o|p] under the key, the answer
    is HTTP 200 success and every payment row of order [o] has status
    [captured], [verified_at] and [updated_at] at the current time and
    the payment id and signature of the request; for any other [s] the
    answer is HTTP 400 "Invalid signature" and every such row has
    status [failed], [verified_at] as before.  In both cases the other
    columns, the other payment rows and the other tables are as they
    were.  In the edge function (admin client configured, key secret
    defaulting to the empty string) the second half holds as well, but
    the first does not: with the right signature and a recorded order
    the row is captured as above and the answer is HTTP 500
    "sendPaymentConfirmationEmail is not defined"; only when no row
    carries the order id, and nothing changes, is the answer a 200. *)
Theorem payment_verification (jwt_secret authorization key_secret : option jsstring)
  (key o p s : jsstring) (w : world) :
  answering w ->
  bearer jwt_secret authorization ->
  o <> [] -> p <> [] -> s <> [] ->
  one_row_per_order (w_db w) ->
  payers_known (w_db w) ->
  (s = hmac_sha256_hex key (o ++ u "|" ++ p) ->
   exists r w',
     run (post_payments_verify jwt_secret (Some key) authorization
            (mkVerifyBody (JStr o) (JStr p) (JStr s))) w = (Returned r, w')
     /\ status r = 200 /\ success r = true
     /\ order_rows_become o (now_captured p s (w_now w)) (w_db w) (w_db w'))
  /\ (s <> hmac_sha256_hex key (o ++ u "|" ++ p) ->
      exists w',
        run (post_payments_verify jwt_secret (Some key) authorization
               (mkVerifyBody (JStr o) (JStr p) (JStr s))) w
        = (Returned (fail_with 400 "Invalid signature"), w')
        /\ order_rows_become o (now_failed p s (w_now w)) (w_db w) (w_db w'))
  /\ (s <> hmac_sha256_hex (or_default key_secret []) (o ++ u "|" ++ p) ->
      exists w',
        run (edge_verify true key_secret (mkVerifyBody (JStr o) (JStr p) (JStr s))) w
        = (Returned (fail_with 400 "Invalid signature"), w')
        /\ order_rows_become o (now_failed p s (w_now w)) (w_db w) (w_db w'))
  /\ (s = hmac_sha256_hex (or_default key_secret []) (o ++ u "|" ++ p) ->
      order_recorded (w_db w) o ->
      exists w',
        run (edge_verify true key_secret (mkVerifyBody (JStr o) (JStr p) (JStr s))) w
        = (Returned (fail_with 500 "sendPaymentConfirmationEmail is not defined"), w')
        /\ order_rows_become o (now_captured p s (w_now w)) (w_db w) (w_db w'))
  /\ (s = hmac_sha256_hex (or_default key_secret []) (o ++ u "|" ++ p) ->
      ~ order_recorded (w_db w) o ->
      exists r w',
        run (edge_verify true key_secret (mkVerifyBody (JStr o) (JStr p) (JStr s))) w
        = (Returned r, w')
        /\ status r = 200 /\ success r = true
        /\ payments (w_db w') = payments (w_db w)
        /\ same_tables_but_payments (w_db w) (w_db w')).
Proof.
  intros Hw Hjwt Ho Hp Hs Hone Hpayers.
  apply one_row_per_order_unique in Hone.
  destruct w as [db t orc c n m]. unfold answering in Hw. simpl in *.
  set (body := mkVerifyBody (JStr o) (JStr p) (JStr s)).
  assert (Hfields : missing_fields body = false).
  { apply nonempty_eq in Ho, Hp, Hs. unfold missing_fields, body, nonempty in *.
    cbn [razorpay_order_id razorpay_payment_id razorpay_signature].
    now rewrite Ho, Hp, Hs. }
  assert (Hexpress : forall w0,
             run (post_payments_verify jwt_secret (Some key) authorization body) w0
             = run (verify_payment (Some key) body) w0).
  { intros w0. unfold post_payments_verify.
    now rewrite (bearer_accepted payment jwt_secret authorization Hjwt). }
  split; [|split; [|split; [|split]]].
  - intros Hsig. rewrite Hexpress.
    destruct (verify_payment_captures key body db t orc c n m Hw Hfields
                (f_equal JStr Hsig) Hone)
      as [r [c' [Hrun [Hst Hok]]]].
    eexists _, _. split; [exact Hrun|]. split; [assumption|].
    split; [assumption|]. apply capture_marks.
  - intros Hsig. rewrite Hexpress.
    rewrite verify_payment_fails; try assumption.
    + eexists. split; [reflexivity|]. apply failure_marks.
    + intros E. apply Hsig. now injection E.
  - intros Hsig. rewrite edge_verify_fails; try assumption.
    + eexists. split; [reflexivity|]. apply failure_marks.
    + intros E. apply Hsig. now injection E.
  - intros Hsig Hrec.
    destruct (edge_verify_captures key_secret body db t orc c n m Hw Hfields
                (f_equal JStr Hsig) Hone Hpayers) as [c' Hrun].
    apply order_recorded_dec in Hrec.
    cbn [razorpay_order_id body] in Hrun. rewrite Hrec in Hrun.
    eexists. split; [exact Hrun|]. apply capture_marks.
  - intros Hsig Hrec.
    destruct (edge_verify_captures key_secret body db t orc c n m Hw Hfields
                (f_equal JStr Hsig) Hone Hpayers) as [c' Hrun].
    assert (Hnone : existsb (order_is (JStr o)) (payments db) = false).
    { destruct (existsb _ _) eqn:E; [|reflexivity].
      apply order_recorded_dec in E. contradiction. }
    cbn [razorpay_order_id body] in Hrun. rewrite Hnone in Hrun.
    eexists _, _. split; [exact Hrun|]. split; [reflexivity|].
    split; [reflexivity|]. split; [|now repeat split].
    cbn [w_db set_payments payments].
    apply map_unmatched. rewrite existsb_filter in Hnone.
    now destruct (filter (order_is (JStr o)) (payments db)).
Qed.

(** ** The payment webhook *)

Lemma strict_eq_string_eq (v : jsval) (s : jsstring) :
  strict_eq_string v s = true <-> v = JStr s.
Proof.
  destruct v; simpl; try (split; discriminate).
  rewrite jsstring_eqb_eq. split; congruence.
Qed.

Lemma header_matches_eq (signature : option jsstring) (expected : jsstring) :
  header_matches signature expected = true <-> signature = Some expected.
Proof. apply option_eqb_eq. Qed.

Lemma rows_updated_or_kept (order_id : jsval) (patch : payment -> payment)
  (t : timestamp) (change : payment -> payment -> Prop) (rows : list payment) :
  (forall r, change r (touch_payment t (patch r))) ->
  Forall2 (fun before after => after = before \/ change before after)
          rows (map (update_payment_row order_id patch t) rows).
Proof.
  intros Hchange. induction rows as [|r rows IH]; simpl; constructor; [|exact IH].
  unfold update_payment_row. destruct (order_is order_id r); [right | left];
    [apply Hchange | reflexivity].
Qed.

Lemma event_marks (o : jsstring) (entity : payment_entity) (t : timestamp)
  (db : database) :
  order_rows_become o (captured_by_event t) db
    (set_payments db
       (map (update_payment_row (JStr o) (mark_captured_by_webhook entity t) t)
            (payments db))).
Proof. apply order_rows_updated. intros r _. now repeat split. Qed.

(** C10: the webhook endpoint.  Without a webhook secret (unset or
    empty) it answers 200 at once and the world is untouched, whatever
    the request.  With a secret, the header is compared with the hex
    HMAC-SHA256 of [JSON.stringify(req.body)], the parsed body
    serialised again, and not of the body that was sent: a header that
    differs from it is answered 400 with the world untouched, and that
    includes the header that is the HMAC of the body as sent whenever
    the two texts hash differently; a header that equals it is let
    through, also when it is not the HMAC of the body as sent.  A
    request that is let through, whose event is ['payment.captured']
    and whose payment entity carries the order id [o], is answered 200
    with the store answering, and every payment row of order [o] is
    then [captured] with [verified_at] at the current time, the other
    rows and tables as they were.  Whatever the store does, the store
    is only ever changed by a request that is let through, with that
    event, a payment entity and an order id, and the change is the
    [captured] transition of some payment rows. *)
Theorem webhook_guard (req : webhook_request) (w : world) :
  run (post_payments_webhook None req) w = (Returned 200, w)
  /\ run (post_payments_webhook (Some []) req) w = (Returned 200, w)
  /\ (forall secret,
        secret <> [] ->
        wr_signature req
        <> Some (hmac_sha256_hex secret (JSON_stringify (wr_body req))) ->
        run (post_payments_webhook (Some secret) req) w = (Returned 400, w))
  /\ (forall secret,
        secret <> [] ->
        wr_signature req = Some (hmac_sha256_hex secret (wr_text req)) ->
        hmac_sha256_hex secret (wr_text req)
        <> hmac_sha256_hex secret (JSON_stringify (wr_body req)) ->
        run (post_payments_webhook (Some secret) req) w = (Returned 400, w))
  /\ (forall secret entity order o,
        secret <> [] -> o <> [] ->
        wr_signature req
        = Some (hmac_sha256_hex secret (JSON_stringify (wr_body req))) ->
        wr_body req
        = mkWebhookBody (JStr (u "payment.captured"))
            (Some (mkWebhookPayload (Some (Some entity)) order)) ->
        pe_order_id entity = JStr o ->
        answering w ->
        exists w',
          run (post_payments_webhook (Some secret) req) w = (Returned 200, w')
          /\ order_rows_become o (captured_by_event (w_now w)) (w_db w) (w_db w'))
  /\ (forall webhookSecret code w',
        run (post_payments_webhook webhookSecret req) w = (code, w') ->
        w_db w' <> w_db w ->
        exists secret payload entity order_id,
          webhookSecret = Some secret /\ secret <> []
          /\ wr_signature req
             = Some (hmac_sha256_hex secret (JSON_stringify (wr_body req)))
          /\ wb_event (wr_body req) = JStr (u "payment.captured")
          /\ wb_payload (wr_body req) = Some payload
          /\ pl_payment payload = Some (Some entity)
          /\ truthy order_id = true
          /\ (pe_order_id entity = order_id
              \/ pl_order payload = Some (Some order_id))
          /\ code = Returned 200
          /\ Forall2 (fun before after =>
                        after = before
                        \/ captured_by_event (w_now w) before after)
                     (payments (w_db w)) (payments (w_db w'))
          /\ same_tables_but_payments (w_db w) (w_db w')).
Proof.
  destruct req as [text signature body].
  destruct w as [db t o c n m]. unfold post_payments_webhook. simpl.
  assert (Hrefuse : forall secret,
             secret <> [] ->
             signature <> Some (hmac_sha256_hex secret (JSON_stringify body)) ->
             run (payments_webhook (Some secret) signature body)
                 (mkWorld db t o c n m)
             = (Returned 400, mkWorld db t o c n m)).
  { intros secret Hs Hsig. unfold run, payments_webhook, try_catch.
    apply nonempty_eq in Hs. rewrite Hs. simpl.
    replace (header_matches signature (hmac_sha256_hex secret (JSON_stringify body)))
      with false; [reflexivity|].
    symmetry. destruct (header_matches _ _) eqn:E; [|reflexivity].
    apply header_matches_eq in E. contradiction. }
  split; [reflexivity|]. split; [reflexivity|].
  split; [exact Hrefuse|]. split; [|split].
  - intros secret Hs Hsig Hdiff. apply Hrefuse; [assumption|].
    rewrite Hsig. intros E. apply Hdiff. now injection E.
  - intros secret entity order o' Hs Ho Hsig -> He Hw.
    unfold answering in Hw. simpl in Hw.
    unfold run, payments_webhook, try_catch.
    apply nonempty_eq in Hs. apply header_matches_eq in Hsig.
    rewrite Hs, Hsig.
    cbn [negb wb_event wb_payload strict_eq_string].
    rewrite jsstring_eqb_refl.
    unfold webhook_order_id, payment_entity_of. cbn [pl_payment]. rewrite He.
    apply nonempty_eq in Ho. unfold nonempty in Ho. rewrite Ho.
    cbv iota. rewrite Ho.
    cbn [andb]. unfold bind, now. cbn [w_now]. answered.
    eexists. split; [reflexivity|]. apply event_marks.
  - intros webhookSecret code w'. unfold run, payments_webhook, try_catch.
    destruct webhookSecret as [secret|];
      [|intros E; injection E as <- <-; simpl; congruence].
    destruct (nonempty secret) eqn:Hs; simpl;
      [|intros E; injection E as <- <-; simpl; congruence].
    destruct (header_matches signature _) eqn:Hh; simpl;
      [|intros E; injection E as <- <-; simpl; congruence].
    destruct (strict_eq_string (wb_event body) (u "payment.captured")) eqn:He; simpl;
      [|intros E; injection E as <- <-; simpl; congruence].
    destruct (truthy (webhook_order_id (wb_payload body))) eqn:Ht; simpl;
      [|intros E; injection E as <- <-; simpl; congruence].
    destruct (payment_entity_of (wb_payload body)) as [entity|] eqn:Hp; simpl;
      [|intros E; injection E as <- <-; simpl; congruence].
    unfold bind, now, await, update_payments.
    cbn [w_db w_now w_oracle w_console w_calls w_outbox].
    destruct (hd Answers o); simpl;
      intros E; injection E as <- <-; simpl; try congruence.
    intros _.
    apply nonempty_eq in Hs. apply header_matches_eq in Hh.
    apply strict_eq_string_eq in He.
    destruct (wb_payload body) as [payload|] eqn:Hpl; [|discriminate].
    unfold payment_entity_of in Hp.
    destruct (pl_payment payload) as [[e|]|] eqn:Hpay; try discriminate.
    injection Hp as ->.
    exists secret, payload, entity, (webhook_order_id (Some payload)).
    repeat (split; [assumption || reflexivity|]).
    split; [|split; [reflexivity|split]].
    + unfold webhook_order_id in *. unfold payment_entity_of in *.
      rewrite Hpay in *.
      destruct (truthy (pe_order_id entity)); [now left|].
      destruct (pl_order payload) as [[id|]|]; try discriminate. now right.
    + apply rows_updated_or_kept. intros r. now repeat split.
    + now repeat split.
Qed.

(** ** Creating a category type *)

Lemma type_name_free_filter (db : database) (type_name : jsstring) :
  ~ type_name_taken db type_name ->
  filter (name_is type_name) (category_types db) = [].
Proof.
  intros H. apply filter_nil_iff. intros x Hx.
  destruct (name_is type_name x) eqn:E; [|reflexivity].
  exfalso. apply H. exists x. split; [assumption|]. now apply jsstring_eqb_eq.
Qed.

(** The whole run of the create handler against an answering store,
    for a name that no category type has yet. *)
Lemma create_category_type_answered (input : category_type_input)
  (db : database) (t : timestamp) (o : list outcome) (c : list string)
  (n : nat) (m : list uuid) :
  Forall (fun x => x = Answers) o ->
  ~ type_name_taken db (cti_type_name input) ->
  length (cti_type_name input) <= 50 ->
  let type_name := cti_type_name input in
  let row := mkCategoryType (gen_random_uuid (map ct_id (category_types db)))
                            type_name (cti_description input) t t in
  let db1 := set_category_types db (category_types db ++ [row]) in
  let db2 := snd (insert_expense_category
                    (seed_expense_category type_name (ct_id row) t) t db1) in
  let db3 := snd (insert_income_category type_name (Some (ct_id row))
                    (Some t) (Some t) t db2) in
  run (create_category_type input) (mkWorld db t o c n m)
  = (Returned (mkResponse 201 true (Some "Category type created successfully")
                          (Some row)),
     if nonempty (ct_id row)
     then mkWorld db3 t (tl (tl (tl (tl o)))) c (S (S (S (S n)))) m
     else mkWorld db1 t (tl (tl o)) c (S (S n)) m).
Proof.
  intros Ho Hfree Hlen type_name row db1 db2 db3. subst type_name.
  pose proof (type_name_free_filter db _ Hfree) as Hnone.
  unfold run, create_category_type, try_catch, bind.
  answered. unfold select_type_by_name. rewrite Hnone.
  cbn [fst snd single map res_data err now w_now]. answered.
  unfold insert_category_type. rewrite existsb_filter, Hnone.
  replace (50 <? length (cti_type_name input)) with false
    by (symmetry; apply Nat.ltb_ge; assumption).
  cbn [fst snd res_error res_data ok]. fold row. fold db1.
  destruct (nonempty (ct_id row)) eqn:Hid.
  - answered. fold db2. answered. fold db3. reflexivity.
  - reflexivity.
Qed.

(** C4, where the code departs from it: when the new type's name is
    already the name of an expense category, the seeding insert is
    refused by [UNIQUE(category)]; the store answers with an error
    result, which the handler drops.  The type is created, the answer
    is 201, no expense category is added, and nothing is written to the
    console. *)
Theorem seeding_failure_is_not_logged (input : category_type_input) (w : world) :
  answering w ->
  ~ type_name_taken (w_db w) (cti_type_name input) ->
  length (cti_type_name input) <= 50 ->
  category_name_taken (w_db w) (cti_type_name input) ->
  exists r row w',
    run (create_category_type input) w = (Returned r, w')
    /\ status r = 201 /\ success r = true /\ data r = Some row
    /\ category_types (w_db w') = category_types (w_db w) ++ [row]
    /\ expense_categories (w_db w') = expense_categories (w_db w)
    /\ w_console w' = w_console w.
Proof.
  intros Hw Hfree Hlen Htaken.
  destruct w as [db t o c n m]. unfold answering in Hw. simpl in *.
  rewrite create_category_type_answered by assumption.
  eexists _, _, _. split; [reflexivity|]. split; [reflexivity|].
  split; [reflexivity|]. split; [reflexivity|].
  apply category_name_taken_dec in Htaken.
  destruct (nonempty _); simpl; [|repeat split].
  unfold insert_expense_category, expense_category_row. simpl. rewrite Htaken.
  simpl. unfold insert_income_category.
  destruct (income_category_row _ _ _ _ _ _); simpl; repeat split.
Qed.

(** ** What becomes of a storage error *)

Lemma await_cons {A : Type}
  (q : timestamp -> database -> result A * database)
  (db : database) (t : timestamp) (x : outcome) (o : list outcome)
  (c : list string) (n : nat) (m : list uuid) :
  await q (mkWorld db t (x :: o) c n m)
  = match x with
    | Answers =>
        let (r, db') := q t db in (Returned r, mkWorld db' t o c (S n) m)
    | ReturnsError => (Returned (err storage_failure), mkWorld db t o c (S n) m)
    | Throws => (Thrown StoreException, mkWorld db t o c (S n) m)
    end.
Proof. reflexivity. Qed.

Ltac simp_run :=
  cbn [res_data res_error err ok done fst snd
       w_db w_now w_oracle w_console w_calls w_outbox].

(** Case analysis along a run: on the outcome of each store call, on
    what the store returned, and on each test of the handler. *)
Ltac crash :=
  unfold run, rethrow, throw_on_error, try_catch, bind, now, ret, console, throw;
  cbv beta;
  repeat first
    [ congruence
    | progress simp_run
    | rewrite await_cons
    | match goal with
      | |- context [match ?x with Answers => _ | ReturnsError => _ | Throws => _ end] =>
          destruct x
      | |- context [let (_, _) := ?q in _] => destruct q as [[? ?] ?]
      | |- context [match ?d with Some _ => _ | None => _ end] => destruct d
      | |- context [if ?b then _ else _] => destruct b
      end ].

(** The end of a run that was made to fail at a given call: either the
    run never got that far, or it ended as the failure prescribes. *)
Ltac logged :=
  first [ exists []; rewrite <- ?app_assoc; reflexivity
        | eexists; rewrite <- ?app_assoc; reflexivity ].

Ltac reached :=
  eexists _, _; split; [reflexivity|];
  cbn [length w_calls w_db w_console];
  intros Hreach;
  first [ exfalso; lia
        | split; [reflexivity|]; split; [reflexivity|]; logged ].

Ltac thrown :=
  eexists _, _; split; [reflexivity|]; split; [reflexivity|];
  cbn [length w_calls w_db w_console];
  intros Hreach;
  first [ exfalso; lia | split; [reflexivity|]; logged ].

Ltac failing w :=
  intros Hbad; destruct w as [db t o c n m];
  unfold surfaces, rethrows, with_oracle;
  cbn [app w_db w_now w_console w_calls w_outbox].

(** The queries that only read give the store back as they found it. *)
Ltac reading :=
  cbv beta delta
    [select_type_by_name select_type_by_id select_other_type_by_name
     select_expense_categories_using select_income_categories_using
     select_category_types select_income_categories select_subcategories_of
     select_income_category_by_name select_income_category
     select_other_income_category select_income_subcategory
     select_income_subcategory_by_id select_other_income_subcategory
     select_income_subcategory_id select_active_categories
     select_subcategories_by_name select_subcategories_by_id].

Lemma category_type_routes_surface (bad : outcome) (rest : list outcome) (w : world) :
  bad <> Answers ->
  surfaces list_category_types w [] bad rest
    "Failed to fetch category types" "Error fetching category types:"
    "Error in category types route:"
  /\ (forall input o1,
        surfaces (create_category_type input) w [o1] bad rest
          "Failed to create category type" "Error creating category type:"
          "Error in create category type route:")
  /\ (forall id input o1 o2,
        surfaces (update_category_type id input) w [o1; o2] bad rest
          "Failed to update category type" "Error updating category type:"
          "Error in update category type route:")
  /\ (forall id o1 o2 o3,
        surfaces (delete_category_type id) w [o1; o2; o3] bad rest
          "Failed to delete category type" "Error deleting category type:"
          "Error in delete category type route:").
Proof.
  failing w. split; [|split; [|split]]; intros.
  - unfold list_category_types. reading. crash; reached.
  - unfold create_category_type. reading. crash; reached.
  - unfold update_category_type. reading. crash; reached.
  - unfold delete_category_type. reading. crash; reached.
Qed.

Lemma income_category_routes_surface (bad : outcome) (rest : list outcome)
  (w : world) :
  bad <> Answers ->
  surfaces list_income_categories w [] bad rest
    "Failed to fetch income categories" "Error fetching income categories:"
    "Error in income categories route:"
  /\ (forall id,
        surfaces (list_income_subcategories id) w [] bad rest
          "Failed to fetch income subcategories"
          "Error fetching income subcategories:"
          "Error in income subcategories route:")
  /\ (forall name o1,
        surfaces (create_income_category name) w [o1] bad rest
          "Failed to create income category" "Error creating income category:"
          "Error in create income category route:")
  /\ (forall id name o1 o2,
        surfaces (update_income_category id name) w [o1; o2] bad rest
          "Failed to update income category" "Error updating income category:"
          "Error in update income category route:")
  /\ (forall id o1,
        surfaces (delete_income_category id) w [o1] bad rest
          "Failed to delete income category" "Error deleting income category:"
          "Error in delete income category route:").
Proof.
  failing w. split; [|split; [|split; [|split]]]; intros.
  - unfold list_income_categories. reading. crash; reached.
  - unfold list_income_subcategories. reading. crash; reached.
  - unfold create_income_category. reading. crash; reached.
  - unfold update_income_category. reading. crash; reached.
  - unfold delete_income_category. reading. crash; reached.
Qed.

Lemma income_subcategory_routes_surface (bad : outcome) (rest : list outcome)
  (w : world) :
  bad <> Answers ->
  (forall input o1 o2,
     surfaces (create_income_subcategory input) w [o1; o2] bad rest
       "Failed to create income subcategory" "Error creating income subcategory:"
       "Error in create income subcategory route:")
  /\ (forall id input o1 o2 o3,
        surfaces (update_income_subcategory id input) w [o1; o2; o3] bad rest
          "Failed to update income subcategory"
          "Error updating income subcategory:"
          "Error in update income subcategory route:")
  /\ (forall id o1,
        surfaces (delete_income_subcategory id) w [o1] bad rest
          "Failed to delete income subcategory"
          "Error deleting income subcategory:"
          "Error in delete income subcategory route:").
Proof.
  failing w. split; [|split]; intros.
  - unfold create_income_subcategory. reading. crash; reached.
  - unfold update_income_subcategory. reading. crash; reached.
  - unfold delete_income_subcategory. reading. crash; reached.
Qed.

Lemma service_rethrows (bad : outcome) (rest : list outcome) (w : world) :
  bad <> Answers ->
  rethrows getAllCategories w [] bad rest
    "Error fetching expense categories:" "Exception in getAllCategories:"
  /\ (forall categoryData,
        rethrows (addCategory categoryData) w [] bad rest
          "Error adding category:" "Exception in addCategory:")
  /\ (forall categoryId updateData,
        rethrows (updateCategory categoryId updateData) w [] bad rest
          "Error updating category:" "Exception in updateCategory:")
  /\ (forall categoryId,
        rethrows (deleteCategory categoryId) w [] bad rest
          "Error deleting category:" "Exception in deleteCategory:").
Proof.
  failing w. split; [|split; [|split]]; intros.
  - unfold getAllCategories. reading. crash; thrown.
  - unfold addCategory. crash; thrown.
  - unfold updateCategory. crash; thrown.
  - unfold deleteCategory. crash; thrown.
Qed.

Lemma rewrite_subcategories_rethrows (categoryId : uuid)
  (transform : list subcategory -> list subcategory) (m1 m2 m3 : string)
  (bad : outcome) (rest : list outcome) (w : world) :
  bad <> Answers ->
  rethrows (rewrite_subcategories categoryId transform m1 m2 m3) w [] bad rest m2 m1
  /\ (forall o1,
        rethrows (rewrite_subcategories categoryId transform m1 m2 m3)
                 w [o1] bad rest m3 m1).
Proof.
  failing w. unfold rewrite_subcategories. split; intros; reading; crash; thrown.
Qed.

Lemma getSubcategories_swallows (categoryName : jsstring)
  (bad : outcome) (rest : list outcome) (w : world) :
  bad <> Answers ->
  exists w',
    run (getSubcategories categoryName) (with_oracle w (bad :: rest))
    = (Returned [], w')
    /\ w_db w' = w_db w
    /\ w_console w'
       = w_console w ++ [match bad with
                         | Throws => "Exception in getSubcategories:"
                         | _ => "Error fetching subcategories:"
                         end].
Proof.
  intros Hbad. unfold with_oracle, getSubcategories.
  crash; eexists; (split; [reflexivity|]); split; reflexivity.
Qed.

Lemma fields_present (o p s : jsstring) :
  o <> [] -> p <> [] -> s <> [] ->
  missing_fields (mkVerifyBody (JStr o) (JStr p) (JStr s)) = false.
Proof.
  intros Ho Hp Hs. apply nonempty_eq in Ho, Hp, Hs.
  unfold missing_fields, nonempty in *.
  cbn [razorpay_order_id razorpay_payment_id razorpay_signature].
  now rewrite Ho, Hp, Hs.
Qed.

Lemma signature_test (key o p s : jsstring) :
  strict_eq_string (razorpay_signature (mkVerifyBody (JStr o) (JStr p) (JStr s)))
    (hmac_sha256_hex key (signed_message (mkVerifyBody (JStr o) (JStr p) (JStr s))))
  = jsstring_eqb s (hmac_sha256_hex key (o ++ u "|" ++ p)).
Proof. reflexivity. Qed.

(** An error result of the update is dropped by both verify handlers:
    logged and answered 200 when the signature was right, not even
    logged when it was wrong.  An exception is answered 500. *)
Lemma verify_drops_error_results (key_secret : option jsstring)
  (key o p s : jsstring) (rest : list outcome) (w : world) :
  o <> [] -> p <> [] -> s <> [] ->
  (s = hmac_sha256_hex key (o ++ u "|" ++ p) ->
   unsurfaced (verify_payment (Some key) (mkVerifyBody (JStr o) (JStr p) (JStr s)))
     w rest (mkResponse 200 true None None) ["payments update error:"])
  /\ (s <> hmac_sha256_hex key (o ++ u "|" ++ p) ->
      unsurfaced (verify_payment (Some key) (mkVerifyBody (JStr o) (JStr p) (JStr s)))
        w rest (fail_with 400 "Invalid signature") [])
  /\ (s = hmac_sha256_hex (or_default key_secret []) (o ++ u "|" ++ p) ->
      unsurfaced (edge_verify true key_secret
                    (mkVerifyBody (JStr o) (JStr p) (JStr s)))
        w rest (mkResponse 200 true None None) ["payments update error:"])
  /\ (s <> hmac_sha256_hex (or_default key_secret []) (o ++ u "|" ++ p) ->
      unsurfaced (edge_verify true key_secret
                    (mkVerifyBody (JStr o) (JStr p) (JStr s)))
        w rest (fail_with 400 "Invalid signature") [])
  /\ (exists w',
        run (verify_payment (Some key) (mkVerifyBody (JStr o) (JStr p) (JStr s)))
            (with_oracle w (Throws :: rest))
        = (Returned (fail_with 500 "Verification failed"), w')
        /\ w_db w' = w_db w
        /\ w_console w' = w_console w ++ ["verify error:"]).
Proof.
  intros Ho Hp Hs. pose proof (fields_present o p s Ho Hp Hs) as Hfields.
  destruct w as [db t orc c n m].
  unfold unsurfaced, with_oracle, run, verify_payment, edge_verify, try_catch, bind.
  rewrite Hfields. rewrite !signature_test.
  cbn [w_db w_now w_console w_calls w_outbox].
  split; [|split; [|split; [|split]]].
  - intros <-. rewrite jsstring_eqb_refl. cbn [negb now w_now].
    rewrite await_cons. eexists. repeat split.
  - intros Hsig. apply jsstring_eqb_neq in Hsig. rewrite Hsig. cbn [negb].
    rewrite await_cons. eexists. split; [reflexivity|].
    cbn [w_db w_console w_calls]. now rewrite app_nil_r.
  - intros <-. rewrite jsstring_eqb_refl. cbn [negb now w_now].
    rewrite await_cons. eexists. repeat split.
  - intros Hsig. apply jsstring_eqb_neq in Hsig. rewrite Hsig. cbn [negb].
    rewrite await_cons. eexists. split; [reflexivity|].
    cbn [w_db w_console w_calls]. now rewrite app_nil_r.
  - destruct (jsstring_eqb s (hmac_sha256_hex key (o ++ u "|" ++ p)));
      cbn [negb now w_now]; rewrite await_cons; eexists; repeat split.
Qed.

(** The webhook drops an error result of its update without a trace;
    an exception is answered 500. *)
Lemma webhook_drops_error_results (secret o : jsstring) (entity : payment_entity)
  (order : option (option jsval)) (rest : list outcome) (w : world) :
  secret <> [] -> o <> [] -> pe_order_id entity = JStr o ->
  unsurfaced
    (payments_webhook (Some secret)
       (Some (hmac_sha256_hex secret
                (JSON_stringify
                   (mkWebhookBody (JStr (u "payment.captured"))
                      (Some (mkWebhookPayload (Some (Some entity)) order))))))
       (mkWebhookBody (JStr (u "payment.captured"))
          (Some (mkWebhookPayload (Some (Some entity)) order))))
    w rest 200 []
  /\ exists w',
       run (payments_webhook (Some secret)
              (Some (hmac_sha256_hex secret
                       (JSON_stringify
                          (mkWebhookBody (JStr (u "payment.captured"))
                             (Some (mkWebhookPayload (Some (Some entity)) order))))))
              (mkWebhookBody (JStr (u "payment.captured"))
                 (Some (mkWebhookPayload (Some (Some entity)) order))))
           (with_oracle w (Throws :: rest))
       = (Returned 500, w')
       /\ w_db w' = w_db w
       /\ w_console w' = w_console w ++ ["webhook error"].
Proof.
  intros Hs Ho He. destruct w as [db t orc c n m].
  unfold unsurfaced, with_oracle, run, payments_webhook, try_catch.
  apply nonempty_eq in Hs. rewrite Hs.
  unfold header_matches, option_eqb. rewrite jsstring_eqb_refl.
  cbn [negb wb_event wb_payload strict_eq_string].
  rewrite jsstring_eqb_refl.
  unfold webhook_order_id, payment_entity_of. cbn [pl_payment]. rewrite He.
  apply nonempty_eq in Ho. unfold nonempty in Ho. rewrite Ho.
  cbv iota. rewrite Ho.
  cbn [andb]. unfold bind, now. cbn [w_db w_now w_console w_calls w_outbox].
  rewrite !await_cons. split.
  - eexists. split; [reflexivity|]. cbn [w_db w_console w_calls].
    now rewrite app_nil_r.
  - eexists. repeat split.
Qed.

(** Order creation never reads the result of its insert: the order is
    answered although no payment row was written.  An exception is
    answered 500. *)
Lemma create_order_drops_error_results (body : order_body) (order : razorpay_order)
  (rest : list outcome) (w : world) :
  order_fields_missing body = false ->
  razorpay_orders_create body (w_now w) = inr order ->
  unsurfaced (create_order body) w rest
    (mkResponse 200 true None (Some order)) []
  /\ unsurfaced (edge_create_order true body) w rest
       (mkResponse 200 true None (Some order)) []
  /\ exists w',
       run (create_order body) (with_oracle w (Throws :: rest))
       = (Returned (fail_with 500 "Failed to create order"), w')
       /\ w_db w' = w_db w
       /\ w_console w' = w_console w ++ ["create-order error:"].
Proof.
  intros Hfields Horder. destruct w as [db t orc c n m].
  unfold unsurfaced, with_oracle, run, create_order, edge_create_order,
    try_catch, bind, now.
  cbn [w_db w_now w_console w_calls w_outbox] in *.
  rewrite Hfields. cbn [w_now]. rewrite Horder. rewrite !await_cons.
  split; [|split];
    (eexists; split; [reflexivity|]; cbn [w_db w_console w_calls];
     rewrite ?app_nil_r; repeat split).
Qed.

Lemma seeding_is_best_effort (input : category_type_input)
  (s1 s2 : outcome) (rest : list outcome) (w : world) :
  ~ type_name_taken (w_db w) (cti_type_name input) ->
  length (cti_type_name input) <= 50 ->
  exists r w',
    run (create_category_type input)
        (with_oracle w (Answers :: Answers :: s1 :: s2 :: rest))
    = (Returned r, w')
    /\ status r = 201 /\ success r = true.
Proof.
  intros Hfree Hlen. destruct w as [db t o c n m]. unfold with_oracle. simpl in *.
  pose proof (type_name_free_filter db _ Hfree) as Hnone.
  unfold run, create_category_type, try_catch, bind.
  rewrite await_cons. unfold select_type_by_name. rewrite Hnone.
  cbn [fst snd single map res_data err now w_now]. rewrite await_cons.
  unfold insert_category_type. rewrite existsb_filter, Hnone.
  replace (50 <? length (cti_type_name input)) with false
    by (symmetry; apply Nat.ltb_ge; assumption).
  cbn [fst snd res_error res_data ok].
  crash; eexists _, _; (split; [reflexivity|]); split; reflexivity.
Qed.

(** C9 (amended): a store call fails when it answers with an error
    result or throws.  In each route of the category-type and
    income-category routers (list, create, update, delete; for income
    categories and for income subcategories), whatever the store calls
    before it did, a failure of the call that carries out the route's
    read or write is answered HTTP 500, with the route's own message
    for an error result and "Internal server error" for an exception,
    is logged on the console, and leaves the store as it was.  Every
    operation of the expense categories service but [getSubcategories]
    logs such a failure and throws it to its caller.  These requests
    do not surface it: [getSubcategories] logs it and returns the empty
    list; both verify handlers log an error result of the 'captured'
    update and answer 200 success, and drop an error result of the
    'failed' update unlogged behind the usual 400; the webhook drops an
    error result of its update and answers 200; order creation, in the
    Express route and in the edge function, drops an error result of
    its insert and answers the order with 200 success; the payment
    handlers of the Express application do answer 500 when the call
    throws.  Whatever becomes of the seeding of the default categories,
    the creation of a category type is answered 201. *)
Theorem storage_error_policy (bad : outcome) (rest : list outcome) (w : world) :
  bad <> Answers ->
  (surfaces list_category_types w [] bad rest
     "Failed to fetch category types" "Error fetching category types:"
     "Error in category types route:"
   /\ (forall input o1,
         surfaces (create_category_type input) w [o1] bad rest
           "Failed to create category type" "Error creating category type:"
           "Error in create category type route:")
   /\ (forall id input o1 o2,
         surfaces (update_category_type id input) w [o1; o2] bad rest
           "Failed to update category type" "Error updating category type:"
           "Error in update category type route:")
   /\ (forall id o1 o2 o3,
         surfaces (delete_category_type id) w [o1; o2; o3] bad rest
           "Failed to delete category type" "Error deleting category type:"
           "Error in delete category type route:"))
  /\ (surfaces list_income_categories w [] bad rest
        "Failed to fetch income categories" "Error fetching income categories:"
        "Error in income categories route:"
      /\ (forall id,
            surfaces (list_income_subcategories id) w [] bad rest
              "Failed to fetch income subcategories"
              "Error fetching income subcategories:"
              "Error in income subcategories route:")
      /\ (forall name o1,
            surfaces (create_income_category name) w [o1] bad rest
              "Failed to create income category" "Error creating income category:"
              "Error in create income category route:")
      /\ (forall id name o1 o2,
            surfaces (update_income_category id name) w [o1; o2] bad rest
              "Failed to update income category" "Error updating income category:"
              "Error in update income category route:")
      /\ (forall id o1,
            surfaces (delete_income_category id) w [o1] bad rest
              "Failed to delete income category" "Error deleting income category:"
              "Error in delete income category route:"))
  /\ ((forall input o1 o2,
         surfaces (create_income_subcategory input) w [o1; o2] bad rest
           "Failed to create income subcategory"
           "Error creating income subcategory:"
           "Error in create income subcategory route:")
      /\ (forall id input o1 o2 o3,
            surfaces (update_income_subcategory id input) w [o1; o2; o3] bad rest
              "Failed to update income subcategory"
              "Error updating income subcategory:"
              "Error in update income subcategory route:")
      /\ (forall id o1,
            surfaces (delete_income_subcategory id) w [o1] bad rest
              "Failed to delete income subcategory"
              "Error deleting income subcategory:"
              "Error in delete income subcategory route:"))
  /\ (rethrows getAllCategories w [] bad rest
        "Error fetching expense categories:" "Exception in getAllCategories:"
      /\ (forall categoryData,
            rethrows (addCategory categoryData) w [] bad rest
              "Error adding category:" "Exception in addCategory:")
      /\ (forall categoryId updateData,
            rethrows (updateCategory categoryId updateData) w [] bad rest
              "Error updating category:" "Exception in updateCategory:")
      /\ (forall categoryId,
            rethrows (deleteCategory categoryId) w [] bad rest
              "Error deleting category:" "Exception in deleteCategory:"))
  /\ (forall categoryId subcategoryData,
        rethrows (addSubcategory categoryId subcategoryData) w [] bad rest
          "Error fetching category for subcategory addition:"
          "Exception in addSubcategory:"
        /\ forall o1,
             rethrows (addSubcategory categoryId subcategoryData) w [o1] bad rest
               "Error adding subcategory:" "Exception in addSubcategory:")
  /\ (forall categoryId name updateData,
        rethrows (updateSubcategory categoryId name updateData) w [] bad rest
          "Error fetching category for subcategory update:"
          "Exception in updateSubcategory:"
        /\ forall o1,
             rethrows (updateSubcategory categoryId name updateData) w [o1] bad rest
               "Error updating subcategory:" "Exception in updateSubcategory:")
  /\ (forall categoryId name,
        rethrows (deleteSubcategory categoryId name) w [] bad rest
          "Error fetching category for subcategory deletion:"
          "Exception in deleteSubcategory:"
        /\ forall o1,
             rethrows (deleteSubcategory categoryId name) w [o1] bad rest
               "Error deleting subcategory:" "Exception in deleteSubcategory:")
  /\ (forall categoryName,
        exists w',
          run (getSubcategories categoryName) (with_oracle w (bad :: rest))
          = (Returned [], w')
          /\ w_db w' = w_db w
          /\ w_console w'
             = w_console w ++ [match bad with
                               | Throws => "Exception in getSubcategories:"
                               | _ => "Error fetching subcategories:"
                               end])
  /\ (forall key_secret key o p s,
        o <> [] -> p <> [] -> s <> [] ->
        (s = hmac_sha256_hex key (o ++ u "|" ++ p) ->
         unsurfaced (verify_payment (Some key)
                       (mkVerifyBody (JStr o) (JStr p) (JStr s)))
           w rest (mkResponse 200 true None None) ["payments update error:"])
        /\ (s <> hmac_sha256_hex key (o ++ u "|" ++ p) ->
            unsurfaced (verify_payment (Some key)
                          (mkVerifyBody (JStr o) (JStr p) (JStr s)))
              w rest (fail_with 400 "Invalid signature") [])
        /\ (s = hmac_sha256_hex (or_default key_secret []) (o ++ u "|" ++ p) ->
            unsurfaced (edge_verify true key_secret
                          (mkVerifyBody (JStr o) (JStr p) (JStr s)))
              w rest (mkResponse 200 true None None) ["payments update error:"])
        /\ (s <> hmac_sha256_hex (or_default key_secret []) (o ++ u "|" ++ p) ->
            unsurfaced (edge_verify true key_secret
                          (mkVerifyBody (JStr o) (JStr p) (JStr s)))
              w rest (fail_with 400 "Invalid signature") [])
        /\ (exists w',
              run (verify_payment (Some key)
                     (mkVerifyBody (JStr o) (JStr p) (JStr s)))
                  (with_oracle w (Throws :: rest))
              = (Returned (fail_with 500 "Verification failed"), w')
              /\ w_db w' = w_db w
              /\ w_console w' = w_console w ++ ["verify error:"]))
  /\ (forall secret o entity order,
        secret <> [] -> o <> [] -> pe_order_id entity = JStr o ->
        unsurfaced
          (payments_webhook (Some secret)
             (Some (hmac_sha256_hex secret
                      (JSON_stringify
                         (mkWebhookBody (JStr (u "payment.captured"))
                            (Some (mkWebhookPayload (Some (Some entity)) order))))))
             (mkWebhookBody (JStr (u "payment.captured"))
                (Some (mkWebhookPayload (Some (Some entity)) order))))
          w rest 200 []
        /\ exists w',
             run (payments_webhook (Some secret)
                    (Some (hmac_sha256_hex secret
                             (JSON_stringify
                                (mkWebhookBody (JStr (u "payment.captured"))
                                   (Some (mkWebhookPayload (Some (Some entity))
                                            order))))))
                    (mkWebhookBody (JStr (u "payment.captured"))
                       (Some (mkWebhookPayload (Some (Some entity)) order))))
                 (with_oracle w (Throws :: rest))
             = (Returned 500, w')
             /\ w_db w' = w_db w
             /\ w_console w' = w_console w ++ ["webhook error"])
  /\ (forall body order,
        order_fields_missing body = false ->
        razorpay_orders_create body (w_now w) = inr order ->
        unsurfaced (create_order body) w rest
          (mkResponse 200 true None (Some order)) []
        /\ unsurfaced (edge_create_order true body) w rest
             (mkResponse 200 true None (Some order)) []
        /\ exists w',
             run (create_order body) (with_oracle w (Throws :: rest))
             = (Returned (fail_with 500 "Failed to create order"), w')
             /\ w_db w' = w_db w
             /\ w_console w' = w_console w ++ ["create-order error:"])
  /\ (forall input s1 s2,
        ~ type_name_taken (w_db w) (cti_type_name input) ->
        length (cti_type_name input) <= 50 ->
        exists r w',
          run (create_category_type input)
              (with_oracle w (Answers :: Answers :: s1 :: s2 :: rest))
          = (Returned r, w')
          /\ status r = 201 /\ success r = true).
Proof.
  intros Hbad.
  split; [now apply category_type_routes_surface|].
  split; [now apply income_category_routes_surface|].
  split; [now apply income_subcategory_routes_surface|].
  split; [now apply service_rethrows|].
  split; [intros; now apply rewrite_subcategories_rethrows|].
  split; [intros; now apply rewrite_subcategories_rethrows|].
  split; [intros; now apply rewrite_subcategories_rethrows|].
  split; [intros; now apply getSubcategories_swallows|].
  split.
  { intros key_secret key o p s Ho Hp Hs.
    exact (verify_drops_error_results key_secret key o p s rest w Ho Hp Hs). }
  split.
  { intros secret o entity order Hs Ho He.
    exact (webhook_drops_error_results secret o entity order rest w Hs Ho He). }
  split.
  { intros body order Hfields Horder.
    exact (create_order_drops_error_results body order rest w Hfields Horder). }
  intros input s1 s2. apply seeding_is_best_effort.
Qed.

(** ** The edges of payment verification *)

(** A request that lacks one of the three fields is answered 400 and
    nothing else happens. *)
Lemma verify_payment_missing_fields (key_secret : option jsstring)
  (body : verify_body) (w : world) :
  missing_fields body = true ->
  run (verify_payment key_secret body) w
  = (Returned (fail_with 400 "Missing required fields"), w)
  /\ run (edge_verify true key_secret body) w
     = (Returned (fail_with 400 "Missing required fields"), w).
Proof.
  intros H. unfold run, verify_payment, edge_verify, try_catch. rewrite H.
  split; reflexivity.
Qed.

(** Without [RAZORPAY_KEY_SECRET] the Express handler cannot build the
    HMAC; the exception is caught and answered 500, the store is not
    called. *)
Lemma verify_payment_without_key (body : verify_body) (w : world) :
  missing_fields body = false ->
  exists w',
    run (verify_payment None body) w
    = (Returned (fail_with 500 "Verification failed"), w')
    /\ w_db w' = w_db w /\ w_calls w' = w_calls w.
Proof.
  intros H. unfold run, verify_payment, try_catch. rewrite H.
  eexists. split; [reflexivity|]. split; reflexivity.
Qed.

(** Without the admin client the edge function answers 500 to a wrong
    signature (the update dereferences [null]) and success to a right
    one, and the store is not called. *)
Lemma edge_verify_without_admin (key_secret : option jsstring)
  (body : verify_body) (w : world) :
  missing_fields body = false ->
  exists r w',
    run (edge_verify false key_secret body) w = (Returned r, w')
    /\ w_db w' = w_db w /\ w_calls w' = w_calls w
    /\ (status r = 500 \/ (status r = 200 /\ data r = None)).
Proof.
  intros H. unfold run, edge_verify, try_catch, bind. rewrite H.
  destruct (strict_eq_string _ _); simpl;
    eexists _, _; (split; [reflexivity|]); repeat split; auto.
Qed.

(** ** Trimming and the income validators *)

Lemma trimStart_splits (s : jsstring) :
  exists spaces, s = spaces ++ trimStart s
                 /\ Forall (fun c => isWhiteSpace c = true) spaces.
Proof.
  induction s as [|c s IH]; simpl.
  - exists []. split; [reflexivity | constructor].
  - destruct (isWhiteSpace c) eqn:E.
    + destruct IH as [spaces [Hs Hall]]. exists (c :: spaces). split.
      * simpl. now rewrite <- Hs.
      * now constructor.
    + exists []. split; [reflexivity | constructor].
Qed.

Lemma trimStart_head (s : jsstring) (c : N) (rest : jsstring) :
  trimStart s = c :: rest -> isWhiteSpace c = false.
Proof.
  induction s as [|a s IH]; simpl; [discriminate|].
  destruct (isWhiteSpace a) eqn:E; [exact IH|].
  intros H. injection H as <- _. exact E.
Qed.

Lemma trimStart_fixed (s : jsstring) :
  (forall c rest, s = c :: rest -> isWhiteSpace c = false) -> trimStart s = s.
Proof.
  destruct s as [|c s]; simpl; [reflexivity|]. intros H.
  now rewrite (H c s eq_refl).
Qed.

Lemma trim_is_trimmed (s : jsstring) : trimmed (trim s).
Proof.
  unfold trimmed, trim, trimEnd. split.
  - intros c rest E.
    destruct (trimStart_splits (rev (trimStart s))) as [spaces [Hs _]].
    apply (f_equal (@rev N)) in Hs. rewrite rev_involutive, rev_app_distr in Hs.
    rewrite E in Hs. simpl in Hs. now apply (trimStart_head s c (rest ++ rev spaces)).
  - intros c rest E. rewrite rev_involutive in E.
    now apply (trimStart_head _ _ _ E).
Qed.

Lemma trim_fixed (s : jsstring) : trimmed s -> trim s = s.
Proof.
  intros [Hhead Hlast]. unfold trim, trimEnd.
  rewrite (trimStart_fixed s Hhead), (trimStart_fixed (rev s) Hlast).
  apply rev_involutive.
Qed.

Lemma trim_idempotent (s : jsstring) : trim (trim s) = trim s.
Proof. apply trim_fixed, trim_is_trimmed. Qed.

(** X1: income-category validation lets a name through exactly when it
    is a string whose trimmed form is non-empty and at most 100
    characters long, and hands on that trimmed form, which has no white
    space at either end; anything else is answered 400.  Validating the
    handed-on name again lets it through unchanged. *)
Theorem income_category_validation (D : Type) (name : jsval) :
  (forall n, @validateIncomeCategory D name = Next n <-> valid_category_name name n)
  /\ (forall n, @validateIncomeCategory D name = Next n ->
                trimmed n /\ @validateIncomeCategory D (JStr n) = Next n)
  /\ (forall r, @validateIncomeCategory D name = Respond r ->
                status r = 400 /\ success r = false /\ data r = None).
Proof.
  assert (Hiff : forall v n,
             @validateIncomeCategory D v = Next n <-> valid_category_name v n).
  { intros v n. unfold validateIncomeCategory, valid_category_name.
    destruct v as [| |b|z|s|o j];
      try (split; [discriminate | intros [x [E _]]; discriminate]).
    destruct (negb (truthy (JStr s)) || (length (trim s) =? 0)) eqn:C1.
    { split; [discriminate|]. intros [x [E [-> [Hne _]]]]. injection E as <-.
      apply truthy_string_trim_nonempty in Hne. congruence. }
    apply truthy_string_trim_nonempty in C1.
    destruct (100 <? length (trim s)) eqn:C2.
    { split; [discriminate|]. intros [x [E [-> [_ Hlen]]]]. injection E as <-.
      apply Nat.ltb_lt in C2. lia. }
    apply Nat.ltb_ge in C2. split.
    - intros E. injection E as <-. exists s. repeat split; assumption.
    - intros [x [E [-> _]]]. injection E as <-. reflexivity. }
  split; [apply Hiff|]. split.
  - intros n Hn. pose proof (proj1 (Hiff name n) Hn) as [s [_ [-> [Hne Hlen]]]].
    split; [apply trim_is_trimmed|].
    apply Hiff. exists (trim s). rewrite trim_idempotent. repeat split; assumption.
  - intros r. unfold validateIncomeCategory.
    destruct name as [| |b|z|s|o j]; try (intros E; injection E as <-; repeat split).
    destruct (negb (truthy (JStr s)) || (length (trim s) =? 0));
      [intros E; injection E as <-; repeat split|].
    destruct (100 <? length (trim s)); [intros E; injection E as <-; repeat split|].
    discriminate.
Qed.

(** X2: income-subcategory validation lets a body through exactly when
    [category_id] is a non-empty string, [name] is a string whose
    trimmed form is non-empty and at most 100 characters long, and
    [is_recurring] is a boolean; it hands on the id, the trimmed name
    and the flag.  Any other body is answered 400 by both routes that
    use it, and the world, store included, is left as it was. *)
Theorem income_subcategory_validation (body : income_subcategory_body) (w : world)
  (id : uuid) :
  (forall input,
     @validateIncomeSubcategory income_subcategory_view body = Next input
     <-> valid_subcategory_body body input)
  /\ ((exists input,
         @validateIncomeSubcategory income_subcategory_view body = Next input)
      \/ exists r,
           status r = 400 /\ success r = false
           /\ run (post_income_subcategories body) w = (Returned r, w)
           /\ run (put_income_subcategories id body) w = (Returned r, w)).
Proof.
  split.
  - intros input. unfold validateIncomeSubcategory, valid_subcategory_body.
    destruct body as [cid name rec]; simpl.
    destruct cid as [| |b|z|c|o j];
      try (split; [discriminate | intros [n [E _]]; discriminate]).
    destruct (negb (truthy (JStr c))) eqn:C0.
    { split; [discriminate|]. intros [n [E [Hne _]]]. injection E as ->.
      destruct (isi_category_id input); [congruence | discriminate]. }
    destruct name as [| |b|z|n0|o j];
      try (split; [discriminate | intros [n [_ [_ [E _]]]]; discriminate]).
    destruct (negb (truthy (JStr n0)) || (length (trim n0) =? 0)) eqn:C1.
    { split; [discriminate|]. intros [n [_ [_ [E [_ [Hne _]]]]]]. injection E as <-.
      apply truthy_string_trim_nonempty in Hne. congruence. }
    apply truthy_string_trim_nonempty in C1.
    destruct (100 <? length (trim n0)) eqn:C2.
    { split; [discriminate|]. intros [n [_ [_ [E [_ [_ [Hlen _]]]]]]].
      injection E as <-. apply Nat.ltb_lt in C2. lia. }
    apply Nat.ltb_ge in C2.
    destruct rec as [| |b|z|r0|o j];
      try (split; [discriminate
                  | intros [n [_ [_ [_ [_ [_ [_ E]]]]]]]; discriminate]).
    split.
    + intros E. injection E as <-. simpl. exists n0.
      repeat split; try assumption.
      destruct c; [discriminate | discriminate].
    + intros [n [E1 [_ [E2 [E3 [_ [_ E4]]]]]]].
      injection E1 as E1. injection E2 as <-. injection E4 as E4.
      destruct input as [i nm rc]. simpl in *. subst. reflexivity.
  - unfold run, post_income_subcategories, put_income_subcategories.
    destruct (validateIncomeSubcategory body) as [r | input] eqn:E.
    + right. exists r. split; [|split; [|split; reflexivity]].
      * unfold validateIncomeSubcategory in E.
        repeat match type of E with
               | match ?x with _ => _ end = _ => destruct x
               | (if ?b then _ else _) = _ => destruct b
               end; try discriminate; injection E as <-; reflexivity.
      * unfold validateIncomeSubcategory in E.
        repeat match type of E with
               | match ?x with _ => _ end = _ => destruct x
               | (if ?b then _ else _) = _ => destruct b
               end; try discriminate; injection E as <-; reflexivity.
    + left. now exists input.
Qed.

(** ** Income categories *)

Lemma name_free_filter (rows : list income_category) (n : jsstring) :
  ~ In n (map ic_name rows) -> filter (category_name_is n) rows = [].
Proof.
  intros H. apply filter_nil_iff. intros x Hx.
  destruct (category_name_is n x) eqn:E; [|reflexivity].
  apply jsstring_eqb_eq in E. exfalso. apply H. rewrite <- E. now apply in_map.
Qed.

Lemma validateIncomeCategory_passes {D : Type} (name : jsval) (n : jsstring) :
  valid_category_name name n -> @validateIncomeCategory D name = Next n.
Proof. intros H. now apply income_category_validation. Qed.

Lemma create_income_category_refused (db : database) (t : timestamp)
  (o : list outcome) (c : list string) (k : nat) (m : list uuid) (n : jsstring) :
  Forall (fun x => x = Answers) o ->
  filter (category_name_is n) (income_categories db) = [] ->
  run (create_income_category n) (mkWorld db t o c k m)
  = (Returned (fail_with 500 "Failed to create income category"),
     mkWorld db t (tl (tl o)) (c ++ ["Error creating income category:"])
             (S (S k)) m).
Proof.
  intros Ho Hfree.
  unfold run, create_income_category, try_catch, bind.
  answered. unfold select_income_category_by_name. rewrite Hfree.
  cbn [fst snd single map res_data err]. answered.
  reflexivity.
Qed.

Lemma create_income_category_conflict (db : database) (t : timestamp)
  (o : list outcome) (c : list string) (k : nat) (m : list uuid) (n : jsstring)
  (existing : income_category) :
  Forall (fun x => x = Answers) o ->
  filter (category_name_is n) (income_categories db) = [existing] ->
  run (create_income_category n) (mkWorld db t o c k m)
  = (Returned (fail_with 409 "Income category with this name already exists"),
     mkWorld db t (tl o) c (S k) m).
Proof.
  intros Ho Hrow. unfold run, create_income_category, try_catch, bind.
  answered. unfold select_income_category_by_name. rewrite Hrow. reflexivity.
Qed.

(** X3: posting an income category never creates one.  The route
    inserts a row that carries the name only, and the column
    [category_type_id] of [income_categories] is NOT NULL and has no
    default.  With the store answering and names unique: a validated
    name that no category has is answered 500 "Failed to create income
    category", the failure is logged and the store is as it was; a
    name some category has is answered 409 "... already exists" and
    changes nothing either. *)
Theorem income_category_post_outcomes (name : jsval) (n : jsstring) (w : world) :
  answering w ->
  valid_category_name name n ->
  NoDup (map ic_name (income_categories (w_db w))) ->
  (~ In n (map ic_name (income_categories (w_db w))) ->
   exists w',
     run (post_income_categories name) w
     = (Returned (fail_with 500 "Failed to create income category"), w')
     /\ w_db w' = w_db w
     /\ w_console w' = w_console w ++ ["Error creating income category:"])
  /\ (In n (map ic_name (income_categories (w_db w))) ->
      exists w',
        run (post_income_categories name) w
        = (Returned (fail_with 409 "Income category with this name already exists"),
           w')
        /\ w_db w' = w_db w
        /\ w_console w' = w_console w).
Proof.
  intros Hw Hvalid Hnames. destruct w as [db t o c k m].
  unfold answering in Hw. simpl in *.
  unfold post_income_categories.
  rewrite (validateIncomeCategory_passes name n Hvalid).
  split.
  - intros Hfree.
    rewrite create_income_category_refused
      by (try assumption; now apply name_free_filter).
    eexists. repeat split.
  - intros Htaken.
    destruct (filter_key_singleton ic_name (income_categories db) n Hnames Htaken)
      as [existing [Hrow _]].
    rewrite (create_income_category_conflict db t o c k m n existing Hw Hrow).
    eexists. repeat split.
Qed.


Lemma gone_iff (deleted : list uuid) (reference : option uuid) :
  gone deleted reference = true
  <-> exists id, reference = Some id /\ In id deleted.
Proof.
  unfold gone. destruct reference as [r|].
  - rewrite existsb_exists. split.
    + intros [x [Hx E]]. apply jsstring_eqb_eq in E. subst x. now exists r.
    + intros [x [[= ->] Hx]]. exists x. split; [assumption|].
      apply jsstring_eqb_refl.
  - split; [discriminate|]. now intros [x [E _]].
Qed.



(** ** A small logic of runs *)

Section Steps.

Variable R : database -> database -> Prop.
Hypothesis R_preorder : preorder R.

Lemma steps_ret {A : Type} (a : A) : steps R (ret a).
Proof. intros w. apply R_preorder. Qed.

Lemma steps_throw {A : Type} (e : exn) : steps R (@throw A e).
Proof. intros w. apply R_preorder. Qed.

Lemma steps_console (line : string) : steps R (console line).
Proof. intros w. apply R_preorder. Qed.

Lemma steps_now : steps R now.
Proof. intros w. apply R_preorder. Qed.

Lemma steps_bind {A B : Type} (m : M A) (k : A -> M B) :
  steps R m -> (forall a, steps R (k a)) -> steps R (bind m k).
Proof.
  intros Hm Hk w. unfold run, bind. specialize (Hm w). unfold run in Hm.
  destruct (m w) as [[a | e] w1]; simpl in *.
  - destruct R_preorder as [_ Htrans]. apply (Htrans _ (w_db w1)); [exact Hm|].
    apply (Hk a w1).
  - exact Hm.
Qed.

Lemma steps_try_catch {A : Type} (m : M A) (handler : exn -> M A) :
  steps R m -> (forall e, steps R (handler e)) -> steps R (try_catch m handler).
Proof.
  intros Hm Hh w. unfold run, try_catch. specialize (Hm w). unfold run in Hm.
  destruct (m w) as [[a | e] w1]; simpl in *.
  - exact Hm.
  - destruct R_preorder as [_ Htrans]. apply (Htrans _ (w_db w1)); [exact Hm|].
    apply (Hh e w1).
Qed.

Lemma steps_await {A : Type} (q : timestamp -> database -> result A * database) :
  query_steps R q -> steps R (await q).
Proof.
  intros Hq w. unfold run, await.
  destruct (hd Answers (w_oracle w)); simpl; try apply R_preorder.
  specialize (Hq (w_now w) (w_db w)). destruct (q (w_now w) (w_db w)). exact Hq.
Qed.

End Steps.

(** Walks a handler: sequencing, catching, branching; leaves the
    queries. *)
Ltac walk :=
  repeat first
    [ apply steps_ret; assumption
    | apply steps_throw; assumption
    | apply steps_console; assumption
    | apply steps_now; assumption
    | apply steps_try_catch; [assumption | | intro]
    | apply steps_bind; [assumption | | intro]
    | apply steps_await; [assumption |]
    | match goal with
      | |- steps _ (match ?x with _ => _ end) => destruct x
      | |- steps _ (if ?b then _ else _) => destruct b
      end ].

(** ** The income routes keep the tables consistent *)

Lemma keeps_income_integrity_preorder : preorder keeps_income_integrity.
Proof.
  split; unfold keeps_income_integrity.
  - intros db H. exact H.
  - intros a b c H1 H2 H. exact (H2 (H1 H)).
Qed.

Lemma kept_rows_stay_distinct {Row Key : Type} (key : Row -> Key)
  (keep : Row -> bool) (rows : list Row) :
  NoDup (map key rows) -> NoDup (map key (filter keep rows)).
Proof.
  induction rows as [|a rows IH]; simpl; intros ND; [constructor|].
  inversion ND as [|? ? Hfresh ND']; subst.
  destruct (keep a); simpl; [|now apply IH].
  constructor; [|now apply IH].
  rewrite in_map_iff. intros [x [Hx Hin]]. apply filter_In in Hin as [Hin _].
  apply Hfresh. rewrite <- Hx. now apply in_map.
Qed.

Lemma rekeyed_rows_stay_distinct {Row Key : Type} (key : Row -> Key)
  (hit : Row -> bool) (change : Row -> Row) (rows : list Row) (r : Row) (k : Key) :
  NoDup (map key rows) ->
  filter hit rows = [r] ->
  (forall x, key (change x) = k) ->
  (forall x, In x rows -> hit x = false -> key x <> k) ->
  NoDup (map key (map (fun x => if hit x then change x else x) rows)).
Proof.
  intros ND Hone Hkey Hother. revert ND Hone Hother.
  induction rows as [|a rows IH]; simpl; intros ND Hone Hother; [constructor|].
  inversion ND as [|? ? Hfresh ND']; subst.
  destruct (hit a) eqn:Ha.
  - injection Hone as _ Hrest. rewrite (map_unmatched hit change rows Hrest).
    constructor; [|assumption]. rewrite Hkey, in_map_iff.
    intros [x [Hx Hin]]. apply (Hother x); [now right | | assumption].
    apply (proj1 (filter_nil_iff hit rows) Hrest). assumption.
  - constructor.
    + rewrite in_map_iff. intros [y [Hy Hin]]. apply in_map_iff in Hin as [x [<- Hin]].
      destruct (hit x) eqn:Hx.
      * rewrite Hkey in Hy. apply (Hother a); [now left | assumption | congruence].
      * apply Hfresh. rewrite <- Hy. now apply in_map.
    + apply IH; [assumption | assumption |]. intros x Hin. apply Hother. now right.
Qed.

Lemma select_keeps_integrity {A : Type} (pick : database -> result A) :
  query_steps keeps_income_integrity (fun _ db => (pick db, db)).
Proof. intros t db H. exact H. Qed.

Lemma insert_income_category_keeps_integrity (name : jsstring) :
  query_steps keeps_income_integrity (insert_income_category_returning name).
Proof. intros t db H. exact H. Qed.

Lemma update_income_category_keeps_integrity (id : uuid) (name : jsstring)
  (updated_at : timestamp) :
  query_steps keeps_income_integrity (update_income_category_row id name updated_at).
Proof.
  intros t db [Hu [Hn Hp]]. unfold update_income_category_row.
  destruct (filter (category_id_is id) (income_categories db)) as [|r [|r' l]] eqn:F;
    simpl; try now repeat split.
  destruct (existsb _ (income_categories db)) eqn:E; simpl; [now repeat split|].
  destruct (100 <? length name); simpl; [now repeat split|].
  split; [exact Hu|]. split.
  - simpl. apply (rekeyed_rows_stay_distinct ic_name (category_id_is id)
                    (rename_income_category name updated_at) _ r name);
      try assumption; [reflexivity|].
    intros x Hx Hhit Hname.
    assert (Hex : existsb (fun y => category_name_is name y
                                    && negb (category_id_is id y))
                          (income_categories db) = true).
    { apply existsb_exists. exists x. split; [assumption|].
      unfold category_name_is. rewrite Hhit. simpl. rewrite andb_true_r.
      now apply jsstring_eqb_eq. }
    congruence.
  - intros s Hs. simpl in Hs. specialize (Hp s Hs).
    unfold income_category_exists in *. simpl. rewrite map_map.
    erewrite map_ext; [exact Hp|].
    intros x. now destruct (category_id_is id x).
Qed.

Lemma delete_income_category_keeps_integrity (id : uuid) :
  query_steps keeps_income_integrity (delete_income_category_row id).
Proof.
  intros t db [Hu [Hn Hp]]. unfold delete_income_category_row. simpl.
  split; [|split].
  - unfold unique_subcategories. simpl. now apply kept_rows_stay_distinct.
  - simpl. now apply kept_rows_stay_distinct.
  - intros s Hs. simpl in Hs. apply filter_In in Hs as [Hs Hkeep].
    specialize (Hp s Hs). unfold income_category_exists in *. simpl.
    apply in_map_iff in Hp as [cat [Hc Hin]]. apply in_map_iff. exists cat.
    split; [assumption|]. apply filter_In. split; [assumption|].
    unfold category_id_is. now rewrite Hc.
Qed.

Lemma insert_income_subcategory_keeps_integrity (category_id name : jsstring)
  (is_recurring : bool) :
  query_steps keeps_income_integrity
    (insert_income_subcategory category_id name is_recurring).
Proof.
  intros t db [Hu [Hn Hp]]. unfold insert_income_subcategory.
  destruct (existsb (category_id_is category_id) (income_categories db)) eqn:Ec;
    simpl; [|now repeat split].
  destruct (existsb (subcategory_is category_id name) (income_subcategories db))
    eqn:Es; simpl; [now repeat split|].
  destruct (100 <? length name); simpl; [now repeat split|].
  split; [|split; [exact Hn|]].
  - unfold unique_subcategories in *. simpl. rewrite map_app. simpl.
    match goal with
    | |- context [subcategory_key (mkIncomeSubcategory ?i ?c ?n ?r ?t1 ?t2)] =>
        change (subcategory_key (mkIncomeSubcategory i c n r t1 t2)) with (c, n)
    end.
    clear Hp. induction (income_subcategories db) as [|a rows IH]; simpl.
    + constructor; [intros [] | constructor].
    + simpl in Es. apply orb_false_iff in Es as [Ea Er].
      inversion Hu as [|? ? Hfresh Hu']; subst. constructor.
      * rewrite in_app_iff. intros [H | [H | []]]; [contradiction|].
        assert (subcategory_is category_id name a = true)
          by (apply subcategory_is_key; congruence).
        congruence.
      * now apply IH.
  - intros s Hs. simpl in Hs. apply in_app_or in Hs as [Hs | [<- | []]].
    + exact (Hp s Hs).
    + simpl. apply existsb_exists in Ec as [cat [Hin Hc]].
      apply jsstring_eqb_eq in Hc. unfold income_category_exists. simpl.
      rewrite <- Hc. now apply in_map.
Qed.

Lemma update_income_subcategory_keeps_integrity (id category_id : uuid)
  (name : jsstring) (is_recurring : bool) (updated_at : timestamp) :
  query_steps keeps_income_integrity
    (update_income_subcategory_row id category_id name is_recurring updated_at).
Proof.
  intros t db [Hu [Hn Hp]]. unfold update_income_subcategory_row.
  destruct (filter (subcategory_id_is id) (income_subcategories db))
    as [|r [|r' l]] eqn:F; simpl; try now repeat split.
  destruct (existsb (category_id_is category_id) (income_categories db)) eqn:Ec;
    simpl; [|now repeat split].
  destruct (existsb _ (income_subcategories db)) eqn:Es; simpl; [now repeat split|].
  destruct (100 <? length name); simpl; [now repeat split|].
  split; [|split; [exact Hn|]].
  - unfold unique_subcategories in *. simpl.
    apply (rekeyed_rows_stay_distinct subcategory_key (subcategory_id_is id)
             (rewrite_income_subcategory category_id name is_recurring updated_at)
             _ r (category_id, name));
      try assumption; [reflexivity|].
    intros x Hx Hhit Hkey.
    assert (Hex : existsb (fun y => subcategory_is category_id name y
                                    && negb (subcategory_id_is id y))
                          (income_subcategories db) = true).
    { apply existsb_exists. exists x. split; [assumption|].
      rewrite Hhit. simpl. rewrite andb_true_r. now apply subcategory_is_key. }
    congruence.
  - intros s Hs. simpl in Hs. apply in_map_iff in Hs as [x [<- Hx]].
    destruct (subcategory_id_is id x).
    + simpl. apply existsb_exists in Ec as [cat [Hin Hc]].
      apply jsstring_eqb_eq in Hc. unfold income_category_exists. simpl.
      rewrite <- Hc. now apply in_map.
    + exact (Hp x Hx).
Qed.

Lemma delete_income_subcategory_keeps_integrity (id : uuid) :
  query_steps keeps_income_integrity (delete_income_subcategory_row id).
Proof.
  intros t db [Hu [Hn Hp]]. unfold delete_income_subcategory_row. simpl.
  split; [|split; [exact Hn|]].
  - unfold unique_subcategories. simpl. now apply kept_rows_stay_distinct.
  - intros s Hs. simpl in Hs. apply filter_In in Hs as [Hs _]. exact (Hp s Hs).
Qed.

(** X5: whatever the store calls turn out to be (answered, answered
    with an error, or thrown), and whatever the request, the six
    mutating income routes leave the income tables consistent if they
    found them so: no two subcategories of one category share a name,
    no two categories share a name, and every subcategory belongs to a
    category that exists. *)
Theorem income_routes_keep_integrity (w : world) :
  income_integrity (w_db w) ->
  (forall name, income_integrity (w_db (snd (run (post_income_categories name) w))))
  /\ (forall id name,
        income_integrity (w_db (snd (run (put_income_categories id name) w))))
  /\ (forall id, income_integrity (w_db (snd (run (delete_income_category id) w))))
  /\ (forall body,
        income_integrity (w_db (snd (run (post_income_subcategories body) w))))
  /\ (forall id body,
        income_integrity (w_db (snd (run (put_income_subcategories id body) w))))
  /\ (forall id,
        income_integrity (w_db (snd (run (delete_income_subcategory id) w)))).
Proof.
  intros Hinv.
  pose proof keeps_income_integrity_preorder as P.
  assert (S1 : forall name, steps keeps_income_integrity (post_income_categories name)).
  { intros name. unfold post_income_categories, create_income_category. walk;
      first [ apply select_keeps_integrity
            | apply insert_income_category_keeps_integrity ]. }
  assert (S2 : forall id name,
             steps keeps_income_integrity (put_income_categories id name)).
  { intros id name. unfold put_income_categories, update_income_category. walk;
      first [ apply select_keeps_integrity
            | apply update_income_category_keeps_integrity ]. }
  assert (S3 : forall id, steps keeps_income_integrity (delete_income_category id)).
  { intros id. unfold delete_income_category. walk;
      first [ apply select_keeps_integrity
            | apply delete_income_category_keeps_integrity ]. }
  assert (S4 : forall body,
             steps keeps_income_integrity (post_income_subcategories body)).
  { intros body. unfold post_income_subcategories, create_income_subcategory. walk;
      first [ apply select_keeps_integrity
            | apply insert_income_subcategory_keeps_integrity ]. }
  assert (S5 : forall id body,
             steps keeps_income_integrity (put_income_subcategories id body)).
  { intros id body. unfold put_income_subcategories, update_income_subcategory. walk;
      first [ apply select_keeps_integrity
            | apply update_income_subcategory_keeps_integrity ]. }
  assert (S6 : forall id, steps keeps_income_integrity (delete_income_subcategory id)).
  { intros id. unfold delete_income_subcategory. walk;
      first [ apply select_keeps_integrity
            | apply delete_income_subcategory_keeps_integrity ]. }
  repeat split; intros;
    first [ apply S1 | apply S2 | apply S3 | apply S4 | apply S5 | apply S6 ];
    assumption.
Qed.

(** ** Updating an income subcategory *)

Lemma keyed_rows_at_most_one {Row Key : Type} (key : Row -> Key)
  (test : Row -> bool) (k : Key) (rows : list Row) :
  (forall r, test r = true -> key r = k) ->
  NoDup (map key rows) ->
  length (filter test rows) <= 1.
Proof.
  intros Htest. induction rows as [|a rows IH]; simpl; intros ND; [lia|].
  inversion ND as [|? ? Hfresh ND']; subst.
  destruct (test a) eqn:Ea; [|now apply IH].
  replace (filter test rows) with (@nil Row); [simpl; lia|].
  symmetry. apply filter_nil_iff. intros x Hx.
  destruct (test x) eqn:Ex; [|reflexivity].
  exfalso. apply Hfresh. rewrite (Htest a Ea), <- (Htest x Ex). now apply in_map.
Qed.

Lemma subcategory_id_is_key (id : uuid) (r : income_subcategory) :
  subcategory_id_is id r = true <-> isc_id r = id.
Proof. unfold subcategory_id_is. apply jsstring_eqb_eq. Qed.

(** X6: with the store answering, updating an existing income
    subcategory to a (category, name) pair that a different subcategory
    already has is refused with 409 and changes nothing; otherwise the
    update answers 200 and rewrites exactly the row with that id (its
    id and creation time are kept, updated_at becomes the request
    time), so a subcategory may always be saved under its own name. *)
Theorem income_subcategory_update_guard (id : uuid)
  (input : income_subcategory_input) (w : world) :
  nonempty id = true ->
  answering w ->
  length (isi_name input) <= 100 ->
  unique_subcategories (w_db w) ->
  NoDup (map isc_id (income_subcategories (w_db w))) ->
  In id (map isc_id (income_subcategories (w_db w))) ->
  NoDup (map ic_id (income_categories (w_db w))) ->
  income_category_exists (w_db w) (isi_category_id input) ->
  let taken :=
    exists s, In s (income_subcategories (w_db w))
              /\ isc_id s <> id
              /\ subcategory_key s = (isi_category_id input, isi_name input) in
  let rewritten :=
    rewrite_income_subcategory (isi_category_id input) (isi_name input)
                               (isi_is_recurring input) (w_now w) in
  exists r w',
    run (update_income_subcategory id input) w = (Returned r, w')
    /\ ((taken /\ r = fail_with 409 msg_subcategory_exists /\ w_db w' = w_db w)
        \/ (~ taken
            /\ status r = 200 /\ success r = true
            /\ income_subcategories (w_db w')
               = map (fun x => if subcategory_id_is id x then rewritten x else x)
                     (income_subcategories (w_db w))
            /\ (exists old, In old (income_subcategories (w_db w))
                            /\ isc_id old = id
                            /\ data r = Some (embed_parent (w_db w) (rewritten old)))
            /\ income_categories (w_db w') = income_categories (w_db w))).
Proof.
  destruct w as [db t o c n m]. destruct input as [category_id name is_recurring].
  simpl. intros Hid Ho Hlen Hu Hids Hin Hcids Hcat.
  destruct (filter_unique isc_id (subcategory_id_is id) id (income_subcategories db)
              (subcategory_id_is_key id) Hids Hin) as [old [Hold [Hoid Hoin]]].
  destruct (existing_category_row db category_id Hcids Hcat) as [cat Hc].
  pose proof (keyed_rows_at_most_one subcategory_key
                (fun r => subcategory_is category_id name r
                          && negb (subcategory_id_is id r))
                (category_id, name) (income_subcategories db)) as Hone.
  assert (Hkey : forall r, subcategory_is category_id name r
                           && negb (subcategory_id_is id r) = true ->
                           subcategory_key r = (category_id, name)).
  { intros r Hr. apply andb_true_iff in Hr as [Hr _]. now apply subcategory_is_key. }
  specialize (Hone Hkey Hu).
  unfold run, update_income_subcategory, try_catch, bind. simpl.
  rewrite Hid. simpl.
  answered. unfold select_income_subcategory_by_id. rewrite Hold.
  cbn [fst snd single map res_data ok].
  answered. unfold select_income_category. rewrite Hc.
  cbn [fst snd single map res_data ok].
  answered. unfold select_other_income_subcategory.
  destruct (filter (fun r => subcategory_is category_id name r
                             && negb (subcategory_id_is id r))
                   (income_subcategories db)) as [|x [|y l]] eqn:F;
    [| |simpl in Hone; lia].
  - cbn [fst snd single map res_data err now].
    answered. unfold update_income_subcategory_row.
    rewrite Hold, !existsb_filter, Hc, F. cbn [negb].
    replace (100 <? length name) with false by (symmetry; apply Nat.ltb_ge; lia).
    eexists _, _. split; [reflexivity|]. right. split.
    + intros [s [Hs [Hne Hk]]].
      assert (In s []) as [].
      rewrite <- F. apply filter_In. split; [assumption|].
      apply andb_true_iff. split; [now apply subcategory_is_key|].
      apply negb_true_iff. destruct (subcategory_id_is id s) eqn:E; [|reflexivity].
      apply subcategory_id_is_key in E. contradiction.
    + repeat split. exists old. repeat split; assumption.
  - cbn [fst snd single map res_data ok].
    eexists _, _. split; [reflexivity|]. left. split; [|split; reflexivity].
    assert (Hx : In x (filter (fun r => subcategory_is category_id name r
                                        && negb (subcategory_id_is id r))
                              (income_subcategories db)))
      by (rewrite F; now left).
    apply filter_In in Hx as [Hx Ht]. apply andb_true_iff in Ht as [Hk Hne].
    exists x. split; [assumption|]. split; [|now apply subcategory_is_key].
    intros E. apply subcategory_id_is_key in E. rewrite E in Hne. discriminate.
Qed.

(** ** Renaming a category type *)

Lemma id_is_key (id : uuid) (r : category_type) :
  id_is id r = true <-> ct_id r = id.
Proof. unfold id_is. apply jsstring_eqb_eq. Qed.


Lemma absent_type_filter (db : database) (id : uuid) :
  ~ In id (map ct_id (category_types db)) ->
  filter (id_is id) (category_types db) = [].
Proof.
  intros H. apply filter_nil_iff. intros x Hx.
  destruct (id_is id x) eqn:E; [|reflexivity].
  apply id_is_key in E. exfalso. apply H. rewrite <- E. now apply in_map.
Qed.


(** ** A new category type and its default categories *)

(** X8: with the store answering, creating a category type whose name
    neither a type nor an expense category has yet answers 201 and
    seeds an active expense category of the same name, with the default
    icon and no subcategories, attached to the new type; deleting the
    new type right away is therefore refused with 409 and leaves the
    store as the creation left it. *)
Theorem created_category_type_is_in_use (input : category_type_input) (w : world) :
  answering w ->
  ~ type_name_taken (w_db w) (cti_type_name input) ->
  length (cti_type_name input) <= 50 ->
  ~ category_name_taken (w_db w) (cti_type_name input) ->
  nonempty (gen_random_uuid (map ct_id (category_types (w_db w)))) = true ->
  NoDup (gen_random_uuid (map ct_id (category_types (w_db w)))
           :: map ct_id (category_types (w_db w))) ->
  exists row seeded w1 w2,
    run (create_category_type input) w
    = (Returned (mkResponse 201 true (Some "Category type created successfully")
                            (Some row)), w1)
    /\ ct_type_name row = cti_type_name input
    /\ In row (category_types (w_db w1))
    /\ In seeded (expense_categories (w_db w1))
    /\ ec_category seeded = cti_type_name input
    /\ ec_category_type_id seeded = Some (ct_id row)
    /\ ec_icon seeded = Some default_icon
    /\ ec_subcategories seeded = []
    /\ ec_is_active seeded = true
    /\ run (delete_category_type (ct_id row)) w1
       = (Returned (fail_with 409
            "Cannot delete category type that is being used by expense categories"),
          w2)
    /\ w_db w2 = w_db w1.
Proof.
  intros Hw Hfree Hlen Hnew Hid Hfresh.
  destruct w as [db t o c n m]. unfold answering in Hw. simpl in *.
  rewrite create_category_type_answered by assumption. cbv zeta.
  cbn [ct_id]. rewrite Hid.
  set (id := gen_random_uuid (map ct_id (category_types db))) in *.
  set (row := mkCategoryType id (cti_type_name input) (cti_description input) t t).
  assert (Hexp : existsb (fun r => jsstring_eqb (ec_category r) (cti_type_name input))
                         (expense_categories db) = false).
  { destruct (existsb _ (expense_categories db)) eqn:E; [|reflexivity].
    apply category_name_taken_dec in E. contradiction. }
  assert (Hrow : existsb (id_is id) (category_types db ++ [row]) = true).
  { rewrite existsb_app. simpl. unfold id_is at 2. simpl.
    rewrite jsstring_eqb_refl. apply orb_true_iff. right. reflexivity. }
  unfold insert_expense_category at 1. unfold expense_category_row.
  cbn [seed_expense_category eci_category eci_icon eci_subcategories
       eci_category_type_id eci_is_active eci_created_at eci_updated_at
       set_category_types expense_categories category_types type_exists].
  unfold insert_expense_category, expense_category_row.
  cbn [seed_expense_category eci_category eci_icon eci_subcategories
       eci_category_type_id eci_is_active eci_created_at eci_updated_at
       set_category_types expense_categories category_types type_exists].
  rewrite Hexp, Hrow. cbn [negb snd or_default].
  set (seeded := mkExpenseCategory _ _ _ _ _ _ _ _).
  set (db2 := set_expense_categories _ _).
  set (db3 := snd (insert_income_category _ _ _ _ _ db2)).
  assert (Htypes : category_types db3 = category_types db ++ [row]).
  { unfold db3, insert_income_category.
    destruct (income_category_row _ _ _ _ _ _); reflexivity. }
  assert (Hexps : expense_categories db3 = expense_categories db ++ [seeded]).
  { unfold db3, insert_income_category.
    destruct (income_category_row _ _ _ _ _ _); reflexivity. }
  assert (Hsel : filter (id_is id) (category_types db3) = [row]).
  { rewrite Htypes, filter_app. simpl. unfold id_is at 2. simpl.
    rewrite jsstring_eqb_refl.
    rewrite absent_type_filter; [reflexivity|].
    now inversion Hfresh. }
  assert (Huse : existsb (expense_uses id) (expense_categories db3) = true).
  { rewrite Hexps, existsb_app. apply orb_true_iff. right. simpl.
    unfold expense_uses, option_eqb. simpl. now rewrite jsstring_eqb_refl. }
  exists row, seeded. eexists. eexists.
  split; [reflexivity|]. split; [reflexivity|].
  split; [simpl w_db; rewrite Htypes; apply in_or_app; right; now left|].
  split; [simpl w_db; rewrite Hexps; apply in_or_app; right; now left|].
  do 5 (split; [reflexivity|]).
  unfold run, delete_category_type, try_catch, bind. cbn [ct_id row].
  rewrite Hid. cbn [negb]. cbv beta.
  answered. unfold select_type_by_id. rewrite Hsel.
  cbn [fst snd single map res_data ok].
  answered. unfold select_expense_categories_using.
  cbn [fst snd in_use res_data ok]. rewrite limit_one_nonempty, Huse.
  split; reflexivity.
Qed.

(** ** Listings *)

Lemma insert_ordered_rows {Row : Type} (column : Row -> jsstring) (r : Row)
  (rows : list Row) :
  Permutation (r :: rows) (insert_ordered column r rows).
Proof.
  induction rows as [|x rows IH]; simpl; [apply Permutation_refl|].
  destruct (jsstring_leb (column r) (column x)); [apply Permutation_refl|].
  eapply perm_trans; [apply perm_swap|]. now apply perm_skip.
Qed.

Lemma by_code_units_rows (Row : Type) (column : Row -> jsstring) (rows : list Row) :
  Permutation rows (by_code_units Row column rows).
Proof.
  unfold by_code_units.
  induction rows as [|x rows IH]; simpl; [constructor|].
  eapply perm_trans; [apply perm_skip, IH|]. apply insert_ordered_rows.
Qed.

Lemma embedded_rows (db : database) (rows : list income_subcategory) :
  map isv_row (map (embed_parent db) rows) = rows.
Proof.
  rewrite map_map. simpl. apply map_id.
Qed.

(** X9: with the store answering, the three listing routes answer 200
    and leave the store as it was.  The category types come back as
    the whole table, each row once, in the order the store gives them
    for [type_name]; the income categories as the whole table, in the
    order the store gives them for [name]; and the subcategories of an
    existing category as exactly the rows whose [category_id] is the
    requested one, in the store's order for [name], each with the id
    and name of its category embedded.  A category without
    subcategories gets the empty list with 200. *)
Theorem listings_are_complete (w : world) :
  answering w ->
  (exists listed w',
     run list_category_types w
     = (Returned (mkResponse 200 true None (Some listed)), w')
     /\ w_db w' = w_db w
     /\ Permutation (category_types (w_db w)) listed)
  /\ (exists listed w',
        run list_income_categories w
        = (Returned (mkResponse 200 true None (Some listed)), w')
        /\ w_db w' = w_db w
        /\ Permutation (income_categories (w_db w)) listed)
  /\ (forall cat,
        In cat (income_categories (w_db w)) ->
        ic_id cat <> [] ->
        NoDup (map ic_id (income_categories (w_db w))) ->
        exists views w',
          run (list_income_subcategories (ic_id cat)) w
          = (Returned (mkResponse 200 true None (Some views)), w')
          /\ w_db w' = w_db w
          /\ (forall s, In s (map isv_row views) <->
                        In s (income_subcategories (w_db w))
                        /\ isc_category_id s = ic_id cat)
          /\ length views
             = length (filter (subcategory_of (ic_id cat))
                              (income_subcategories (w_db w)))
          /\ (forall v, In v views ->
                isv_income_categories v = Some (ic_id cat, ic_name cat))
          /\ ((forall s, In s (income_subcategories (w_db w)) ->
                         isc_category_id s <> ic_id cat) -> views = [])).
Proof.
  destruct w as [db t o c n m]. simpl. intros Ho.
  split; [|split].
  { unfold run, list_category_types, try_catch, bind. answered.
    eexists _, _. split; [reflexivity|]. split; [reflexivity|].
    apply order_by_rows. }
  { unfold run, list_income_categories, try_catch, bind. answered.
    eexists _, _. split; [reflexivity|]. split; [reflexivity|].
    apply order_by_rows. }
  intros cat Hcat Hid ND. apply nonempty_eq in Hid.
  unfold run, list_income_subcategories, try_catch, bind. rewrite Hid.
  cbn [negb]. answered. unfold select_subcategories_of.
  cbn [fst snd res_error res_data ok or_default].
  fold (subcategory_of (ic_id cat)).
  pose proof (order_by_rows income_subcategory isc_name
                (filter (subcategory_of (ic_id cat)) (income_subcategories db)))
    as Hperm.
  eexists _, _. split; [reflexivity|]. split; [reflexivity|].
  rewrite embedded_rows.
  split; [|split; [|split]].
  - intros s. split.
    + intros Hs. apply (Permutation_in _ (Permutation_sym Hperm)) in Hs.
      apply filter_In in Hs as [Hs Hof]. split; [exact Hs|].
      now apply jsstring_eqb_eq.
    + intros [Hs Hof]. apply (Permutation_in _ Hperm).
      apply filter_In. split; [exact Hs|]. now apply jsstring_eqb_eq.
  - rewrite length_map. symmetry. now apply Permutation_length.
  - intros v Hv.
    apply in_map_iff in Hv as [s [<- Hs]].
    apply (Permutation_in _ (Permutation_sym Hperm)) in Hs.
    apply filter_In in Hs as [Hs Hof]. apply jsstring_eqb_eq in Hof.
    unfold embed_parent. simpl. rewrite Hof.
    assert (Hin : In (ic_id cat) (map ic_id (income_categories db)))
      by now apply in_map.
    destruct (filter_key_singleton ic_id _ _ ND Hin) as [c0 [Hrow [Hk Hc0]]].
    unfold category_id_is. rewrite Hrow.
    assert (Hsame : In cat (filter (fun r => jsstring_eqb (ic_id r) (ic_id cat))
                                   (income_categories db))).
    { apply filter_In. split; [assumption|]. now apply jsstring_eqb_eq. }
    rewrite Hrow in Hsame. destruct Hsame as [<- | []]. reflexivity.
  - intros Hnone.
    assert (E : filter (subcategory_of (ic_id cat)) (income_subcategories db) = []).
    { apply filter_nil_iff. intros x Hx.
      destruct (subcategory_of (ic_id cat) x) eqn:E; [|reflexivity].
      apply jsstring_eqb_eq in E. now elim (Hnone x Hx). }
    rewrite E in Hperm. apply Permutation_nil in Hperm.
    now rewrite E, Hperm.
Qed.

(** ** The bearer token *)

(** The token check has one of two outcomes, the same at every
    response type: a 401, with a line on the console when it is the
    token that was refused, or a pass that leaves the world alone. *)
Lemma jwtAuthMiddleware_outcomes (jwt_secret authorization : option jsstring)
  (w : world) :
  (exists msg w',
      (forall D : Type,
          run (@jwtAuthMiddleware D jwt_secret authorization) w
          = (Returned (Respond (fail_with 401 msg)), w'))
      /\ ((msg <> "Invalid or expired token" /\ w' = w)
          \/ (msg = "Invalid or expired token"
              /\ w' = logged w "JWT verification error:")))
  \/ ((forall D : Type,
         run (@jwtAuthMiddleware D jwt_secret authorization) w
         = (Returned (Next tt), w))
      /\ exists header token,
           authorization = Some header
           /\ nth_error (split_on 32 header) 1 = Some token
           /\ token <> [] /\ jwt_verify token jwt_secret = true).
Proof.
  unfold run, jwtAuthMiddleware.
  destruct authorization as [h|];
    [|left; eexists _, _; split; [reflexivity|]; left; split;
      [discriminate | reflexivity]].
  destruct (nonempty h); cbn [negb];
    [|left; eexists _, _; split; [reflexivity|]; left; split;
      [discriminate | reflexivity]].
  destruct (nth_error (split_on 32 h) 1) as [token|] eqn:E;
    [|left; eexists _, _; split; [reflexivity|]; left; split;
      [discriminate | reflexivity]].
  destruct (nonempty token) eqn:Ht; cbn [negb];
    [|left; eexists _, _; split; [reflexivity|]; left; split;
      [discriminate | reflexivity]].
  destruct (jwt_verify token jwt_secret) eqn:V.
  - right. split; [reflexivity|]. exists h, token.
    apply nonempty_eq in Ht. now repeat split.
  - left. eexists _, _. split; [reflexivity|]. right. split; reflexivity.
Qed.

(** X10: the token check of the payment routes.  Every refusal is a
    401 without data; a request passes only when the second
    space-separated piece of its Authorization header is a non-empty
    token that verifies under the secret, and passing leaves the world
    as it was.  The first piece is never looked at: whatever scheme
    word precedes the token, and whatever follows a further space, the
    outcome is that of verifying the token alone.  A refused request
    reaches neither payment handler: both routes answer the 401, the
    store is not called, and the world is untouched but for the line
    "JWT verification error:" that a token that fails to verify leaves
    on the console. *)
Theorem bearer_token_guard (jwt_secret : option jsstring) (w : world) :
  (forall (D : Type) authorization,
      exists checked w',
        run (@jwtAuthMiddleware D jwt_secret authorization) w
        = (Returned checked, w')
        /\ match checked with
           | Respond r =>
               status r = 401 /\ success r = false /\ data r = None
               /\ ((message r <> Some "Invalid or expired token" /\ w' = w)
                   \/ (message r = Some "Invalid or expired token"
                       /\ w' = logged w "JWT verification error:"))
           | Next _ =>
               w' = w
               /\ exists header token,
                    authorization = Some header
                    /\ nth_error (split_on 32 header) 1 = Some token
                    /\ token <> [] /\ jwt_verify token jwt_secret = true
           end)
  /\ (forall (D : Type) (scheme token tail : jsstring),
         ~ In 32%N scheme -> ~ In 32%N token -> token <> [] ->
         tail = [] \/ (exists rest, tail = 32%N :: rest) ->
         run (@jwtAuthMiddleware D jwt_secret
                (Some (scheme ++ 32%N :: token ++ tail))) w
         = if jwt_verify token jwt_secret
           then (Returned (Next tt), w)
           else (Returned (Respond (fail_with 401 "Invalid or expired token")),
                 logged w "JWT verification error:"))
  /\ (forall authorization key_secret body order r w',
         run (@jwtAuthMiddleware payment jwt_secret authorization) w
         = (Returned (Respond r), w') ->
         run (post_payments_verify jwt_secret key_secret authorization body) w
         = (Returned r, w')
         /\ (exists r',
               run (post_payments_create_order jwt_secret authorization order) w
               = (Returned r', w')
               /\ status r' = 401 /\ message r' = message r)
         /\ w_db w' = w_db w /\ w_calls w' = w_calls w
         /\ (w' = w \/ w' = logged w "JWT verification error:")).
Proof.
  split; [|split].
  - intros D authorization.
    destruct (jwtAuthMiddleware_outcomes jwt_secret authorization w)
      as [[msg [w' [Hrun Hlog]]] | [Hrun Hpass]].
    + eexists _, _. split; [apply Hrun|].
      cbn [status success data message fail_with].
      do 3 (split; [reflexivity|]).
      destruct Hlog as [[Hm ->] | [-> ->]]; [left | right];
        (split; [|reflexivity]); [congruence | reflexivity].
    + eexists _, _. split; [apply Hrun|]. split; [reflexivity | exact Hpass].
  - intros D scheme token tail Hs Ht Hne Htail.
    rewrite jwtAuthMiddleware_pieces by assumption.
    now destruct (jwt_verify token jwt_secret).
  - intros authorization key_secret body order r w' Hr.
    destruct (jwtAuthMiddleware_outcomes jwt_secret authorization w)
      as [[msg [w1 [Hrun Hlog]]] | [Hrun _]].
    2:{ rewrite Hrun in Hr. discriminate. }
    rewrite Hrun in Hr. injection Hr as <- <-.
    unfold post_payments_verify, post_payments_create_order.
    unfold run, bind in *. rewrite !Hrun.
    split; [reflexivity|]. split; [eexists; now repeat split|].
    destruct Hlog as [[_ ->] | [_ ->]]; repeat split; auto.
Qed.

(** ** Verifying the same order again *)

(** X11: the verify handler does not look at a payment's status.  With
    the store answering and at most one row per order id, after the
    payment of order [o] has been captured by a request with the right
    signature, a later request for the same order with a wrong
    signature answers 400 and marks that payment failed: its status is
    [failed], its payment id and signature are those of the later
    request and its [updated_at] is the later time, while its
    [verified_at] still carries the time of the capture.  Both times
    the other payment rows and the other tables are as they were, and
    no row is added or removed. *)
Theorem capture_is_not_final (key o p s p' s' : jsstring) (later : timestamp)
  (w : world) :
  answering w ->
  one_row_per_order (w_db w) ->
  o <> [] -> p <> [] -> s <> [] -> p' <> [] -> s' <> [] ->
  s = hmac_sha256_hex key (o ++ u "|" ++ p) ->
  s' <> hmac_sha256_hex key (o ++ u "|" ++ p') ->
  exists r w1 w2,
    run (verify_payment (Some key) (mkVerifyBody (JStr o) (JStr p) (JStr s))) w
    = (Returned r, w1)
    /\ status r = 200 /\ success r = true
    /\ order_rows_become o (now_captured p s (w_now w)) (w_db w) (w_db w1)
    /\ run (verify_payment (Some key) (mkVerifyBody (JStr o) (JStr p') (JStr s')))
           (at_time w1 later)
       = (Returned (fail_with 400 "Invalid signature"), w2)
    /\ order_rows_become o (now_failed p' s' later) (w_db w1) (w_db w2)
    /\ (forall row, In row (payments (w_db w2)) ->
                    pay_razorpay_order_id row = Some o ->
                    pay_status row = failed
                    /\ pay_verified_at row = Some (w_now w)
                    /\ pay_updated_at row = later)
    /\ map pay_id (payments (w_db w2)) = map pay_id (payments (w_db w)).
Proof.
  destruct w as [db t orc c n m]. unfold answering. simpl.
  intros Ho Hone Hno Hnp Hns Hnp' Hns' Hsig Hbad.
  apply one_row_per_order_unique in Hone.
  destruct (verify_payment_captures key (mkVerifyBody (JStr o) (JStr p) (JStr s))
              db t orc c n m Ho (fields_present o p s Hno Hnp Hns)
              (f_equal JStr Hsig) Hone)
    as [r [c' [Hrun [Hst Hsu]]]].
  exists r. eexists. eexists. split; [exact Hrun|].
  split; [assumption|]. split; [assumption|].
  split; [apply capture_marks|].
  unfold at_time. cbn [w_db w_now w_oracle w_console w_calls w_outbox].
  rewrite verify_payment_fails;
    [| now apply Forall_tl | now apply fields_present
     | intros E; apply Hbad; now injection E].
  split; [reflexivity|].
  cbn [w_db razorpay_order_id razorpay_payment_id razorpay_signature].
  split; [apply failure_marks|].
  cbn [set_payments payments]. split.
  - intros row Hrow Hkey. rewrite map_map in Hrow.
    apply in_map_iff in Hrow as [p0 [<- _]].
    revert Hkey. unfold update_payment_row.
    destruct (order_is (JStr o) p0) eqn:E0.
    + change (order_is (JStr o)
                (touch_payment t (mark_captured (JStr p) (JStr s) t p0)))
        with (order_is (JStr o) p0).
      rewrite E0. intros _. now repeat split.
    + rewrite E0. intros Hkey. apply order_is_string in Hkey. congruence.
  - rewrite !map_map. apply map_ext. intros p0.
    unfold update_payment_row.
    destruct (order_is (JStr o) p0);
      destruct (order_is (JStr o) _); reflexivity.
Qed.

(** ** A webhook delivered twice *)

Lemma write_text_twice (v : jsval) (old : option jsstring) :
  write_text v (write_text v old) = write_text v old.
Proof. now destruct v. Qed.

Lemma captured_by_webhook_twice (order_id : jsval) (entity : payment_entity)
  (first later : timestamp) (p : payment) :
  update_payment_row order_id (mark_captured_by_webhook entity later) later
    (update_payment_row order_id (mark_captured_by_webhook entity first) first p)
  = update_payment_row order_id (mark_captured_by_webhook entity later) later p.
Proof.
  unfold update_payment_row.
  destruct (order_is order_id p) eqn:E; [|now rewrite E].
  change (order_is order_id
            (touch_payment first (mark_captured_by_webhook entity first p)))
    with (order_is order_id p).
  rewrite E. unfold touch_payment, mark_captured_by_webhook. simpl.
  now rewrite !write_text_twice.
Qed.

(** X12: the webhook can be delivered again.  With the store
    answering, a second delivery of the same signed 'payment.captured'
    event is answered 200 and leaves the store exactly as a single
    delivery at the later time would have left it; redelivered at the
    same clock reading it changes nothing. *)
Theorem webhook_redelivery (secret : jsstring) (entity : payment_entity)
  (signature : option jsstring) (body : webhook_body) (w : world)
  (later : timestamp) :
  secret <> [] ->
  signature = Some (hmac_sha256_hex secret (JSON_stringify body)) ->
  wb_event body = JStr (u "payment.captured") ->
  truthy (webhook_order_id (wb_payload body)) = true ->
  payment_entity_of (wb_payload body) = Some entity ->
  answering w ->
  exists w1 w2 w3 w4,
    run (payments_webhook (Some secret) signature body) w = (Returned 200, w1)
    /\ run (payments_webhook (Some secret) signature body) (at_time w1 later)
       = (Returned 200, w2)
    /\ run (payments_webhook (Some secret) signature body) (at_time w later)
       = (Returned 200, w3)
    /\ w_db w2 = w_db w3
    /\ run (payments_webhook (Some secret) signature body) w1 = (Returned 200, w4)
    /\ w_db w4 = w_db w1.
Proof.
  destruct w as [db t o c n m]. unfold answering, at_time. simpl.
  intros Hs Hsig He Ht Hp Hw.
  apply nonempty_eq in Hs. apply header_matches_eq in Hsig.
  apply strict_eq_string_eq in He.
  unfold run, payments_webhook, try_catch.
  rewrite Hs, Hsig, He, Ht, Hp. simpl.
  unfold bind, now. cbn [w_now]. answered.
  eexists. eexists. eexists. eexists.
  split; [reflexivity|]. cbn [w_db w_now w_oracle w_console w_calls w_outbox].
  answered. split; [reflexivity|].
  answered. split; [reflexivity|].
  split.
  - cbn [w_db]. unfold update_payments.
    cbn [snd]. unfold set_payments.
    cbn [payments category_types expense_categories
         income_categories income_subcategories expenses].
    f_equal. rewrite map_map.
    apply map_ext. intros p. apply captured_by_webhook_twice.
  - answered. split; [reflexivity|].
    cbn [w_db]. unfold update_payments.
    cbn [snd]. unfold set_payments.
    cbn [payments category_types expense_categories
         income_categories income_subcategories expenses].
    f_equal. rewrite map_map.
    apply map_ext. intros p. apply captured_by_webhook_twice.
Qed.

(** ** What the expense categories service leaves alone *)

Lemma rows_kept_preorder : preorder rows_kept.
Proof.
  split; unfold rows_kept, same_other_tables.
  - intros db. now repeat split.
  - intros a b c [[H1 [H2 [H3 [H4 [H5 H7]]]]] H6] [[K1 [K2 [K3 [K4 [K5 K7]]]]] K6].
    repeat split; congruence.
Qed.

Lemma rows_extended_preorder : preorder rows_extended.
Proof.
  split; unfold rows_extended, same_other_tables.
  - intros db. split; [now repeat split|]. exists []. now rewrite app_nil_r.
  - intros a b c [[H1 [H2 [H3 [H4 [H5 H7]]]]] [x Hx]]
      [[K1 [K2 [K3 [K4 [K5 K7]]]]] [y Hy]].
    split; [repeat split; congruence|].
    exists (x ++ y). now rewrite Hy, Hx, app_assoc.
Qed.

Lemma select_rows_kept {A : Type} (pick : database -> result A) :
  query_steps rows_kept (fun _ db => (pick db, db)).
Proof. intros t db. apply rows_kept_preorder. Qed.

Lemma update_row_id (id : uuid) (patch : expense_category -> expense_category)
  (t : timestamp) (rows : list expense_category) :
  (forall r, ec_id (patch r) = ec_id r) ->
  map ec_id (map (update_row id patch t) rows) = map ec_id rows.
Proof.
  intros Hid. rewrite map_map. apply map_ext. intros r. unfold update_row.
  destruct (category_row_is id r); [apply Hid | reflexivity].
Qed.

Lemma update_expense_category_rows_kept (id : uuid)
  (patch : expense_category -> expense_category) :
  (forall r, ec_id (patch r) = ec_id r) ->
  query_steps rows_kept (update_expense_category id patch).
Proof.
  intros Hid t db. unfold update_expense_category, rows_kept, same_other_tables.
  simpl. rewrite update_row_id by assumption. now repeat split.
Qed.

Lemma update_returning_rows_kept (id : uuid)
  (patch : expense_category -> expense_category) :
  (forall r, ec_id (patch r) = ec_id r) ->
  query_steps rows_kept (update_expense_category_returning id patch).
Proof.
  intros Hid t db. unfold update_expense_category_returning.
  destruct (filter _ _) as [|r [|r' l]]; simpl; try apply rows_kept_preorder.
  unfold rows_kept, same_other_tables. simpl.
  rewrite update_row_id by assumption. now repeat split.
Qed.

Lemma update_category_checked_rows_kept (id : uuid) (updateData : category_update) :
  query_steps rows_kept (update_category_checked id updateData).
Proof.
  intros t db. unfold update_category_checked.
  destruct (filter _ _) as [|r [|r' l]]; simpl; try apply rows_kept_preorder.
  destruct (or_default (cu_category_type_id updateData) (ec_category_type_id r));
    [|apply rows_kept_preorder].
  repeat match goal with
         | |- rows_kept _ (snd (if ?b then _ else _)) =>
             destruct b; try apply rows_kept_preorder
         end.
  unfold rows_kept, same_other_tables. simpl.
  rewrite update_row_id by reflexivity. now repeat split.
Qed.

Lemma insert_returning_rows_extended (categoryData : expense_category_insert) :
  query_steps rows_extended (insert_expense_category_returning categoryData).
Proof.
  intros t db. unfold insert_expense_category_returning.
  destruct (expense_category_row categoryData t db) as [e|row]; simpl;
    [apply rows_extended_preorder|].
  split; [now repeat split|]. simpl. exists [ec_id row]. apply map_app.
Qed.

Lemma rewrite_subcategories_rows_kept (categoryId : uuid)
  (transform : list subcategory -> list subcategory) (m1 m2 m3 : string) :
  steps rows_kept (rewrite_subcategories categoryId transform m1 m2 m3).
Proof.
  pose proof rows_kept_preorder as P.
  unfold rewrite_subcategories, rethrow, throw_on_error. walk.
  - apply (select_rows_kept
             (fun db => single (map ec_subcategories
                                  (filter (category_row_is categoryId)
                                          (expense_categories db))))).
  - now apply update_returning_rows_kept.
Qed.

(** X13: whatever the store does (answers, answers with an error, or
    throws), and whatever the arguments, no operation of the expense
    categories service touches another table, and none removes a
    category row: after the listing operations, updateCategory (for
    update data over the columns category, icon, subcategories,
    category_type_id and is_active), deleteCategory (which only clears
    a flag) and the three subcategory operations the table holds the
    same rows id for id, and after addCategory the old rows followed by
    at most one new one. *)
Theorem service_never_removes_rows (w : world) :
  rows_kept (w_db w) (w_db (snd (run getAllCategories w)))
  /\ (forall name, rows_kept (w_db w) (w_db (snd (run (getSubcategories name) w))))
  /\ (forall id change,
        rows_kept (w_db w) (w_db (snd (run (updateCategory id change) w))))
  /\ (forall id, rows_kept (w_db w) (w_db (snd (run (deleteCategory id) w))))
  /\ (forall id sub,
        rows_kept (w_db w) (w_db (snd (run (addSubcategory id sub) w))))
  /\ (forall id name data,
        rows_kept (w_db w) (w_db (snd (run (updateSubcategory id name data) w))))
  /\ (forall id name,
        rows_kept (w_db w) (w_db (snd (run (deleteSubcategory id name) w))))
  /\ (forall data,
        rows_extended (w_db w) (w_db (snd (run (addCategory data) w)))
        /\ length (expense_categories (w_db (snd (run (addCategory data) w))))
           <= S (length (expense_categories (w_db w)))).
Proof.
  pose proof rows_kept_preorder as P.
  assert (S1 : steps rows_kept getAllCategories).
  { unfold getAllCategories, rethrow, throw_on_error. walk.
    apply (select_rows_kept
             (fun db => ok (order_by_category
                              (filter ec_is_active (expense_categories db))))). }
  assert (S2 : forall name, steps rows_kept (getSubcategories name)).
  { intros name. unfold getSubcategories. walk.
    apply (select_rows_kept
             (fun db => single (map ec_subcategories
                                  (filter (fun r => jsstring_eqb (ec_category r) name
                                                    && ec_is_active r)
                                          (expense_categories db))))). }
  assert (S3 : forall id data, steps rows_kept (updateCategory id data)).
  { intros id data. unfold updateCategory, rethrow, throw_on_error. walk.
    apply update_category_checked_rows_kept. }
  assert (S4 : forall id, steps rows_kept (deleteCategory id)).
  { intros id. unfold deleteCategory, rethrow, throw_on_error. walk.
    now apply update_expense_category_rows_kept. }
  split; [apply S1|]. split; [intros; apply S2|].
  split; [intros id change; apply S3|].
  split; [intros; apply S4|].
  split; [intros; apply rewrite_subcategories_rows_kept|].
  split; [intros; apply rewrite_subcategories_rows_kept|].
  split; [intros; apply rewrite_subcategories_rows_kept|].
  intros data. split.
  - clear P. pose proof rows_extended_preorder as P.
    assert (S5 : steps rows_extended (addCategory data)).
    { unfold addCategory, rethrow, throw_on_error. walk.
      apply insert_returning_rows_extended. }
    apply S5.
  - destruct w as [db t o c n m].
    unfold run, addCategory, rethrow, throw_on_error, try_catch, bind, await.
    cbn [w_oracle w_db w_now w_console w_calls w_outbox].
    destruct (hd Answers o); simpl; try lia.
    unfold insert_expense_category_returning.
    destruct (expense_category_row data t db); simpl; try lia.
    rewrite length_app. simpl. lia.
Qed.

(** ** Subcategories added and removed again *)

Lemma rewrite_subcategories_answered (categoryId : uuid)
  (transform : list subcategory -> list subcategory) (m1 m2 m3 : string)
  (r : expense_category)
  (db : database) (t : timestamp) (o : list outcome) (c : list string)
  (n : nat) (m : list uuid) :
  Forall (fun x => x = Answers) o ->
  filter (category_row_is categoryId) (expense_categories db) = [r] ->
  let patch := set_subcategories (transform (ec_subcategories r)) in
  run (rewrite_subcategories categoryId transform m1 m2 m3) (mkWorld db t o c n m)
  = (Returned (Some (touch_expense_category t (patch r))),
     mkWorld (set_expense_categories db
                (map (update_row categoryId patch t) (expense_categories db)))
             t (tl (tl o)) c (S (S n)) m).
Proof.
  intros Ho Hrow patch.
  unfold run, rewrite_subcategories, rethrow, try_catch, bind, throw_on_error.
  answered. unfold select_subcategories_by_id. rewrite Hrow.
  cbn [fst snd single map res_data res_error ok ret].
  answered. unfold update_expense_category_returning. rewrite Hrow.
  reflexivity.
Qed.


Lemma updated_row_found (id : uuid) (patch : expense_category -> expense_category)
  (t : timestamp) (rows : list expense_category) (r : expense_category) :
  (forall x, ec_id (patch x) = ec_id x) ->
  filter (category_row_is id) rows = [r] ->
  filter (category_row_is id) (map (update_row id patch t) rows)
  = [touch_expense_category t (patch r)].
Proof.
  intros Hid. induction rows as [|a rows IH]; simpl; [discriminate|].
  destruct (category_row_is id a) eqn:Ea; intros Hrow.
  - injection Hrow as -> Hrest.
    assert (Hu : update_row id patch t r = touch_expense_category t (patch r))
      by (unfold update_row; now rewrite Ea).
    assert (Hhit : category_row_is id (touch_expense_category t (patch r)) = true).
    { unfold category_row_is in *. simpl. now rewrite Hid. }
    rewrite Hu, Hhit. f_equal.
    change (map (update_row id patch t) rows)
      with (map (fun x => if category_row_is id x
                          then touch_expense_category t (patch x) else x) rows).
    rewrite (map_unmatched (category_row_is id)
               (fun x => touch_expense_category t (patch x)) rows Hrest).
    assumption.
  - assert (Hu : update_row id patch t a = a)
      by (unfold update_row; now rewrite Ea).
    rewrite Hu, Ea. now apply IH.
Qed.

Lemma update_row_twice (id : uuid) (first second : expense_category -> expense_category)
  (t : timestamp) (rows : list expense_category) :
  (forall x, ec_id (first x) = ec_id x) ->
  map (update_row id second t) (map (update_row id first t) rows)
  = map (update_row id (fun x => second (touch_expense_category t (first x))) t) rows.
Proof.
  intros Hid. rewrite map_map. apply map_ext. intros a. unfold update_row.
  destruct (category_row_is id a) eqn:Ea; [|now rewrite Ea].
  assert (Hhit : category_row_is id (touch_expense_category t (first a)) = true).
  { unfold category_row_is in *. simpl. now rewrite Hid. }
  now rewrite Hhit.
Qed.

Lemma the_row (id : uuid) (rows : list expense_category) (r x : expense_category) :
  filter (category_row_is id) rows = [r] ->
  In x rows -> category_row_is id x = true -> x = r.
Proof.
  intros Hrow Hx Hid.
  assert (H : In x (filter (category_row_is id) rows))
    by (apply filter_In; now split).
  rewrite Hrow in H. destruct H as [-> | []]. reflexivity.
Qed.

Lemma appended_name_filtered_out (name : jsstring) (subs : list subcategory)
  (added : subcategory) :
  sub_name added = name ->
  ~ In name (map sub_name subs) ->
  filter (fun sub => negb (jsstring_eqb (sub_name sub) name)) (subs ++ [added])
  = subs.
Proof.
  intros Hname Hfresh. rewrite filter_app. simpl.
  rewrite Hname, jsstring_eqb_refl. simpl. rewrite app_nil_r.
  induction subs as [|a subs IH]; simpl; [reflexivity|].
  destruct (jsstring_eqb (sub_name a) name) eqn:E.
  - apply jsstring_eqb_eq in E. elim Hfresh. now left.
  - simpl. f_equal. apply IH. intros H. apply Hfresh. now right.
Qed.

(** X14: adding a subcategory and deleting it again is a round trip.
    With the store answering and the category present, adding a
    subcategory whose name the list does not hold yet puts it at the
    end of the list, and deleting that name afterwards gives back the
    table as it was, but for the updated_at of that one category row. *)
Theorem subcategory_add_delete_round_trip (categoryId : uuid)
  (added : subcategory) (r : expense_category) (w : world) :
  answering w ->
  filter (category_row_is categoryId) (expense_categories (w_db w)) = [r] ->
  ~ In (sub_name added) (map sub_name (ec_subcategories r)) ->
  exists r1 w1 w2,
    run (addSubcategory categoryId added) w = (Returned (Some r1), w1)
    /\ ec_subcategories r1 = ec_subcategories r ++ [added]
    /\ run (deleteSubcategory categoryId (sub_name added)) w1
       = (Returned (Some (touch_expense_category (w_now w) r)), w2)
    /\ expense_categories (w_db w2)
       = map (update_row categoryId (fun x => x) (w_now w))
             (expense_categories (w_db w)).
Proof.
  destruct w as [db t o c n m]. unfold answering. simpl. intros Ho Hrow Hfresh.
  unfold addSubcategory, deleteSubcategory.
  rewrite rewrite_subcategories_answered with (r := r) by assumption.
  eexists _, _, _. split; [reflexivity|]. split; [reflexivity|].
  rewrite rewrite_subcategories_answered
    with (r := touch_expense_category t
                 (set_subcategories (ec_subcategories r ++ [added]) r));
    [| repeat apply Forall_tl; assumption
     | simpl; now apply updated_row_found].
  cbn [ec_subcategories touch_expense_category set_subcategories].
  rewrite appended_name_filtered_out by (reflexivity || assumption).
  split.
  - unfold touch_expense_category, set_subcategories. simpl. reflexivity.
  - cbn [w_db expense_categories set_expense_categories].
    rewrite update_row_twice by reflexivity.
    apply map_ext_in. intros x Hx. unfold update_row.
    destruct (category_row_is categoryId x) eqn:Ex; [|reflexivity].
    rewrite (the_row categoryId _ r x Hrow Hx Ex). reflexivity.
Qed.



(** ** Listing subcategories, and soft deletion undone *)

Lemma active_named_row (rows : list expense_category) (name : jsstring)
  (r : expense_category) :
  NoDup (map ec_category rows) ->
  In r rows -> ec_category r = name -> ec_is_active r = true ->
  filter (fun x => jsstring_eqb (ec_category x) name && ec_is_active x) rows = [r].
Proof.
  intros ND Hr Hname Hact.
  induction rows as [|a rows IH]; [contradiction|].
  simpl in ND. inversion ND as [|? ? Hfresh ND']; subst. simpl.
  destruct Hr as [-> | Hr].
  - rewrite jsstring_eqb_refl, Hact. simpl. f_equal.
    apply filter_nil_iff. intros x Hx.
    destruct (jsstring_eqb (ec_category x) (ec_category r)) eqn:E; [|reflexivity].
    apply jsstring_eqb_eq in E. exfalso. apply Hfresh. rewrite <- E.
    now apply in_map.
  - replace (jsstring_eqb (ec_category a) (ec_category r)) with false.
    + simpl. now apply IH.
    + symmetry. apply jsstring_eqb_neq. intros E. apply Hfresh. rewrite E.
      now apply in_map.
Qed.

(** X16: getSubcategories never fails and never writes.  Whatever the
    store does, it returns a list and leaves the store as it was, and
    a non-empty list it returns is the subcategory list of a category
    row that is active and carries the requested name.  A store error
    and an exception both give the empty list, with a line on the
    console; with the store answering, a name that no active category
    carries (an unknown name, an inactive category) gives the empty
    list, and the name of an active category gives that category's
    list. *)
Theorem getSubcategories_never_fails (categoryName : jsstring) (w : world) :
  (exists listed w',
     run (getSubcategories categoryName) w = (Returned listed, w')
     /\ w_db w' = w_db w
     /\ (listed <> [] ->
         exists r, In r (expense_categories (w_db w))
                   /\ ec_category r = categoryName
                   /\ ec_is_active r = true
                   /\ ec_subcategories r = listed))
  /\ (forall bad rest,
        bad <> Answers ->
        exists w',
          run (getSubcategories categoryName) (with_oracle w (bad :: rest))
          = (Returned [], w')
          /\ w_db w' = w_db w
          /\ w_console w'
             = w_console w ++ [match bad with
                               | Throws => "Exception in getSubcategories:"
                               | _ => "Error fetching subcategories:"
                               end])
  /\ (answering w ->
      (forall r, In r (expense_categories (w_db w)) ->
                 ec_category r = categoryName -> ec_is_active r = false) ->
      exists w',
        run (getSubcategories categoryName) w = (Returned [], w')
        /\ w_db w' = w_db w)
  /\ (answering w ->
      NoDup (map ec_category (expense_categories (w_db w))) ->
      forall r, In r (expense_categories (w_db w)) ->
                ec_category r = categoryName -> ec_is_active r = true ->
                exists w',
                  run (getSubcategories categoryName) w
                  = (Returned (ec_subcategories r), w')
                  /\ w_db w' = w_db w).
Proof.
  split; [|split; [|split]].
  - destruct w as [db t o c n m].
    unfold run, getSubcategories, try_catch, bind, await.
    cbn [w_oracle w_db w_now w_console w_calls w_outbox].
    destruct (hd Answers o); simpl.
    + destruct (filter _ (expense_categories db)) as [|r [|r' l]] eqn:F; simpl;
        eexists _, _; (split; [reflexivity|]); (split; [reflexivity|]);
        try (intros H; now elim H).
      intros _. exists r.
      assert (Hr : In r (filter (fun x => jsstring_eqb (ec_category x) categoryName
                                          && ec_is_active x)
                                (expense_categories db)))
        by (rewrite F; now left).
      apply filter_In in Hr as [Hr Ht]. apply andb_true_iff in Ht as [Hn Ha].
      apply jsstring_eqb_eq in Hn. now repeat split.
    + eexists _, _. split; [reflexivity|]. split; [reflexivity|].
      intros H. now elim H.
    + eexists _, _. split; [reflexivity|]. split; [reflexivity|].
      intros H. now elim H.
  - intros bad rest Hbad. now apply getSubcategories_swallows.
  - destruct w as [db t o c n m]. unfold answering. simpl. intros Ho Hnone.
    unfold run, getSubcategories, try_catch, bind. answered.
    unfold select_subcategories_by_name.
    replace (filter (fun x => jsstring_eqb (ec_category x) categoryName
                              && ec_is_active x) (expense_categories db))
      with (@nil expense_category).
    + eexists. split; reflexivity.
    + symmetry. apply filter_nil_iff. intros x Hx.
      destruct (jsstring_eqb (ec_category x) categoryName) eqn:E; [|reflexivity].
      apply jsstring_eqb_eq in E. now rewrite (Hnone x Hx E).
  - destruct w as [db t o c n m]. unfold answering. simpl.
    intros Ho ND r Hr Hname Hact.
    unfold run, getSubcategories, try_catch, bind. answered.
    unfold select_subcategories_by_name.
    rewrite (active_named_row _ _ r ND Hr Hname Hact).
    eexists. split; reflexivity.
Qed.

Lemma other_named_rows (id : uuid) (rows : list expense_category)
  (r : expense_category) :
  NoDup (map ec_category rows) ->
  filter (category_row_is id) rows = [r] ->
  forall x, In x rows -> ec_category x = ec_category r -> category_row_is id x = true.
Proof.
  intros ND Hrow x Hx Hname.
  assert (Hr : In r (filter (category_row_is id) rows)) by (rewrite Hrow; now left).
  apply filter_In in Hr as [Hr Hid].
  assert (x = r); [|now subst].
  clear Hrow Hid. induction rows as [|a rows IH]; [contradiction|].
  simpl in ND. inversion ND as [|? ? Hfresh ND']; subst.
  destruct Hx as [-> | Hx], Hr as [Hr | Hr]; try congruence.
  - exfalso. apply Hfresh. rewrite Hname. now apply in_map.
  - subst a. exfalso. apply Hfresh. rewrite <- Hname. now apply in_map.
  - now apply IH.
Qed.

(** X17: a soft deletion hides the category and can be undone.  With
    the store answering and category names unique (as the table
    requires), after deleteCategory on an active category its
    subcategories are no longer served (getSubcategories under its name
    gives the empty list), the row is still there, and updateCategory
    with { is_active: true } gives the table back as it was, but for
    the updated_at of that row. *)
Theorem soft_delete_can_be_undone (categoryId : uuid) (r : expense_category)
  (w : world) :
  answering w ->
  NoDup (map ec_category (expense_categories (w_db w))) ->
  filter (category_row_is categoryId) (expense_categories (w_db w)) = [r] ->
  ec_is_active r = true ->
  type_exists (w_db w) (ec_category_type_id r) = true ->
  exists w1 w2 w3,
    run (deleteCategory categoryId) w = (Returned true, w1)
    /\ run (getSubcategories (ec_category r)) w1 = (Returned [], w2)
    /\ run (updateCategory categoryId reactivate) w1
       = (Returned (Some (touch_expense_category (w_now w) r)), w3)
    /\ expense_categories (w_db w3)
       = map (update_row categoryId (fun x => x) (w_now w))
             (expense_categories (w_db w)).
Proof.
  destruct w as [db t o c n m]. unfold answering. simpl.
  intros Ho ND Hrow Hact Htype.
  assert (Hty : exists ty, ec_category_type_id r = Some ty)
    by (destruct (ec_category_type_id r); [eauto | discriminate]).
  destruct Hty as [ty Hty].
  rewrite deleteCategory_answered by assumption.
  set (rows1 := map (update_row categoryId (set_is_active false) t)
                    (expense_categories db)).
  assert (Hrow1 : filter (category_row_is categoryId) rows1
                  = [touch_expense_category t (set_is_active false r)])
    by (now apply updated_row_found).
  assert (Hnames : forall x, In x rows1 -> ec_category x = ec_category r ->
                             category_row_is categoryId x = true
                             /\ ec_is_active x = false).
  { intros x Hx Hname. apply in_map_iff in Hx as [x0 [<- Hx0]].
    unfold update_row in *.
    destruct (category_row_is categoryId x0) eqn:E0.
    - split; [|reflexivity]. unfold category_row_is in *. exact E0.
    - rewrite (other_named_rows categoryId _ r ND Hrow x0 Hx0 Hname) in E0.
      discriminate. }
  eexists _, _, _. split; [reflexivity|]. split; [|split].
  - unfold run, getSubcategories, try_catch, bind.
    rewrite await_answers by (apply Forall_tl; assumption).
    cbn [fst snd]. unfold select_subcategories_by_name.
    cbn [expense_categories set_expense_categories]. fold rows1.
    replace (filter (fun x => jsstring_eqb (ec_category x) (ec_category r)
                              && ec_is_active x) rows1)
      with (@nil expense_category); [reflexivity|].
    symmetry. apply filter_nil_iff. intros x Hx.
    destruct (jsstring_eqb (ec_category x) (ec_category r)) eqn:E; [|reflexivity].
    apply jsstring_eqb_eq in E. destruct (Hnames x Hx E) as [_ ->]. reflexivity.
  - unfold run, updateCategory, rethrow, try_catch, bind, throw_on_error.
    rewrite await_answers by (apply Forall_tl; assumption).
    cbn [fst snd]. unfold update_category_checked.
    cbn [expense_categories set_expense_categories]. fold rows1. rewrite Hrow1.
    cbn [apply_category_update reactivate cu_category cu_icon cu_subcategories
         cu_category_type_id cu_is_active or_default
         touch_expense_category set_is_active
         ec_id ec_category ec_icon ec_subcategories ec_category_type_id
         ec_is_active ec_created_at ec_updated_at].
    replace (existsb (fun x => jsstring_eqb (ec_category x) (ec_category r)
                               && negb (category_row_is categoryId x)) rows1)
      with false.
    2:{ symmetry. rewrite existsb_filter.
        replace (filter _ rows1) with (@nil expense_category); [reflexivity|].
        symmetry. apply filter_nil_iff. intros x Hx.
        destruct (jsstring_eqb (ec_category x) (ec_category r)) eqn:E;
          [|reflexivity].
        apply jsstring_eqb_eq in E. destruct (Hnames x Hx E) as [-> _].
        reflexivity. }
    replace (type_exists (set_expense_categories db rows1) (ec_category_type_id r))
      with true by (symmetry; exact Htype).
    replace (match ec_category_type_id r with Some _ => false | None => true end)
      with false by now rewrite Hty.
    rewrite jsstring_eqb_refl. cbn [negb andb fst snd res_error res_data ok ret].
    apply f_equal2; [|reflexivity]. do 2 f_equal.
    destruct r; simpl in *; subst; reflexivity.
  - cbn [w_db expense_categories set_expense_categories].
    unfold rows1. rewrite update_row_twice by reflexivity.
    apply map_ext_in. intros x Hx. unfold update_row.
    destruct (category_row_is categoryId x) eqn:Ex; [|reflexivity].
    rewrite (the_row categoryId _ r x Hrow Hx Ex).
    destruct r; simpl in *; subst; reflexivity.
Qed.

(** ** Routing in the payments edge function *)

Lemma caught_run_answers {A : Type} (m : M A) (handler : exn -> M A) (w : world) :
  (forall e w1, exists a w2, handler e w1 = (Returned a, w2)) ->
  exists a w', try_catch m handler w = (Returned a, w').
Proof.
  intros Hh. unfold try_catch. destruct (m w) as [[a | e] w1].
  - now exists a, w1.
  - apply Hh.
Qed.

Lemma edge_create_order_answers (supabaseAdmin : bool) (body : order_body)
  (w : world) :
  exists r w', edge_create_order supabaseAdmin body w = (Returned r, w').
Proof.
  apply caught_run_answers. intros e w1. eexists _, _. reflexivity.
Qed.

Lemma edge_verify_answers (supabaseAdmin : bool) (key_secret : option jsstring)
  (body : verify_body) (w : world) :
  exists r w', edge_verify supabaseAdmin key_secret body w = (Returned r, w').
Proof.
  apply caught_run_answers. intros e w1. eexists _, _. reflexivity.
Qed.

(** X18: how the payments edge function routes a request.  It always
    answers, whatever the store does.  A preflight is answered 204 and
    any method other than POST reaches only the health and not-found
    answers, all without touching the world.  Every POST on a path
    ending in /payments is taken by the create-order branch, whatever
    action the body names: a body with action 'verify' and no amount
    or userId is answered 400 "amount and userId are required" there,
    and the verify branch answers only POSTs on a path ending in
    /verify. *)
Theorem edge_routing (supabaseAdmin : bool) (key_secret : option jsstring)
  (method : http_method) (pathname : jsstring) (bodyData : edge_body) (w : world) :
  (exists a w',
      run (serve supabaseAdmin key_secret method pathname bodyData) w
      = (Returned a, w'))
  /\ (method = OPTIONS ->
      run (serve supabaseAdmin key_secret method pathname bodyData) w
      = (Returned Preflight, w))
  /\ (method <> POST -> method <> OPTIONS ->
      run (serve supabaseAdmin key_secret method pathname bodyData) w
      = (Returned (if endsWith pathname (u "/health") then Health else NotFound), w))
  /\ (method = POST -> endsWith pathname (u "/payments") = true ->
      run (serve supabaseAdmin key_secret method pathname bodyData) w
      = run (answer_with OrderAnswer
               (edge_create_order supabaseAdmin (eb_order bodyData))) w
      /\ (order_fields_missing (eb_order bodyData) = true ->
          run (serve supabaseAdmin key_secret method pathname bodyData) w
          = (Returned (OrderAnswer (fail_with 400 "amount and userId are required")),
             w)))
  /\ (forall r w',
        run (serve supabaseAdmin key_secret method pathname bodyData) w
        = (Returned (VerifyAnswer r), w') ->
        method = POST
        /\ endsWith pathname (u "/verify") = true
        /\ endsWith pathname (u "/payments") = false).
Proof.
  split; [|split; [|split; [|split]]].
  - unfold run, serve.
    destruct method; try (eexists _, _; reflexivity);
      repeat match goal with
             | |- context [if ?b then _ else _] => destruct b
             end;
      try (eexists _, _; reflexivity); unfold answer_with, bind.
    all: try (destruct (edge_create_order_answers supabaseAdmin (eb_order bodyData) w)
                as [r [w' ->]]; eexists _, _; reflexivity).
    all: destruct (edge_verify_answers supabaseAdmin key_secret
                     (eb_verify bodyData) w) as [r [w' ->]];
      eexists _, _; reflexivity.
  - intros ->. reflexivity.
  - intros Hp Ho. unfold run, serve.
    destruct method; try congruence; rewrite !andb_false_r; simpl;
      now destruct (endsWith pathname (u "/health")).
  - intros -> Hpath. unfold run, serve. rewrite Hpath. simpl. split; [reflexivity|].
    intros Hmissing. unfold answer_with, bind, edge_create_order, try_catch.
    now rewrite Hmissing.
  - intros r w'. unfold run, serve.
    destruct method; try discriminate; rewrite ?andb_false_r; simpl;
      try (destruct (endsWith pathname (u "/health")); discriminate).
    rewrite !andb_true_r.
    destruct (endsWith pathname (u "/payments")) eqn:Ep; simpl.
    { unfold answer_with, bind.
      destruct (edge_create_order _ _ w) as [[a | e] w1]; discriminate. }
    destruct (endsWith pathname (u "/create-order")) eqn:Ec; simpl.
    { unfold answer_with, bind.
      destruct (edge_create_order _ _ w) as [[a | e] w1]; discriminate. }
    destruct (endsWith pathname (u "/verify")) eqn:Ev; simpl.
    + intros _. now repeat split.
    + destruct (endsWith pathname (u "/health")); discriminate.
Qed.

(** ** Creating an order *)

Lemma insert_payment_outcome (user_id expense_id amount currency : jsval)
  (order_id : jsstring) (t : timestamp) (db : database) :
  snd (insert_payment user_id expense_id amount currency order_id t db) = db
  \/ exists p,
       snd (insert_payment user_id expense_id amount currency order_id t db)
       = set_payments db (payments db ++ [p])
       /\ res_error (fst (insert_payment user_id expense_id amount currency
                            order_id t db)) = None
       /\ pay_status p = created
       /\ pay_razorpay_order_id p = Some order_id
       /\ pay_razorpay_payment_id p = None
       /\ pay_verified_at p = None
       /\ text_of user_id = Some (pay_user_id p)
       /\ numeric_of amount = Some (pay_amount p)
       /\ text_of currency = Some (pay_currency p)
       /\ In (pay_user_id p) auth_users
       /\ ~ In (Some order_id) (map pay_razorpay_order_id (payments db)).
Proof.
  unfold insert_payment.
  destruct (text_of user_id) as [user|]; [|now left].
  destruct (numeric_of amount) as [value|]; [|now left].
  destruct (text_of currency) as [cur|]; [|now left].
  destruct (existsb (jsstring_eqb user) auth_users) eqn:Eu; [|now left].
  cbn [negb].
  destruct (match text_of expense_id with Some _ => _ | None => _ end);
    [now left|].
  destruct (100000000 <=? Z.abs value)%Z; [now left|].
  destruct (existsb _ (payments db)) eqn:Ed; [now left|].
  right. eexists. split; [reflexivity|]. repeat split.
  - apply existsb_exists in Eu as [x [Hx E]]. apply jsstring_eqb_eq in E.
    now subst.
  - intros H. apply in_map_iff in H as [p [Hp Hin]].
    assert (existsb (fun p => option_eqb (pay_razorpay_order_id p) order_id)
                    (payments db) = true); [|congruence].
    apply existsb_exists. exists p. split; [assumption|]. now apply option_eqb_eq.
Qed.

(** X19: what a create-order request comes to, in the Express route
    and in the edge function alike.  Without an amount or a userId it
    is answered 400 and nothing happens.  When the payment processor
    refuses the order it is answered 500 and the store is not called.
    When the processor creates the order and the store call does not
    throw, the answer is 200 with the order, whether or not a payment
    row could be recorded: the result of the insert is never read.  A
    row, if recorded, is the last one, has status created and carries
    the order id, the user, the amount and the currency of the request;
    for a user that auth.users does not hold nothing is recorded and
    the answer is 200 all the same. *)
Theorem create_order_outcomes (body : order_body) (w : world) :
  (order_fields_missing body = true ->
   run (create_order body) w
   = (Returned (fail_with 400 "amount and userId are required"), w)
   /\ forall admin,
        run (edge_create_order admin body) w
        = (Returned (fail_with 400 "amount and userId are required"), w))
  /\ (forall description,
        order_fields_missing body = false ->
        razorpay_orders_create body (w_now w) = inl description ->
        exists w1,
          run (create_order body) w
          = (Returned (fail_with 500 "Failed to create order"), w1)
          /\ w_db w1 = w_db w /\ w_calls w1 = w_calls w
          /\ forall admin, exists w2,
               run (edge_create_order admin body) w
               = (Returned (fail_with 500 (message_or_default description)), w2)
               /\ w_db w2 = w_db w /\ w_calls w2 = w_calls w)
  /\ (forall order,
        order_fields_missing body = false ->
        razorpay_orders_create body (w_now w) = inr order ->
        hd Answers (w_oracle w) <> Throws ->
        exists w1,
          run (create_order body) w
          = (Returned (mkResponse 200 true None (Some order)), w1)
          /\ run (edge_create_order true body) w
             = (Returned (mkResponse 200 true None (Some order)), w1)
          /\ (payments (w_db w1) = payments (w_db w)
              \/ exists p,
                   payments (w_db w1) = payments (w_db w) ++ [p]
                   /\ pay_status p = created
                   /\ pay_razorpay_order_id p = Some (ro_id order)
                   /\ text_of (ob_userId body) = Some (pay_user_id p)
                   /\ numeric_of (ob_amount body) = Some (pay_amount p)
                   /\ text_of (currency_of body) = Some (pay_currency p)
                   /\ In (pay_user_id p) auth_users)
          /\ ((forall user, text_of (ob_userId body) = Some user ->
                            ~ In user auth_users) ->
              w_db w1 = w_db w)
          /\ run (edge_create_order false body) w
             = (Returned (mkResponse 200 true None (Some order)), w)).
Proof.
  destruct w as [db t o c n m]. cbn [w_db w_now w_oracle w_calls].
  split; [|split].
  - intros Hmissing. unfold run, create_order, edge_create_order, try_catch.
    rewrite Hmissing. split; [reflexivity | intros admin; reflexivity].
  - intros description Hfields Hrefused.
    unfold run, create_order, edge_create_order, try_catch, bind, now.
    rewrite Hfields. cbn [w_now]. rewrite Hrefused.
    eexists. split; [reflexivity|]. split; [reflexivity|]. split; [reflexivity|].
    intros admin. eexists. split; [reflexivity|]. split; reflexivity.
  - intros order Hfields Hcreated Hstore.
    unfold run, create_order, edge_create_order, try_catch, bind, now.
    rewrite Hfields. cbn [w_now]. rewrite Hcreated.
    unfold await. cbn [w_oracle w_db w_now w_console w_calls w_outbox].
    destruct (hd Answers o) eqn:Ho; [| |congruence].
    + destruct (insert_payment_outcome (ob_userId body) (or_null (ob_expenseId body))
                  (ob_amount body) (currency_of body) (ro_id order) t db)
        as [Hsame | [p [Hdb [_ [H1 [H2 [_ [_ [H3 [H4 [H5 [H6 _]]]]]]]]]]]].
      * destruct (insert_payment _ _ _ _ _ t db) as [res db'] eqn:Eins.
        simpl in Hsame. subst db'. cbn [ret].
        eexists. split; [reflexivity|]. split; [reflexivity|].
        split; [now left|]. split; [reflexivity|]. reflexivity.
      * destruct (insert_payment _ _ _ _ _ t db) as [res db'] eqn:Eins.
        simpl in Hdb. subst db'. cbn [ret].
        eexists. split; [reflexivity|]. split; [reflexivity|].
        split; [right; exists p; now repeat split|]. split; [|reflexivity].
        intros Hnone. elim (Hnone (pay_user_id p) H3). assumption.
    + cbn [ret]. eexists. split; [reflexivity|]. split; [reflexivity|].
      split; [now left|]. split; reflexivity.
Qed.

(** ** From a created order to a captured payment *)

Lemma insert_payment_records (body : order_body) (order_id : jsstring)
  (t : timestamp) (db : database) :
  recordable body order_id db ->
  exists p,
    insert_payment (ob_userId body) (or_null (ob_expenseId body)) (ob_amount body)
                   (currency_of body) order_id t db
    = (done, set_payments db (payments db ++ [p]))
    /\ pay_status p = created
    /\ pay_razorpay_order_id p = Some order_id
    /\ text_of (ob_userId body) = Some (pay_user_id p)
    /\ numeric_of (ob_amount body) = Some (pay_amount p).
Proof.
  intros [[user [Hu Hauth]] [[value [Hv Hrange]] [[cur Hc] [Hexp Hfresh]]]].
  unfold insert_payment. rewrite Hu, Hv, Hc.
  replace (existsb (jsstring_eqb user) auth_users) with true.
  2:{ symmetry. apply existsb_exists. exists user. split; [assumption|].
      apply jsstring_eqb_refl. }
  cbn [negb].
  replace (match text_of (or_null (ob_expenseId body)) with
           | Some e => negb (existsb (fun x => jsstring_eqb (exp_id x) e) (expenses db))
           | None => false
           end) with false.
  2:{ symmetry. destruct (text_of (or_null (ob_expenseId body))) as [e|];
        [|reflexivity].
      destruct (Hexp e eq_refl) as [x [Hx He]].
      apply negb_false_iff, existsb_exists. exists x. split; [assumption|].
      now apply jsstring_eqb_eq. }
  replace (100000000 <=? Z.abs value)%Z with false
    by (symmetry; apply Z.leb_gt; assumption).
  replace (existsb (fun p => option_eqb (pay_razorpay_order_id p) order_id)
                   (payments db)) with false.
  2:{ symmetry. destruct (existsb _ (payments db)) eqn:E; [|reflexivity].
      apply existsb_exists in E as [p [Hp E]]. apply option_eqb_eq in E.
      elim Hfresh. rewrite <- E. now apply in_map. }
  eexists. split; [reflexivity|]. now repeat split.
Qed.

Lemma recorded_order_is_found (db : database) (order_id : jsstring) (p : payment) :
  pay_razorpay_order_id p = Some order_id ->
  ~ In (Some order_id) (map pay_razorpay_order_id (payments db)) ->
  filter (order_is (JStr order_id)) (payments db ++ [p]) = [p].
Proof.
  intros Hp Hfresh. rewrite filter_app. simpl.
  assert (Hhit : order_is (JStr order_id) p = true)
    by (unfold order_is; simpl; now apply option_eqb_eq).
  rewrite Hhit.
  replace (filter (order_is (JStr order_id)) (payments db)) with (@nil payment);
    [reflexivity|].
  symmetry. apply filter_nil_iff. intros x Hx.
  destruct (order_is (JStr order_id) x) eqn:E; [|reflexivity].
  unfold order_is in E. simpl in E. apply option_eqb_eq in E.
  elim Hfresh. rewrite <- E. now apply in_map.
Qed.

(** X20: from order to captured payment.  With the store answering
    and a request whose row the payments table accepts (the user is
    known, the amount fits, the order id is new), create-order answers
    200 and records the order as a created payment; the verify request
    the checkout sends back for that order, carrying a payment id that
    is a non-empty string and signed under the key secret (the digest
    being a non-empty string), is then answered 200 with that very
    payment: captured, verified at the request time, carrying the
    payment id and the signature of the request, and still the user
    and the amount of the order. *)
Theorem created_order_can_be_captured (key payment_id : jsstring)
  (body : order_body) (order : razorpay_order) (w : world) :
  answering w ->
  order_fields_missing body = false ->
  razorpay_orders_create body (w_now w) = inr order ->
  recordable body (ro_id order) (w_db w) ->
  ro_id order <> [] ->
  payment_id <> [] ->
  hmac_sha256_hex key (ro_id order ++ u "|" ++ payment_id) <> [] ->
  exists w1 p w2,
    run (create_order body) w
    = (Returned (mkResponse 200 true None (Some order)), w1)
    /\ run (verify_payment (Some key)
              (checkout_response key (ro_id order) payment_id)) w1
       = (Returned (mkResponse 200 true None (Some p)), w2)
    /\ In p (payments (w_db w2))
    /\ pay_status p = captured
    /\ pay_verified_at p = Some (w_now w)
    /\ pay_razorpay_order_id p = Some (ro_id order)
    /\ pay_razorpay_payment_id p = Some payment_id
    /\ pay_razorpay_signature p
       = Some (hmac_sha256_hex key (ro_id order ++ u "|" ++ payment_id))
    /\ text_of (ob_userId body) = Some (pay_user_id p)
    /\ numeric_of (ob_amount body) = Some (pay_amount p)
    /\ length (payments (w_db w2)) = S (length (payments (w_db w))).
Proof.
  destruct w as [db t o c n m]. unfold answering. simpl.
  intros Ho Hfields Hcreated Hrec Hid Hpid Hmac.
  destruct (insert_payment_records body (ro_id order) t db Hrec)
    as [row [Hins [Hst [Hord [Huser Hamount]]]]].
  destruct Hrec as [_ [_ [_ [_ Hfresh]]]].
  pose proof (recorded_order_is_found db (ro_id order) row Hord Hfresh) as Hfound.
  unfold run, create_order, try_catch, bind, now. rewrite Hfields.
  cbn [w_now]. rewrite Hcreated. answered. rewrite Hins. cbn [snd ret].
  eexists. exists (touch_payment t
                     (mark_captured (JStr payment_id)
                        (JStr (hmac_sha256_hex key
                                 (ro_id order ++ u "|" ++ payment_id)))
                        t row)).
  eexists. split; [reflexivity|].
  assert (Hpresent : missing_fields (checkout_response key (ro_id order) payment_id)
                     = false)
    by exact (fields_present (ro_id order) payment_id _ Hid Hpid Hmac).
  assert (Hv : strict_eq_string
                 (razorpay_signature (checkout_response key (ro_id order) payment_id))
                 (hmac_sha256_hex key
                    (signed_message (checkout_response key (ro_id order) payment_id)))
               = true).
  { unfold checkout_response, signed_message. simpl. apply jsstring_eqb_refl. }
  unfold verify_payment. rewrite Hpresent, Hv.
  unfold try_catch, bind, now. cbn [negb w_now].
  answered. unfold update_payments_returning.
  cbn [checkout_response razorpay_order_id razorpay_payment_id razorpay_signature
       payments set_payments].
  rewrite Hfound. cbn [fst snd res_error res_data ok ret].
  split; [reflexivity|]. cbn [w_db payments set_payments].
  split.
  - rewrite map_app. apply in_or_app. right. simpl. left.
    unfold update_payment_row.
    replace (order_is (JStr (ro_id order)) row) with true; [reflexivity|].
    symmetry. unfold order_is. simpl. now apply option_eqb_eq.
  - split; [reflexivity|]. split; [reflexivity|]. split; [exact Hord|].
    split; [reflexivity|]. split; [reflexivity|].
    split; [exact Huser|]. split; [exact Hamount|].
    rewrite length_map, length_app. simpl. lia.
Qed.

(** ** Every route answers *)

Section Ends.

Context {A : Type} (P : A -> Prop).

Lemma ends_ret (a : A) : P a -> ends P (ret a).
Proof. intros H w. exact H. Qed.

Lemma ends_throw (e : exn) : ends P (throw e).
Proof. intros w. exact I. Qed.

Lemma ends_bind {B : Type} (m : M B) (k : B -> M A) :
  (forall b, ends P (k b)) -> ends P (bind m k).
Proof.
  intros Hk w. unfold bind. destruct (m w) as [[b | e] w1]; [apply Hk | exact I].
Qed.

Lemma ends_try_catch (m : M A) (handler : exn -> M A) :
  ends P m -> (forall e, ends P (handler e)) -> ends P (try_catch m handler).
Proof.
  intros Hm Hh w. unfold try_catch. specialize (Hm w).
  destruct (m w) as [[a | e] w1]; [exact Hm | apply Hh].
Qed.

Lemma answers_ret (a : A) : P a -> always_answers P (ret a).
Proof. intros H w. now exists a, w. Qed.

Lemma answers_logged (line : string) (a : A) :
  P a -> always_answers P (console line ;;; ret a).
Proof. intros H w. eexists _, _. split; [reflexivity | exact H]. Qed.

Lemma answers_try_catch (m : M A) (handler : exn -> M A) :
  ends P m -> (forall e, always_answers P (handler e)) ->
  always_answers P (try_catch m handler).
Proof.
  intros Hm Hh w. unfold run, try_catch. specialize (Hm w).
  destruct (m w) as [[a | e] w1]; [now exists a, w1 | apply Hh].
Qed.

End Ends.

Ltac formed :=
  unfold well_formed, fail_with; cbn [status success message data];
  first [ left; split; [reflexivity | first [left; reflexivity | right; reflexivity]]
        | right; split; [reflexivity|]; split; [simpl; auto 10|];
          split; [discriminate | reflexivity] ].

(** Walks the body of a handler down to the answers it can give. *)
Ltac settle_with shaped :=
  repeat first
    [ progress cbv zeta
    | match goal with
      | |- ends _ (match ?x with _ => _ end) => destruct x
      | |- ends _ (if ?b then _ else _) => destruct b
      | |- ends _ (ret _) => apply ends_ret; shaped
      | |- ends _ (throw _) => apply ends_throw
      | |- ends _ (try_catch _ _) => apply ends_try_catch; [| intro]
      | |- ends _ (bind _ _) => apply ends_bind; intro
      end ].

Ltac settle := settle_with formed.

Ltac answer :=
  apply answers_try_catch; [settle | intro; apply answers_logged; formed].

Lemma validateCategoryType_refusal {D : Type} (body : category_type_body)
  (r : response D) :
  validateCategoryType body = Respond r -> well_formed r.
Proof.
  unfold validateCategoryType.
  destruct (ctb_type_name body); try (intros [= <-]; formed).
  repeat match goal with
         | |- context [if ?b then _ else _] => destruct b
         end; try discriminate; intros [= <-]; formed.
Qed.

Lemma validateIncomeCategory_refusal {D : Type} (name : jsval) (r : response D) :
  validateIncomeCategory name = Respond r -> well_formed r.
Proof.
  unfold validateIncomeCategory.
  destruct name; try (intros [= <-]; formed).
  repeat match goal with
         | |- context [if ?b then _ else _] => destruct b
         end; try discriminate; intros [= <-]; formed.
Qed.

Lemma validateIncomeSubcategory_refusal {D : Type} (body : income_subcategory_body)
  (r : response D) :
  validateIncomeSubcategory body = Respond r -> well_formed r.
Proof.
  unfold validateIncomeSubcategory.
  destruct (isb_category_id body); try (intros [= <-]; formed).
  destruct (negb _); try (intros [= <-]; formed).
  destruct (isb_name body); try (intros [= <-]; formed).
  destruct (_ || _); try (intros [= <-]; formed).
  destruct (_ <? _); try (intros [= <-]; formed).
  destruct (isb_is_recurring body); try discriminate; intros [= <-]; formed.
Qed.

(** A route behind the token check answers when its handler does. *)
Lemma behind_token_check {D : Type} (jwt_secret authorization : option jsstring)
  (handler : M (response D)) :
  always_answers well_formed handler ->
  always_answers well_formed
    (checked <- jwtAuthMiddleware jwt_secret authorization ;;
     match checked with
     | Respond r => ret r
     | Next _ => handler
     end).
Proof.
  intros Hh w. unfold run, bind.
  destruct (jwtAuthMiddleware_outcomes jwt_secret authorization w)
    as [[msg [w' [Hrun _]]] | [Hrun _]];
    specialize (Hrun D); unfold run in Hrun; rewrite Hrun.
  - eexists _, _. split; [reflexivity|]. formed.
  - apply Hh.
Qed.

(** X21: every route answers.  Whatever the request and whatever the
    store does on each call (answer, answer with an error, throw), the
    four category-type routes, the eight income routes, the two
    Express payment routes and the two branches of the edge function
    return a response, never an exception, and the response is well
    formed: success goes with 200 or 201, and any other answer is a
    400, 401, 404, 409 or 500 with a message and no data.  The webhook
    likewise always answers, with 200, 400 or 500. *)
Theorem every_route_answers :
  always_answers well_formed list_category_types
  /\ (forall body, always_answers well_formed (post_category_types body))
  /\ (forall id body, always_answers well_formed (put_category_types id body))
  /\ (forall id, always_answers well_formed (delete_category_type id))
  /\ always_answers well_formed list_income_categories
  /\ (forall id, always_answers well_formed (list_income_subcategories id))
  /\ (forall name, always_answers well_formed (post_income_categories name))
  /\ (forall body, always_answers well_formed (post_income_subcategories body))
  /\ (forall id name, always_answers well_formed (put_income_categories id name))
  /\ (forall id body, always_answers well_formed (put_income_subcategories id body))
  /\ (forall id, always_answers well_formed (delete_income_category id))
  /\ (forall id, always_answers well_formed (delete_income_subcategory id))
  /\ (forall jwt_secret authorization body,
        always_answers well_formed
          (post_payments_create_order jwt_secret authorization body))
  /\ (forall jwt_secret key_secret authorization body,
        always_answers well_formed
          (post_payments_verify jwt_secret key_secret authorization body))
  /\ (forall admin body, always_answers well_formed (edge_create_order admin body))
  /\ (forall admin key_secret body,
        always_answers well_formed (edge_verify admin key_secret body))
  /\ (forall webhookSecret signature body,
        always_answers (fun code => In code [200; 400; 500])
          (payments_webhook webhookSecret signature body)).
Proof.
  repeat split; intros.
  - unfold list_category_types. answer.
  - unfold post_category_types.
    destruct (validateCategoryType body) as [r | input] eqn:V.
    + apply answers_ret. now apply validateCategoryType_refusal in V.
    + unfold create_category_type. answer.
  - unfold put_category_types.
    destruct (validateCategoryType body) as [r | input] eqn:V.
    + apply answers_ret. now apply validateCategoryType_refusal in V.
    + unfold update_category_type. answer.
  - unfold delete_category_type. answer.
  - unfold list_income_categories. answer.
  - unfold list_income_subcategories. answer.
  - unfold post_income_categories.
    destruct (validateIncomeCategory name) as [r | input] eqn:V.
    + apply answers_ret. now apply validateIncomeCategory_refusal in V.
    + unfold create_income_category. answer.
  - unfold post_income_subcategories.
    destruct (validateIncomeSubcategory body) as [r | input] eqn:V.
    + apply answers_ret. now apply validateIncomeSubcategory_refusal in V.
    + unfold create_income_subcategory. answer.
  - unfold put_income_categories.
    destruct (validateIncomeCategory name) as [r | input] eqn:V.
    + apply answers_ret. now apply validateIncomeCategory_refusal in V.
    + unfold update_income_category. answer.
  - unfold put_income_subcategories.
    destruct (validateIncomeSubcategory body) as [r | input] eqn:V.
    + apply answers_ret. now apply validateIncomeSubcategory_refusal in V.
    + unfold update_income_subcategory. answer.
  - unfold delete_income_category. answer.
  - unfold delete_income_subcategory. answer.
  - unfold post_payments_create_order. apply behind_token_check.
    unfold create_order. answer.
  - unfold post_payments_verify. apply behind_token_check.
    unfold verify_payment. answer.
  - unfold edge_create_order. answer.
  - unfold edge_verify. answer.
  - unfold payments_webhook.
    apply answers_try_catch.
    + settle_with ltac:(simpl; auto 10).
    + intro. apply answers_logged. simpl. auto 10.
Qed.

(** ** Renaming an income category *)

Lemma rewritten_row_found {Row : Type} (hit : Row -> bool) (change : Row -> Row)
  (rows : list Row) (r : Row) :
  (forall x, hit (change x) = hit x) ->
  filter hit rows = [r] ->
  filter hit (map (fun x => if hit x then change x else x) rows) = [change r].
Proof.
  intros Hhit. induction rows as [|a rows IH]; simpl; [discriminate|].
  destruct (hit a) eqn:Ea; intros Hrow.
  - injection Hrow as -> Hrest. rewrite Hhit, Ea. f_equal.
    rewrite (map_unmatched hit change rows Hrest). assumption.
  - rewrite Ea. now apply IH.
Qed.

Lemma category_id_is_key (id : uuid) (r : income_category) :
  category_id_is id r = true <-> ic_id r = id.
Proof. unfold category_id_is. apply jsstring_eqb_eq. Qed.

(** X22: renaming an income category.  With the store answering and an
    existing category, a name that a different category already has
    is refused with 409 and nothing changes; otherwise the answer is
    200, the category keeps its id, no subcategory row is touched, and
    the subcategories stay attached: listing the subcategories of the
    category afterwards gives the same rows as before, each now
    embedding the new name. *)
Theorem income_category_rename (id : uuid) (name : jsstring) (w : world) :
  nonempty id = true ->
  answering w ->
  length name <= 100 ->
  NoDup (map ic_id (income_categories (w_db w))) ->
  NoDup (map ic_name (income_categories (w_db w))) ->
  In id (map ic_id (income_categories (w_db w))) ->
  let taken :=
    exists x, In x (income_categories (w_db w))
              /\ ic_id x <> id /\ ic_name x = name in
  exists r w',
    run (update_income_category id name) w = (Returned r, w')
    /\ ((taken
         /\ r = fail_with 409 "Income category with this name already exists"
         /\ w_db w' = w_db w)
        \/ (~ taken
            /\ status r = 200 /\ success r = true
            /\ (exists old, In old (income_categories (w_db w))
                            /\ ic_id old = id
                            /\ data r = Some (rename_income_category name (w_now w) old))
            /\ map ic_id (income_categories (w_db w'))
               = map ic_id (income_categories (w_db w))
            /\ income_subcategories (w_db w') = income_subcategories (w_db w)
            /\ exists views w'',
                 run (list_income_subcategories id) w'
                 = (Returned (mkResponse 200 true None (Some views)), w'')
                 /\ map isv_row views
                    = order_by isc_name
                        (filter (subcategory_of id) (income_subcategories (w_db w)))
                 /\ forall v, In v views ->
                              isv_income_categories v = Some (id, name))).
Proof.
  destruct w as [db t o c n m]. unfold answering. simpl.
  intros Hid Ho Hlen Hids Hnames Hin.
  destruct (filter_unique ic_id (category_id_is id) id (income_categories db)
              (category_id_is_key id) Hids Hin) as [old [Hold [Hoid Hoin]]].
  pose proof (keyed_rows_at_most_one ic_name
                (fun r => category_name_is name r && negb (category_id_is id r))
                name (income_categories db)) as Hone.
  assert (Hkey : forall r, category_name_is name r && negb (category_id_is id r) = true
                           -> ic_name r = name).
  { intros r Hr. apply andb_true_iff in Hr as [Hr _]. now apply jsstring_eqb_eq. }
  specialize (Hone Hkey Hnames).
  unfold run, update_income_category, try_catch, bind. rewrite Hid. cbn [negb].
  answered. unfold select_income_category. rewrite Hold.
  cbn [fst snd single map res_data ok].
  answered. unfold select_other_income_category.
  destruct (filter (fun r => category_name_is name r && negb (category_id_is id r))
                   (income_categories db)) as [|x [|y l]] eqn:F;
    [| |simpl in Hone; lia].
  - cbn [fst snd single map res_data err now].
    answered. unfold update_income_category_row.
    rewrite Hold, !existsb_filter, F.
    replace (100 <? length name) with false by (symmetry; apply Nat.ltb_ge; lia).
    cbn [fst snd res_error res_data ok ret w_now].
    eexists _, _. split; [reflexivity|]. right. split.
    { intros [s [Hs [Hne Hk]]].
      assert (In s []) as [].
      rewrite <- F. apply filter_In. split; [assumption|].
      apply andb_true_iff. split; [now apply jsstring_eqb_eq|].
      apply negb_true_iff. destruct (category_id_is id s) eqn:E; [|reflexivity].
      apply category_id_is_key in E. contradiction. }
    split; [reflexivity|]. split; [reflexivity|].
    split; [exists old; now repeat split|]. split.
    { simpl. rewrite map_map. apply map_ext. intros a.
      now destruct (category_id_is id a). }
    split; [reflexivity|].
    unfold list_income_subcategories, try_catch, bind. rewrite Hid. cbn [negb].
    rewrite await_answers by (repeat apply Forall_tl; assumption).
    cbn [fst snd]. unfold select_subcategories_of.
    cbn [fst snd res_error res_data ok or_default ret
         income_subcategories income_categories set_income_categories].
    eexists _, _. split; [reflexivity|]. split; [apply embedded_rows|].
    intros v Hv. apply in_map_iff in Hv as [s [<- Hs]].
    apply (Permutation_in _ (Permutation_sym (order_by_rows _ isc_name _))) in Hs.
    apply filter_In in Hs as [Hs Hof]. apply jsstring_eqb_eq in Hof.
    unfold embed_parent. cbn [isv_income_categories income_categories
                              set_income_categories].
    rewrite Hof.
    rewrite (rewritten_row_found (category_id_is id)
               (rename_income_category name t) (income_categories db) old);
      [now rewrite <- Hoid | reflexivity | assumption].
  - cbn [fst snd single map res_data ok].
    eexists _, _. split; [reflexivity|]. left. split; [|split; reflexivity].
    assert (Hx : In x (filter (fun r => category_name_is name r
                                        && negb (category_id_is id r))
                              (income_categories db)))
      by (rewrite F; now left).
    apply filter_In in Hx as [Hx Ht]. apply andb_true_iff in Ht as [Hk Hne].
    exists x. split; [assumption|]. split; [|now apply jsstring_eqb_eq].
    intros E. apply category_id_is_key in E. rewrite E in Hne. discriminate.
Qed.

(** ** An income subcategory created and deleted again *)

Lemma absent_subcategory_filter (id : uuid) (rows : list income_subcategory) :
  ~ In id (map isc_id rows) -> filter (subcategory_id_is id) rows = [].
Proof.
  intros H. apply filter_nil_iff. intros x Hx.
  destruct (subcategory_id_is id x) eqn:E; [|reflexivity].
  apply subcategory_id_is_key in E. elim H. rewrite <- E. now apply in_map.
Qed.

Lemma others_all_kept (id : uuid) (rows : list income_subcategory) :
  ~ In id (map isc_id rows) ->
  filter (fun r => negb (subcategory_id_is id r)) rows = rows.
Proof.
  intros H. induction rows as [|a rows IH]; simpl; [reflexivity|].
  destruct (subcategory_id_is id a) eqn:E.
  - apply subcategory_id_is_key in E. elim H. now left.
  - simpl. f_equal. apply IH. intros Hin. apply H. now right.
Qed.

(** X23: creating an income subcategory and deleting it again is a
    round trip.  With the store answering, an existing category, a
    name that is new under it, a fresh row id and income records that
    refer to existing rows only (as their foreign keys require), the
    create answers 201 with the new row (category and name as
    requested, the id the store generated), and deleting that id
    answers 200 and leaves every table, the income records included,
    exactly as it was before the create. *)
Theorem income_subcategory_round_trip (input : income_subcategory_input) (w : world) :
  answering w ->
  length (isi_name input) <= 100 ->
  NoDup (map ic_id (income_categories (w_db w))) ->
  income_references_hold (w_db w) ->
  income_category_exists (w_db w) (isi_category_id input) ->
  ~ has_subcategory (w_db w) (isi_category_id input) (isi_name input) ->
  nonempty (gen_random_uuid (map isc_id (income_subcategories (w_db w)))) = true ->
  ~ In (gen_random_uuid (map isc_id (income_subcategories (w_db w))))
       (map isc_id (income_subcategories (w_db w))) ->
  exists view w1 w2,
    run (create_income_subcategory input) w
    = (Returned (mkResponse 201 true (Some "Income subcategory created successfully")
                            (Some view)), w1)
    /\ isc_category_id (isv_row view) = isi_category_id input
    /\ isc_name (isv_row view) = isi_name input
    /\ isc_is_recurring (isv_row view) = isi_is_recurring input
    /\ In (isv_row view) (income_subcategories (w_db w1))
    /\ run (delete_income_subcategory (isc_id (isv_row view))) w1
       = (Returned (mkResponse 200 true
                      (Some "Income subcategory deleted successfully") None), w2)
    /\ w_db w2 = w_db w.
Proof.
  destruct w as [db t o c n m]. destruct input as [category_id name is_recurring].
  unfold answering. simpl. intros Ho Hlen Hcids Hrefs Hcat Hnew Hid Hfresh.
  destruct (existing_category_row db category_id Hcids Hcat) as [cat Hc].
  pose proof (no_subcategory_filter db category_id name Hnew) as Hnone.
  rewrite (create_income_subcategory_inserts db t o c n m category_id name
             is_recurring cat Ho Hc Hnone Hlen).
  set (id := gen_random_uuid (map isc_id (income_subcategories db))) in *.
  set (row := mkIncomeSubcategory id category_id name is_recurring t t).
  eexists _, _, _. split; [reflexivity|].
  cbn [isv_row embed_parent isc_category_id isc_name isc_is_recurring isc_id row].
  do 3 (split; [reflexivity|]).
  split; [simpl; apply in_or_app; right; now left|].
  unfold run, delete_income_subcategory, try_catch, bind. rewrite Hid. cbn [negb].
  rewrite await_answers by (repeat apply Forall_tl; assumption).
  cbn [fst snd]. unfold select_income_subcategory_id.
  cbn [income_subcategories set_income_subcategories].
  assert (Hsel : filter (subcategory_id_is id) (income_subcategories db ++ [row])
                 = [row]).
  { rewrite filter_app, (absent_subcategory_filter id _ Hfresh). simpl.
    unfold subcategory_id_is. simpl. now rewrite jsstring_eqb_refl. }
  rewrite Hsel. cbn [fst snd single map res_data ok].
  rewrite await_answers by (repeat apply Forall_tl; assumption).
  cbn [fst snd res_error done delete_income_subcategory_row].
  split; [reflexivity|]. cbn [w_db].
  unfold set_incomes, set_income_subcategories.
  cbn [category_types expense_categories income_categories income_subcategories
       payments expenses incomes].
  rewrite Hsel.
  assert (Hinc : map (release_income [] (map isc_id [row]) t) (incomes db)
                 = incomes db).
  { rewrite <- (map_id (incomes db)) at 2. apply map_ext_in. intros i Hi.
    unfold release_income.
    replace (gone [] (inc_category_id i)) with false
      by (now destruct (inc_category_id i)).
    replace (gone (map isc_id [row]) (inc_subcategory_id i)) with false;
      [reflexivity|].
    symmetry. destruct (gone _ _) eqn:G; [|reflexivity].
    apply gone_iff in G as [s [Hs [<- | []]]].
    elim Hfresh. now apply (proj2 (Hrefs i Hi)). }
  rewrite Hinc.
  rewrite filter_app, (others_all_kept id _ Hfresh). simpl.
  unfold subcategory_id_is. simpl. rewrite jsstring_eqb_refl. simpl.
  rewrite app_nil_r. now destruct db.
Qed.

End Backend.

(** * Worked instances *)

Lemma sample_orders_unique : one_row_per_order sample_db.
Proof.
  intros i j a b o Hi Hj _ _.
  destruct i as [|[|i]], j as [|[|j]]; simpl in *; try discriminate; reflexivity.
Qed.

Lemma sample_bearer :
  bearer toy_jwt_verify (Some (u "s3cret")) (Some (u "Bearer s3cret")).
Proof.
  exists (u "s3cret"). split; [reflexivity|]. split; [discriminate|].
  split; [|reflexivity].
  cbv. intros H. repeat (destruct H as [H | H]; [discriminate|]). exact H.
Qed.

(** C1 at the request for [order_1] signed under the key ["key"], with
    the bearer token accepted: the Express route answers 200, the edge
    function 500, and both capture the payment. *)
Lemma payment_verification_witness :
  answering sample_world
  /\ bearer toy_jwt_verify (Some (u "s3cret")) (Some (u "Bearer s3cret"))
  /\ one_row_per_order (w_db sample_world)
  /\ payers_known (w_db sample_world)
  /\ order_recorded (w_db sample_world) (u "order_1")
  /\ (exists r w',
        run (post_payments_verify decimal toy_hmac toy_jwt_verify
               (Some (u "s3cret")) (Some (u "key")) (Some (u "Bearer s3cret"))
               signed_body) sample_world
        = (Returned r, w')
        /\ status r = 200 /\ success r = true
        /\ order_rows_become (u "order_1")
             (now_captured (u "pay_1") (toy_hmac (u "key") (u "order_1|pay_1"))
                           sample_time)
             (w_db sample_world) (w_db w'))
  /\ (exists w',
        run (edge_verify decimal toy_hmac true (Some (u "key")) signed_body)
            sample_world
        = (Returned (fail_with 500 "sendPaymentConfirmationEmail is not defined"), w')
        /\ order_rows_become (u "order_1")
             (now_captured (u "pay_1") (toy_hmac (u "key") (u "order_1|pay_1"))
                           sample_time)
             (w_db sample_world) (w_db w')).
Proof.
  assert (A : answering sample_world) by constructor.
  assert (P : payers_known (w_db sample_world)).
  { intros r [<- | []]. discriminate. }
  assert (R : order_recorded (w_db sample_world) (u "order_1")).
  { exists order_payment. split; [simpl; auto | reflexivity]. }
  split; [exact A|]. split; [exact sample_bearer|].
  split; [exact sample_orders_unique|]. split; [exact P|]. split; [exact R|].
  destruct (payment_verification decimal toy_hmac toy_jwt_verify
              (Some (u "s3cret")) (Some (u "Bearer s3cret")) (Some (u "key"))
              (u "key") (u "order_1") (u "pay_1")
              (toy_hmac (u "key") (u "order_1|pay_1")) sample_world
              A sample_bearer ltac:(discriminate) ltac:(discriminate)
              ltac:(discriminate) sample_orders_unique P)
    as [Hexpress [_ [_ [Hedge _]]]].
  split; [exact (Hexpress eq_refl) | exact (Hedge eq_refl R)].
Defined.

(** C2 at the type [t1], which the income category Salary references. *)
Lemma delete_category_type_guard_witness :
  nonempty (u "t1") = true
  /\ In (u "t1") (map ct_id (category_types (w_db sample_world)))
  /\ exists r w',
       run (delete_category_type (u "t1")) sample_world = (Returned r, w')
       /\ ((referenced (w_db sample_world) (u "t1")
            /\ status r = 409 /\ success r = false
            /\ w_db w' = w_db sample_world)
           \/ (~ referenced (w_db sample_world) (u "t1")
               /\ status r = 200 /\ success r = true
               /\ w_db w' = without_type (w_db sample_world) (u "t1")
               /\ ~ In (u "t1") (map ct_id (category_types (w_db w'))))).
Proof.
  split; [reflexivity|]. split; [simpl; auto|].
  apply (delete_category_type_guard (u "t1") sample_world).
  - reflexivity.
  - constructor.
  - simpl. constructor; [intros [] | constructor].
  - simpl. auto.
Defined.

(** C3 at the categories Salary ([i1]) and Business ([i2]) and the name
    [" Bonus "], which validation trims. *)
Lemma income_subcategory_unique_per_category_witness :
  income_category_exists (w_db sample_world) (u "i1")
  /\ trim (u " Bonus ") = u "Bonus"
  /\ (~ has_subcategory (w_db sample_world) (u "i1") (trim (u " Bonus ")) ->
      exists r1 w1 w2,
        run (post_income_subcategories counter_uuid
               (subcategory_request (u "i1") (u " Bonus ") false)) sample_world
        = (Returned r1, w1)
        /\ status r1 = 201 /\ success r1 = true
        /\ has_subcategory (w_db w1) (u "i1") (trim (u " Bonus "))
        /\ length (income_subcategories (w_db w1))
           = S (length (income_subcategories (w_db sample_world)))
        /\ run (post_income_subcategories counter_uuid
                  (subcategory_request (u "i1") (u " Bonus ") true)) w1
           = (Returned (fail_with 409 msg_subcategory_exists), w2)
        /\ w_db w2 = w_db w1).
Proof.
  split; [unfold income_category_exists; simpl; auto|]. split; [reflexivity|].
  apply (income_subcategory_unique_per_category counter_uuid sample_world
           (u "i1") (u "i2") (u " Bonus ") false true).
  - constructor.
  - simpl. constructor.
    + intros [H | []]. discriminate.
    + constructor; [intros [] | constructor].
  - constructor.
  - unfold income_category_exists. simpl. auto.
  - discriminate.
  - discriminate.
  - simpl. lia.
Defined.

(** C4 at its failing input: the type name "Food" is new, an expense
    category named "Food" exists already. *)
Lemma seeding_failure_is_not_logged_witness :
  category_name_taken (w_db sample_world) (cti_type_name food_type_input)
  /\ exists r row w',
       run (create_category_type counter_uuid food_type_input) sample_world
       = (Returned r, w')
       /\ status r = 201 /\ success r = true /\ data r = Some row
       /\ category_types (w_db w') = category_types (w_db sample_world) ++ [row]
       /\ expense_categories (w_db w') = expense_categories (w_db sample_world)
       /\ w_console w' = w_console sample_world.
Proof.
  assert (T : category_name_taken (w_db sample_world) (cti_type_name food_type_input)).
  { exists food_category. split; [simpl; auto | reflexivity]. }
  split; [exact T|].
  apply (seeding_failure_is_not_logged counter_uuid food_type_input sample_world).
  - constructor.
  - intros [r [[<- | []] E]]. discriminate.
  - simpl. lia.
  - exact T.
Defined.

(** C6 at the category [c1]. *)
Lemma deleteCategory_is_soft_witness :
  answering sample_world
  /\ exists w',
       run (deleteCategory (u "c1")) sample_world = (Returned true, w')
       /\ Forall2 (soft_delete_of (u "c1") (w_now sample_world))
                  (expense_categories (w_db sample_world))
                  (expense_categories (w_db w'))
       /\ same_other_tables (w_db sample_world) (w_db w')
       /\ exists listing w'',
            run getAllCategories w' = (Returned listing, w'')
            /\ forall r, In r listing -> ec_id r <> u "c1".
Proof.
  assert (A : answering sample_world) by constructor.
  split; [exact A|].
  apply (deleteCategory_is_soft (u "c1") sample_world). exact A.
Defined.

(** The row of [c1] after the soft delete carries the time of the
    request in [updated_at]: C6, as worded, does not hold. *)
Lemma soft_delete_touches_updated_at :
  exists w',
    run (deleteCategory (u "c1")) sample_world = (Returned true, w')
    /\ ~ Forall2 (only_flag_cleared (u "c1"))
                 (expense_categories (w_db sample_world))
                 (expense_categories (w_db w')).
Proof.
  eexists. split; [reflexivity|]. simpl. intros H.
  inversion H as [|? ? ? ? Hrow _]; subst.
  unfold only_flag_cleared in Hrow. discriminate.
Qed.

(** C7 at the category [c1], whose list holds the single name Rent. *)
Lemma subcategory_operations_keep_names_unique_witness :
  subcategory_names_unique (w_db sample_world)
  /\ (forall name,
        subcategory_names_unique
          (w_db (snd (run (deleteSubcategory (u "c1") name) sample_world)))).
Proof.
  assert (I : subcategory_names_unique (w_db sample_world)).
  { intros r [<- | []]. simpl. constructor; [intros [] | constructor]. }
  split; [exact I|].
  apply (subcategory_operations_keep_names_unique (u "c1") sample_world). exact I.
Defined.

(** Adding a second subcategory named Rent to [c1] succeeds and leaves
    the name twice in the list: C7, as worded, does not hold. *)
Lemma addSubcategory_duplicates_name :
  subcategory_names_unique (w_db sample_world)
  /\ ~ subcategory_names_unique
         (w_db (snd (run (addSubcategory (u "c1") rent) sample_world))).
Proof.
  split.
  - intros r [<- | []]. simpl. constructor; [intros [] | constructor].
  - intros H. specialize (H _ (or_introl eq_refl)). simpl in H.
    inversion H as [|? ? Hnotin _]; subst. apply Hnotin. now left.
Qed.

(** C8 at a new category Travel given with an icon and one
    subcategory. *)
Lemma addCategory_contract_witness :
  eci_category stocked_category = Some (u "Travel")
  /\ ~ category_name_taken (w_db sample_world) (u "Travel")
  /\ type_exists (w_db sample_world) (eci_category_type_id stocked_category) = true
  /\ (exists row w',
        run (addCategory counter_uuid stocked_category) sample_world
        = (Returned (Some row), w')
        /\ expense_categories (w_db w')
           = expense_categories (w_db sample_world) ++ [row]
        /\ same_other_tables (w_db sample_world) (w_db w')
        /\ ec_category row = u "Travel"
        /\ ec_icon row = eci_icon stocked_category
        /\ ec_subcategories row
           = or_default (eci_subcategories stocked_category) []).
Proof.
  assert (Hfree : ~ category_name_taken (w_db sample_world) (u "Travel")).
  { intros [r [[<- | []] H]]. discriminate. }
  split; [reflexivity|]. split; [exact Hfree|]. split; [reflexivity|].
  apply (proj2 (addCategory_contract counter_uuid stocked_category (u "Travel")
                  sample_world ltac:(constructor) eq_refl)).
  - exact Hfree.
  - reflexivity.
Defined.

(** The category created from [stocked_category] starts with the given
    icon and a non-empty subcategory list: C8, as worded, does not
    hold. *)
Lemma addCategory_keeps_given_list :
  exists row w',
    run (addCategory counter_uuid stocked_category) sample_world
    = (Returned (Some row), w')
    /\ ec_subcategories row <> []
    /\ ec_icon row <> Some default_icon
    /\ ec_icon row <> None.
Proof.
  eexists _, _. split; [reflexivity|]. simpl. repeat split; discriminate.
Qed.

(** C9 at a store whose next call answers with an error: the listing
    of the category types answers 500 and logs, the service rethrows. *)
Lemma storage_error_policy_witness :
  ReturnsError <> Answers
  /\ surfaces (list_category_types by_code_units) sample_world [] ReturnsError []
       "Failed to fetch category types" "Error fetching category types:"
       "Error in category types route:"
  /\ (forall id o1 o2 o3,
        surfaces (delete_category_type id) sample_world [o1; o2; o3] ReturnsError []
          "Failed to delete category type" "Error deleting category type:"
          "Error in delete category type route:")
  /\ (forall categoryId,
        rethrows (deleteCategory categoryId) sample_world [] ReturnsError []
          "Error deleting category:" "Exception in deleteCategory:").
Proof.
  assert (B : ReturnsError <> Answers) by discriminate.
  split; [exact B|].
  destruct (storage_error_policy counter_uuid decimal toy_hmac toy_stringify
              by_code_units known_users toy_parse_numeric
              (fun body => toy_orders_create (u "INR") (ob_amount body))
              ReturnsError [] sample_world B)
    as [[Hlist [_ [_ Hdelete]]] [_ [_ [[_ [_ [_ Hservice]]] _]]]].
  split; [exact Hlist|]. split; [exact Hdelete | exact Hservice].
Defined.

(** The verify handler answers success to a correctly signed request
    although its update of the payment row came back with an error:
    C9, as worded, does not hold. *)
Lemma verify_answers_success_on_storage_error :
  swallowed (verify_payment decimal toy_hmac (Some (u "key")) signed_body)
            (with_oracle sample_world [ReturnsError])
  /\ ~ refused (verify_payment decimal toy_hmac (Some (u "key")) signed_body)
               (with_oracle sample_world [ReturnsError]).
Proof.
  split.
  - eexists _, _. split; [reflexivity|]. split; reflexivity.
  - intros [r [w' [Hrun Hs]]]. vm_compute in Hrun.
    injection Hrun as <- _. discriminate.
Qed.

(** A store that fails while a category type is being deleted: the
    type exists and nothing references it, the delete itself comes
    back with an error, and the answer is the 500 of the route, logged. *)
Example delete_type_store_error_run :
  let db := set_income_categories (set_expense_categories sample_db []) [] in
  run (delete_category_type (u "t1"))
      (with_oracle (calm db sample_time) [Answers; Answers; Answers; ReturnsError])
  = (Returned (fail_with 500 "Failed to delete category type"),
     mkWorld db sample_time [] ["Error deleting category type:"] 4 []).
Proof. reflexivity. Qed.

(** The same failure while an order is created: the order is answered
    with 200 although no payment row was written. *)
Example create_order_store_error_run :
  run (create_order counter_uuid decimal known_users toy_parse_numeric
         (fun body => toy_orders_create (u "INR") (ob_amount body)) lunch_order)
      (with_oracle sample_world [ReturnsError])
  = (Returned (mkResponse 200 true None
                 (Some (mkRazorpayOrder (u "order_" ++ sample_time) 125000
                                        (u "INR")))),
     mkWorld sample_db sample_time [] [] 1 []).
Proof. reflexivity. Qed.

(** C10 at the event [captured_event] sent with a space after every
    colon: the header that is the HMAC of the body as sent is answered
    400 and the payment stays as it was; the header that is the HMAC of
    the text the handler builds is answered 200 and the payment is
    captured. *)
Lemma webhook_guard_witness :
  toy_hmac (u "whsec") (wr_text captured_request)
  <> toy_hmac (u "whsec") (toy_stringify (wr_body captured_request))
  /\ run (post_payments_webhook decimal toy_hmac toy_stringify (Some (u "whsec"))
            captured_request) sample_world
     = (Returned 400, sample_world)
  /\ (exists w',
        run (post_payments_webhook decimal toy_hmac toy_stringify
               (Some (u "whsec")) restated_request) sample_world
        = (Returned 200, w')
        /\ order_rows_become (u "order_1") (captured_by_event sample_time)
             (w_db sample_world) (w_db w')).
Proof.
  assert (D : toy_hmac (u "whsec") (wr_text captured_request)
              <> toy_hmac (u "whsec") (toy_stringify (wr_body captured_request)))
    by discriminate.
  split; [exact D|]. split.
  - destruct (webhook_guard decimal toy_hmac toy_stringify captured_request
                sample_world) as [_ [_ [_ [Hsent _]]]].
    apply (Hsent (u "whsec")); [discriminate | reflexivity | exact D].
  - destruct (webhook_guard decimal toy_hmac toy_stringify restated_request
                sample_world) as [_ [_ [_ [_ [Hbuilt _]]]]].
    apply (Hbuilt (u "whsec") captured_entity None (u "order_1"));
      [discriminate | discriminate | reflexivity | reflexivity | reflexivity
       | constructor].
Defined.

(** ** Runs of the handlers on the sample store *)

(** A forged signature: 400, and the payment of [order_1] is failed. *)
Example tampered_signature_run :
  let (answer, w') :=
    run (post_payments_verify decimal toy_hmac toy_jwt_verify (Some (u "s3cret"))
           (Some (u "key")) (Some (u "Bearer s3cret")) tampered_body)
        sample_world in
  answer = Returned (fail_with 400 "Invalid signature")
  /\ map pay_status (payments (w_db w')) = [failed]
  /\ map pay_razorpay_signature (payments (w_db w')) = [Some (u "forged")]
  /\ map pay_verified_at (payments (w_db w')) = [None].
Proof. vm_compute. repeat split. Qed.

(** The right signature: success, captured, stamped with the time of
    the request. *)
Example signed_request_run :
  let (answer, w') :=
    run (post_payments_verify decimal toy_hmac toy_jwt_verify (Some (u "s3cret"))
           (Some (u "key")) (Some (u "Bearer s3cret")) signed_body)
        sample_world in
  (exists p, answer = Returned (mkResponse 200 true None (Some p)))
  /\ map pay_status (payments (w_db w')) = [captured]
  /\ map pay_verified_at (payments (w_db w')) = [Some sample_time].
Proof. vm_compute. split; [eexists; reflexivity | split; reflexivity]. Qed.

(** The same request to the edge function: the payment is captured and
    the answer is the 500 of the call to the function that is not
    there. *)
Example edge_signed_request_run :
  let (answer, w') :=
    run (edge_verify decimal toy_hmac true (Some (u "key")) signed_body)
        sample_world in
  answer = Returned (fail_with 500 "sendPaymentConfirmationEmail is not defined")
  /\ map pay_status (payments (w_db w')) = [captured]
  /\ map pay_verified_at (payments (w_db w')) = [Some sample_time]
  /\ w_console w' = ["payments function error:"].
Proof. vm_compute. repeat split. Qed.

(** No bearer token: the handler is not reached. *)
Example unauthenticated_run :
  run (post_payments_verify decimal toy_hmac toy_jwt_verify (Some (u "s3cret"))
         (Some (u "key")) None signed_body) sample_world
  = (Returned (fail_with 401 "Authorization header missing"), sample_world).
Proof. reflexivity. Qed.

(** A token that does not verify: 401, and a line on the console. *)
Example wrong_token_run :
  run (post_payments_verify decimal toy_hmac toy_jwt_verify (Some (u "s3cret"))
         (Some (u "key")) (Some (u "Bearer guess")) signed_body) sample_world
  = (Returned (fail_with 401 "Invalid or expired token"),
     logged sample_world "JWT verification error:").
Proof. reflexivity. Qed.

(** A ['payment.captured'] event signed as the handler expects
    captures the payment of its order; the absent [email] leaves the
    column alone. *)
Example webhook_run :
  let signature := Some (toy_hmac (u "whsec") (toy_stringify captured_event)) in
  let (answer, w') :=
    run (payments_webhook decimal toy_hmac toy_stringify (Some (u "whsec")) signature
           captured_event) sample_world in
  answer = Returned 200
  /\ map pay_status (payments (w_db w')) = [captured]
  /\ map pay_method (payments (w_db w')) = [Some (u "upi")]
  /\ map pay_email (payments (w_db w')) = [None].
Proof. vm_compute. repeat split. Qed.

(** Creating the type Investment seeds one expense category and one
    income category of that name, linked to the new type. *)
Example create_type_run :
  let (answer, w') :=
    run (post_category_types counter_uuid
           (mkCategoryTypeBody (JStr (u " Investment ")) JUndefined))
        sample_world in
  (exists row, answer = Returned (mkResponse 201 true
                           (Some "Category type created successfully") (Some row))
               /\ ct_type_name row = u "Investment"
               /\ map ec_category_type_id (expense_categories (w_db w'))
                  = [Some (u "t1"); Some (ct_id row)]
               /\ map ic_category_type_id (income_categories (w_db w'))
                  = [Some (u "t1"); Some (u "t1"); Some (ct_id row)])
  /\ map ec_category (expense_categories (w_db w')) = [u "Food"; u "Investment"]
  /\ map ec_icon (expense_categories (w_db w')) = [None; Some default_icon]
  /\ map ic_name (income_categories (w_db w'))
     = [u "Salary"; u "Business"; u "Investment"]
  /\ w_console w' = [] /\ w_calls w' = 4.
Proof.
  vm_compute. split; [eexists; repeat split|]. repeat split.
Qed.

(** Active categories are listed; inactive ones are left out. *)
Example listing_run :
  let db := set_expense_categories sample_db
              [food_category;
               mkExpenseCategory (u "c2") (u "Bills") None [] (Some (u "t1")) true
                                 earlier_time earlier_time;
               mkExpenseCategory (u "c3") (u "Apparel") None [] (Some (u "t1")) false
                                 earlier_time earlier_time] in
  exists listing w',
    run getAllCategories (calm db sample_time) = (Returned listing, w')
    /\ Permutation (map ec_category listing) [u "Food"; u "Bills"].
Proof.
  eexists _, _. split; [reflexivity|]. vm_compute. apply perm_swap.
Qed.

(** ** Income categories: worked instances *)

Lemma income_category_post_outcomes_witness :
  answering sample_world
  /\ valid_category_name (JStr (u " Pension ")) (u "Pension")
  /\ NoDup (map ic_name (income_categories (w_db sample_world)))
  /\ ~ In (u "Pension") (map ic_name (income_categories (w_db sample_world)))
  /\ exists w',
       run (post_income_categories counter_uuid (JStr (u " Pension "))) sample_world
       = (Returned (fail_with 500 "Failed to create income category"), w')
       /\ w_db w' = w_db sample_world
       /\ w_console w' = w_console sample_world ++ ["Error creating income category:"].
Proof.
  assert (Hname : valid_category_name (JStr (u " Pension ")) (u "Pension")).
  { exists (u " Pension "). repeat split; [discriminate | simpl; lia]. }
  assert (Hnames : NoDup (map ic_name (income_categories (w_db sample_world)))).
  { simpl. constructor.
    - intros [H | []]. discriminate.
    - constructor; [intros [] | constructor]. }
  assert (Hfree : ~ In (u "Pension")
                       (map ic_name (income_categories (w_db sample_world)))).
  { simpl. intros [H | [H | []]]; discriminate. }
  split; [constructor|]. split; [exact Hname|]. split; [exact Hnames|].
  split; [exact Hfree|].
  apply (proj1 (income_category_post_outcomes counter_uuid (JStr (u " Pension "))
                  (u "Pension") sample_world ltac:(constructor) Hname Hnames)).
  exact Hfree.
Defined.


Lemma income_routes_keep_integrity_witness :
  income_integrity (w_db sample_world)
  /\ (forall id, income_integrity
                   (w_db (snd (run (delete_income_category id) sample_world)))).
Proof.
  assert (Hinv : income_integrity (w_db sample_world)).
  { split; [constructor|]. split.
    - simpl. constructor.
      + intros [H | []]. discriminate.
      + constructor; [intros [] | constructor].
    - intros s []. }
  split; [exact Hinv|].
  exact (proj1 (proj2 (proj2 (income_routes_keep_integrity counter_uuid
                                sample_world Hinv)))).
Defined.

(** ** Worked instances for the remaining routes *)

Lemma income_subcategory_update_guard_witness :
  nonempty (u "s1") = true
  /\ answering income_world
  /\ In (u "s1") (map isc_id (income_subcategories (w_db income_world)))
  /\ income_category_exists (w_db income_world) (u "i1")
  /\ exists r w',
       run (update_income_subcategory (u "s1")
              (mkIncomeSubcategoryInput (u "i1") (u "Overtime") false))
           income_world
       = (Returned r, w')
       /\ (r = fail_with 409 msg_subcategory_exists /\ w_db w' = w_db income_world
           \/ status r = 200 /\ success r = true).
Proof.
  assert (Hin : In (u "s1") (map isc_id (income_subcategories (w_db income_world))))
    by (simpl; auto).
  assert (Hcat : income_category_exists (w_db income_world) (u "i1"))
    by (unfold income_category_exists; simpl; auto).
  split; [reflexivity|]. split; [constructor|]. split; [exact Hin|].
  split; [exact Hcat|].
  destruct (income_subcategory_update_guard (u "s1")
              (mkIncomeSubcategoryInput (u "i1") (u "Overtime") false)
              income_world) as [r [w' [Hrun Hcases]]].
  - reflexivity.
  - constructor.
  - simpl. lia.
  - unfold unique_subcategories. simpl. constructor.
    + intros [H | []]. discriminate.
    + constructor; [intros [] | constructor].
  - simpl. constructor.
    + intros [H | []]. discriminate.
    + constructor; [intros [] | constructor].
  - exact Hin.
  - simpl. constructor.
    + intros [H | []]. discriminate.
    + constructor; [intros [] | constructor].
  - exact Hcat.
  - exists r, w'. split; [exact Hrun|].
    destruct Hcases as [[_ [Hr Hdb]] | [_ [Hs [Hok _]]]]; [left | right]; now split.
Defined.


Lemma created_category_type_is_in_use_witness :
  answering sample_world
  /\ exists row seeded w1 w2,
       run (create_category_type counter_uuid (mkCategoryTypeInput (u "Travel") None))
           sample_world
       = (Returned (mkResponse 201 true (Some "Category type created successfully")
                               (Some row)), w1)
       /\ ct_type_name row = u "Travel"
       /\ In row (category_types (w_db w1))
       /\ In seeded (expense_categories (w_db w1))
       /\ ec_category seeded = u "Travel"
       /\ ec_category_type_id seeded = Some (ct_id row)
       /\ ec_icon seeded = Some default_icon
       /\ ec_subcategories seeded = []
       /\ ec_is_active seeded = true
       /\ run (delete_category_type (ct_id row)) w1
          = (Returned (fail_with 409
               "Cannot delete category type that is being used by expense categories"),
             w2)
       /\ w_db w2 = w_db w1.
Proof.
  split; [constructor|].
  apply (created_category_type_is_in_use counter_uuid
           (mkCategoryTypeInput (u "Travel") None) sample_world).
  - constructor.
  - intros [r [[<- | []] H]]. discriminate.
  - simpl. lia.
  - intros [r [[<- | []] H]]. discriminate.
  - reflexivity.
  - simpl. constructor.
    + intros [H | []]. discriminate.
    + constructor; [intros [] | constructor].
Defined.

Lemma listings_are_complete_witness :
  answering income_world
  /\ In salary_category (income_categories (w_db income_world))
  /\ NoDup (map ic_id (income_categories (w_db income_world)))
  /\ (exists listed w',
        run (list_income_categories by_code_units) income_world
        = (Returned (mkResponse 200 true None (Some listed)), w')
        /\ w_db w' = w_db income_world
        /\ Permutation (income_categories (w_db income_world)) listed)
  /\ (exists views w',
        run (list_income_subcategories by_code_units (u "i1")) income_world
        = (Returned (mkResponse 200 true None (Some views)), w')
        /\ length views = 2
        /\ (forall v, In v views ->
                      isv_income_categories v = Some (u "i1", u "Salary"))).
Proof.
  assert (A : answering income_world) by constructor.
  assert (Hin : In salary_category (income_categories (w_db income_world)))
    by (simpl; auto).
  assert (Hids : NoDup (map ic_id (income_categories (w_db income_world)))).
  { simpl. constructor.
    - intros [H | []]. discriminate.
    - constructor; [intros [] | constructor]. }
  split; [exact A|]. split; [exact Hin|]. split; [exact Hids|].
  destruct (listings_are_complete by_code_units by_code_units_rows income_world A)
    as [_ [Hcategories Hsubcategories]].
  split; [exact Hcategories|].
  destruct (Hsubcategories salary_category Hin ltac:(discriminate) Hids)
    as [views [w' [Hrun [_ [_ [Hlen [Hparent _]]]]]]].
  exists views, w'. split; [exact Hrun|]. split; [exact Hlen | exact Hparent].
Defined.

Lemma capture_is_not_final_witness :
  answering sample_world
  /\ one_row_per_order (w_db sample_world)
  /\ u "forged" <> toy_hmac (u "key") (u "order_1|pay_9")
  /\ exists r w1 w2,
       run (verify_payment decimal toy_hmac (Some (u "key")) signed_body) sample_world
       = (Returned r, w1)
       /\ status r = 200 /\ success r = true
       /\ order_rows_become (u "order_1")
            (now_captured (u "pay_1") (toy_hmac (u "key") (u "order_1|pay_1"))
                          sample_time)
            (w_db sample_world) (w_db w1)
       /\ run (verify_payment decimal toy_hmac (Some (u "key"))
                 (mkVerifyBody (JStr (u "order_1")) (JStr (u "pay_9"))
                               (JStr (u "forged"))))
              (at_time w1 later_time)
          = (Returned (fail_with 400 "Invalid signature"), w2)
       /\ order_rows_become (u "order_1")
            (now_failed (u "pay_9") (u "forged") later_time) (w_db w1) (w_db w2)
       /\ (forall row, In row (payments (w_db w2)) ->
                       pay_razorpay_order_id row = Some (u "order_1") ->
                       pay_status row = failed
                       /\ pay_verified_at row = Some sample_time
                       /\ pay_updated_at row = later_time)
       /\ map pay_id (payments (w_db w2)) = map pay_id (payments (w_db sample_world)).
Proof.
  assert (F : u "forged" <> toy_hmac (u "key") (u "order_1|pay_9")) by discriminate.
  split; [constructor|]. split; [exact sample_orders_unique|]. split; [exact F|].
  apply (capture_is_not_final decimal toy_hmac (u "key") (u "order_1") (u "pay_1")
           (toy_hmac (u "key") (u "order_1|pay_1")) (u "pay_9") (u "forged")
           later_time sample_world).
  - constructor.
  - exact sample_orders_unique.
  - discriminate.
  - discriminate.
  - discriminate.
  - discriminate.
  - discriminate.
  - reflexivity.
  - exact F.
Defined.

Lemma webhook_redelivery_witness :
  answering sample_world
  /\ exists w1 w2 w3 w4,
       run (payments_webhook decimal toy_hmac toy_stringify (Some (u "whsec"))
              (Some (toy_hmac (u "whsec") (toy_stringify captured_event)))
              captured_event) sample_world
       = (Returned 200, w1)
       /\ run (payments_webhook decimal toy_hmac toy_stringify (Some (u "whsec"))
                 (Some (toy_hmac (u "whsec") (toy_stringify captured_event)))
                 captured_event) (at_time w1 later_time)
          = (Returned 200, w2)
       /\ run (payments_webhook decimal toy_hmac toy_stringify (Some (u "whsec"))
                 (Some (toy_hmac (u "whsec") (toy_stringify captured_event)))
                 captured_event) (at_time sample_world later_time)
          = (Returned 200, w3)
       /\ w_db w2 = w_db w3
       /\ run (payments_webhook decimal toy_hmac toy_stringify (Some (u "whsec"))
                 (Some (toy_hmac (u "whsec") (toy_stringify captured_event)))
                 captured_event) w1
          = (Returned 200, w4)
       /\ w_db w4 = w_db w1.
Proof.
  split; [constructor|].
  apply (webhook_redelivery decimal toy_hmac toy_stringify (u "whsec")
           captured_entity
           (Some (toy_hmac (u "whsec") (toy_stringify captured_event)))
           captured_event sample_world later_time).
  - discriminate.
  - reflexivity.
  - reflexivity.
  - reflexivity.
  - reflexivity.
  - constructor.
Defined.

Lemma subcategory_add_delete_round_trip_witness :
  answering sample_world
  /\ filter (category_row_is (u "c1")) (expense_categories (w_db sample_world))
     = [food_category]
  /\ exists r1 w1 w2,
       run (addSubcategory (u "c1") (mkSubcategory (u "Snacks") None false None))
           sample_world
       = (Returned (Some r1), w1)
       /\ ec_subcategories r1
          = ec_subcategories food_category
            ++ [mkSubcategory (u "Snacks") None false None]
       /\ run (deleteSubcategory (u "c1") (u "Snacks")) w1
          = (Returned (Some (touch_expense_category (w_now sample_world)
                               food_category)), w2)
       /\ expense_categories (w_db w2)
          = map (update_row (u "c1") (fun x => x) (w_now sample_world))
                (expense_categories (w_db sample_world)).
Proof.
  split; [constructor|]. split; [reflexivity|].
  apply (subcategory_add_delete_round_trip (u "c1")
           (mkSubcategory (u "Snacks") None false None) food_category sample_world).
  - constructor.
  - reflexivity.
  - simpl. intros [H | []]. discriminate.
Defined.


Lemma soft_delete_can_be_undone_witness :
  answering sample_world
  /\ ec_is_active food_category = true
  /\ exists w1 w2 w3,
       run (deleteCategory (u "c1")) sample_world = (Returned true, w1)
       /\ run (getSubcategories (ec_category food_category)) w1 = (Returned [], w2)
       /\ run (updateCategory (u "c1") reactivate) w1
          = (Returned (Some (touch_expense_category (w_now sample_world)
                               food_category)), w3)
       /\ expense_categories (w_db w3)
          = map (update_row (u "c1") (fun x => x) (w_now sample_world))
                (expense_categories (w_db sample_world)).
Proof.
  split; [constructor|]. split; [reflexivity|].
  apply (soft_delete_can_be_undone (u "c1") food_category sample_world).
  - constructor.
  - simpl. constructor; [intros [] | constructor].
  - reflexivity.
  - reflexivity.
  - reflexivity.
Defined.

Lemma created_order_can_be_captured_witness :
  answering sample_world
  /\ order_fields_missing lunch_order = false
  /\ exists w1 p w2,
       run (create_order counter_uuid decimal known_users toy_parse_numeric
              (fun body => toy_orders_create (u "INR") (ob_amount body))
              lunch_order) sample_world
       = (Returned (mkResponse 200 true None
                      (Some (mkRazorpayOrder (u "order_" ++ sample_time) 125000
                                             (u "INR")))), w1)
       /\ run (verify_payment decimal toy_hmac (Some (u "key"))
                 (checkout_response toy_hmac (u "key") (u "order_" ++ sample_time)
                                    (u "pay_2"))) w1
          = (Returned (mkResponse 200 true None (Some p)), w2)
       /\ In p (payments (w_db w2))
       /\ pay_status p = captured
       /\ pay_verified_at p = Some (w_now sample_world)
       /\ pay_razorpay_order_id p = Some (u "order_" ++ sample_time)
       /\ pay_razorpay_payment_id p = Some (u "pay_2")
       /\ pay_razorpay_signature p
          = Some (toy_hmac (u "key") ((u "order_" ++ sample_time) ++ u "|" ++ u "pay_2"))
       /\ text_of decimal (ob_userId lunch_order) = Some (pay_user_id p)
       /\ numeric_of toy_parse_numeric (ob_amount lunch_order) = Some (pay_amount p)
       /\ length (payments (w_db w2)) = S (length (payments (w_db sample_world))).
Proof.
  split; [constructor|]. split; [reflexivity|].
  apply (created_order_can_be_captured counter_uuid decimal toy_hmac known_users
           toy_parse_numeric
           (fun body => toy_orders_create (u "INR") (ob_amount body))
           (u "key") (u "pay_2") lunch_order
           (mkRazorpayOrder (u "order_" ++ sample_time) 125000 (u "INR"))
           sample_world).
  - constructor.
  - reflexivity.
  - reflexivity.
  - split; [exists (u "user1"); split; [reflexivity | simpl; auto]|].
    split; [exists 1250%Z; split; [reflexivity | reflexivity]|].
    split; [exists (u "INR"); reflexivity|].
    split.
    + intros e [= <-]. exists lunch. split; [simpl; auto | reflexivity].
    + simpl. intros [H | []]. discriminate.
  - discriminate.
  - discriminate.
  - discriminate.
Defined.

Lemma income_category_rename_witness :
  nonempty (u "i1") = true
  /\ answering income_world
  /\ exists r w',
       run (update_income_category (u "i1") (u "Wages")) income_world
       = (Returned r, w')
       /\ (r = fail_with 409 "Income category with this name already exists"
           \/ status r = 200
              /\ exists views w'',
                   run (list_income_subcategories by_code_units (u "i1")) w'
                   = (Returned (mkResponse 200 true None (Some views)), w'')
                   /\ forall v, In v views ->
                                isv_income_categories v = Some (u "i1", u "Wages")).
Proof.
  split; [reflexivity|]. split; [constructor|].
  destruct (income_category_rename by_code_units by_code_units_rows
              (u "i1") (u "Wages") income_world)
    as [r [w' [Hrun Hcases]]].
  - reflexivity.
  - constructor.
  - simpl. lia.
  - simpl. constructor.
    + intros [H | []]. discriminate.
    + constructor; [intros [] | constructor].
  - simpl. constructor.
    + intros [H | []]. discriminate.
    + constructor; [intros [] | constructor].
  - simpl. auto.
  - exists r, w'. split; [exact Hrun|].
    destruct Hcases as [[_ [-> _]] | [_ [Hs [_ [_ [_ [_ [views [w'' [Hl [_ Hv]]]]]]]]]]].
    + left. reflexivity.
    + right. split; [exact Hs|]. exists views, w''. now split.
Defined.

Lemma income_subcategory_round_trip_witness :
  answering ledger_world
  /\ income_references_hold (w_db ledger_world)
  /\ income_category_exists (w_db ledger_world) (u "i2")
  /\ exists view w1 w2,
       run (create_income_subcategory counter_uuid
              (mkIncomeSubcategoryInput (u "i2") (u "Bonus") true)) ledger_world
       = (Returned (mkResponse 201 true
                      (Some "Income subcategory created successfully")
                      (Some view)), w1)
       /\ isc_category_id (isv_row view) = u "i2"
       /\ isc_name (isv_row view) = u "Bonus"
       /\ isc_is_recurring (isv_row view) = true
       /\ In (isv_row view) (income_subcategories (w_db w1))
       /\ run (delete_income_subcategory (isc_id (isv_row view))) w1
          = (Returned (mkResponse 200 true
                         (Some "Income subcategory deleted successfully") None), w2)
       /\ w_db w2 = w_db ledger_world.
Proof.
  assert (Hcat : income_category_exists (w_db ledger_world) (u "i2"))
    by (unfold income_category_exists; simpl; auto).
  assert (Hrefs : income_references_hold (w_db ledger_world)).
  { intros i [<- | [<- | []]]; split; intros x E; try discriminate;
      injection E as <-; simpl; auto. }
  split; [constructor|]. split; [exact Hrefs|]. split; [exact Hcat|].
  apply (income_subcategory_round_trip counter_uuid
           (mkIncomeSubcategoryInput (u "i2") (u "Bonus") true) ledger_world).
  - constructor.
  - simpl. lia.
  - simpl. constructor.
    + intros [H | []]. discriminate.
    + constructor; [intros [] | constructor].
  - exact Hrefs.
  - exact Hcat.
  - unfold has_subcategory. simpl. intros [H | [H | []]]; discriminate.
  - reflexivity.
  - simpl. intros [H | [H | []]]; discriminate.
Defined.

(** ** Runs of the remaining routes on the sample store *)

(** The request the checkout page sends to the function's root path
    to verify a payment: it is answered by the create-order branch. *)
Example edge_verify_by_action_run :
  run (serve counter_uuid decimal toy_hmac known_users toy_parse_numeric
         (fun body => toy_orders_create (u "INR") (ob_amount body))
         true (Some (u "key")) POST (u "/functions/v1/payments")
         (mkEdgeBody (JStr (u "verify"))
            (mkOrderBody JUndefined JUndefined JUndefined JUndefined JUndefined)
            signed_body))
      sample_world
  = (Returned (OrderAnswer (fail_with 400 "amount and userId are required")),
     sample_world).
Proof. reflexivity. Qed.

(** Deleting the category Salary takes its two subcategories along and
    releases the income record that referred to them; the record under
    Business is not touched. *)
Example delete_income_category_run :
  let (answer, w') := run (delete_income_category (u "i1")) ledger_world in
  answer = Returned (mkResponse 200 true
                       (Some "Income category deleted successfully") None)
  /\ map ic_name (income_categories (w_db w')) = [u "Business"]
  /\ income_subcategories (w_db w') = []
  /\ map inc_category_id (incomes (w_db w')) = [None; Some (u "i2")]
  /\ map inc_subcategory_id (incomes (w_db w')) = [None; None]
  /\ map inc_category (incomes (w_db w')) = [u "Salary"; u "Business"]
  /\ map inc_updated_at (incomes (w_db w')) = [sample_time; earlier_time].
Proof. vm_compute. repeat split. Qed.

(** A token is accepted under any scheme word. *)
Example basic_scheme_run :
  run (@jwtAuthMiddleware toy_jwt_verify payment (Some (u "s3cret"))
         (Some (u "Basic s3cret"))) sample_world
  = (Returned (Next tt), sample_world).
Proof. reflexivity. Qed.

(** Posting an income category: the insert carries no category type
    and is refused. *)
Example post_income_category_run :
  run (post_income_categories counter_uuid (JStr (u "Pension"))) sample_world
  = (Returned (fail_with 500 "Failed to create income category"),
     mkWorld sample_db sample_time [] ["Error creating income category:"] 2 []).
Proof. reflexivity. Qed.
